(** * The teaching notebooks: a shallow embedding

    The repository holds two Jupyter notebooks.  [Exercises.ipynb]
    (Edinburgh 2018) loads a sample matrix from a packed-array file and
    leaves the analysis cells to the student.  The ML-Helio tutorial reads
    the monthly sunspot series, standardises the time column, fits two
    kernel regressors and trains a small fully-connected network.

    A notebook is a list of code cells run by one kernel.  A cell is a
    computation over the kernel state (the global namespace, the object
    heap, the files it can read, the printed lines and a log of the
    library calls made) that either completes or raises.  The routines
    of numpy, pandas, scikit-learn and PyTorch are used by the
    notebooks, not written by them: their floating-point arithmetic,
    the parsing of a text into a table and the fitting of a regressor
    are parameters of the development ([Numerics], [Learners]); their
    shapes, their element types, the checks they make of their
    arguments and their effects on the kernel are modelled. *)

From Stdlib Require Import ZArith Lia Floats Ascii String.
From stdpp Require Import base option list strings gmap pretty.

Open Scope string_scope.
Open Scope list_scope.
Open Scope nat_scope.

(** ** Floating-point numbers, as a parameter *)

Class Numerics := {
  num : Type;
  (** [float(k)] for an integer literal *)
  of_Z : Z → num;
  (** [decimal m e]: the literal written [m] times ten to the [e] *)
  decimal : Z → Z → num;
  nan : num;
  fadd : num → num → num;
  fsub : num → num → num;
  fmul : num → num → num;
  fdiv : num → num → num;
  fmax : num → num → num;
  (** rounding to single precision, [tensor.float()] *)
  single : num → num;
  (** [np.isfinite] and [np.isnan]: an infinity is neither *)
  is_finite : num → bool;
  is_nan : num → bool;
  (** [str(x)] *)
  to_text : num → string;
  (** reductions as the libraries compute them: [np.mean], the population
      standard deviation that [StandardScaler] stores as its scale, the
      inner product of [nn.Linear] and the mean squared error *)
  mean : list num → num;
  std : list num → num;
  dot : list num → list num → num;
  mse : list num → list num → num;
}.

(** ** Exceptions and results *)

Inductive Exn :=
  | FileNotFoundError (path : string)
  | ParserError (line : nat)
  | KeyError (key : string)
  | NameError (name : string)
  | TypeError (expected : string)
  | AttributeError (attr : string)
  | IndexError
  | ValueError (msg : string)
  | RuntimeError (msg : string)
  | AssertionError.

#[export] Instance Exn_eq_dec : EqDecision Exn.
Proof. solve_decision. Defined.

Inductive Result (A : Type) :=
  | Ok (a : A)
  | Raise (e : Exn).
Arguments Ok {A} a.
Arguments Raise {A} e.

(** ** numpy: arrays as a shape and the elements in row-major order *)

Module np.
Section Arrays.
Context `{Numerics}.

Record ndarray := NdArray { shape : list nat; data : list num }.

Definition size_of (sh : list nat) : nat := foldr Nat.mul 1 sh.

(** a one-dimensional array of the elements of a list *)
Definition array (l : list num) : ndarray :=
  {| shape := [length l]; data := l |}.

Definition zeros (n : nat) : ndarray := array (replicate n (of_Z 0)).

(** The shape [reshape] produces from its arguments: at most one
    dimension may be [-1], which is then inferred from the size. *)
Definition infer_shape (total : nat) (dims : list Z) : Result (list nat) :=
  if bool_decide (Exists (λ d, d < -1)%Z dims)
  then Raise (ValueError "negative dimensions not allowed")
  else
    let known := size_of (Z.to_nat <$> filter (λ d, d ≠ (-1)%Z) dims) in
    match length (filter (λ d, d = (-1)%Z) dims) with
    | 0 =>
        if bool_decide (known = total) then Ok (Z.to_nat <$> dims)
        else Raise (ValueError "cannot reshape array")
    | 1 =>
        if bool_decide (known = 0 ∨ total `mod` known ≠ 0)
        then Raise (ValueError "cannot reshape array")
        else Ok ((λ d, if bool_decide (d = (-1)%Z)
                       then total `div` known else Z.to_nat d) <$> dims)
    | _ => Raise (ValueError "can only specify one unknown dimension")
    end.

(** [a.reshape(dims)]: the same elements under a new shape *)
Definition reshape (a : ndarray) (dims : list Z) : Result ndarray :=
  match infer_shape (length (data a)) dims with
  | Ok sh => Ok {| shape := sh; data := data a |}
  | Raise e => Raise e
  end.

(** A slice bound of Python: negative bounds count from the end, and
    the bound is clipped to the axis. *)
Definition bound (n : nat) (dflt : nat) (i : option Z) : nat :=
  match i with
  | None => dflt
  | Some i =>
      let i' := if bool_decide (i < 0)%Z then (i + Z.of_nat n)%Z else i in
      Z.to_nat (Z.max 0 (Z.min i' (Z.of_nat n)))
  end.

(** the sub-arrays [lo], ..., [hi - 1] along the first axis of an array
    whose other axes are [rest] *)
Definition between (lo hi : nat) (rest : list nat) (a : ndarray) : ndarray :=
  {| shape := (hi - lo) :: rest;
     data := take ((hi - lo) * size_of rest) (drop (lo * size_of rest) (data a)) |}.

(** [a[start:stop]]: a slice along the first axis *)
Definition getslice (a : ndarray) (start stop : option Z) : Result ndarray :=
  match shape a with
  | [] => Raise IndexError
  | n :: rest => Ok (between (bound n 0 start) (bound n n stop) rest a)
  end.

(** block [i] of [k] consecutive elements of a list, and all the blocks *)
Definition block {A} (k : nat) (l : list A) (i : nat) : list A :=
  take k (drop (i * k) l).
Definition chunks {A} (k : nat) (l : list A) : list (list A) :=
  block k l <$> seq 0 (length l `div` k).

(** [np.linspace(start, stop, n)]: [n] evenly spaced points, the last
    one being [stop] itself *)
Definition linspace (start stop : num) (n : nat) : ndarray :=
  let step := fdiv (fsub stop start) (of_Z (Z.of_nat (n - 1))) in
  array ((λ i, if bool_decide (0 < i ∧ i = n - 1) then stop
               else fadd start (fmul (of_Z (Z.of_nat i)) step)) <$> seq 0 n).

(** an elementwise operation keeps the shape *)
Definition map_array (f : num → num) (a : ndarray) : ndarray :=
  {| shape := shape a; data := f <$> data a |}.

(** Broadcasting.  Two shapes are aligned at their last axes; two
    lengths agree when they are equal or one of them is 1, and the
    common shape takes the other one. *)
Fixpoint broadcast_aligned (a b : list nat) : option (list nat) :=
  match a, b with
  | [], s => Some s
  | s, [] => Some s
  | x :: a', y :: b' =>
      if bool_decide (x = y ∨ y = 1) then cons x <$> broadcast_aligned a' b'
      else if bool_decide (x = 1) then cons y <$> broadcast_aligned a' b'
      else None
  end.
Definition broadcast_shapes (a b : list nat) : option (list nat) :=
  reverse <$> broadcast_aligned (reverse a) (reverse b).

(** the elements of an array of shape [sh] seen under a shape [target]
    that it broadcasts to: an axis that is missing or has length 1 is
    repeated *)
Fixpoint broadcast_to (sh target : list nat) (d : list num) : list num :=
  match target with
  | [] => d
  | t :: target' =>
      if bool_decide (length sh < length target)
      then concat (replicate t (broadcast_to sh target' d))
      else match sh with
           | [] => d
           | s :: sh' =>
               concat ((λ i, broadcast_to sh' target'
                               (block (size_of sh') d
                                  (if bool_decide (s = 1) then 0 else i)))
                         <$> seq 0 t)
           end
  end.

End Arrays.
End np.

(** Sequencing of fallible library calls. *)
#[export] Instance Result_ret : MRet Result := @Ok.
#[export] Instance Result_bind : MBind Result := λ A B f r,
  match r with
  | Ok a => f a
  | Raise e => Raise e
  end.
#[export] Instance Result_fmap : FMap Result := λ A B f r,
  match r with
  | Ok a => Ok (f a)
  | Raise e => Raise e
  end.

(** ** The files the kernel can open *)

Section Files.
Context `{Numerics}.

Inductive File :=
  | TextFile (text : string)
  | NpzFile (arrays : gmap string np.ndarray).

(** [np.load(path)[key]]: the array saved under [key] in an archive *)
Definition np_load_item (files : gmap string File) (path key : string)
  : Result np.ndarray :=
  match files !! path with
  | Some (NpzFile arrays) =>
      match arrays !! key with
      | Some a => Ok a
      | None => Raise (KeyError key)
      end
  | Some (TextFile _) => Raise (ValueError "cannot load file as an archive")
  | None => Raise (FileNotFoundError path)
  end.

End Files.

(** ** torch.nn: layers and the network of the tutorial *)

Module nn.
Section Layers.
Context `{Numerics}.

(** The element type of a tensor.  The parameters of a layer are single
    precision; a tensor made from a numpy array of the notebook has the
    element type of that array, double precision, until [.float()]
    converts it. *)
Inductive dtype := float32 | float64.

#[export] Instance dtype_eq_dec : EqDecision dtype.
Proof. solve_decision. Defined.

(** the element type of the result of an operation on two tensors *)
Definition promote (a b : dtype) : dtype :=
  match a, b with
  | float32, float32 => float32
  | _, _ => float64
  end.

(** A parameter tensor and the gradient accumulated for it. *)
Record Param := { value : np.ndarray; grad : option np.ndarray }.

Record Linear := {
  in_features : nat;
  out_features : nat;
  weight : Param;
  bias : Param;
}.

(** the rows of the weight matrix, one per output feature *)
Definition weight_rows (l : Linear) : list (list num) :=
  np.chunks (in_features l) (np.data (value (weight l))).

(** one sample through a layer: [W x + b] *)
Definition affine (l : Linear) (x : list num) : list num :=
  zip_with (λ w b, fadd (dot w x) b) (weight_rows l) (np.data (value (bias l))).

(** [layer(x)]: the layer applied along the last axis of its input,
    which must have the width and the element type of the weights *)
Definition linear (l : Linear) (dt : dtype) (x : np.ndarray) : Result np.ndarray :=
  match last (np.shape x) with
  | Some k =>
      if bool_decide (k = in_features l)
      then
        if bool_decide (dt = float32)
        then Ok {| np.shape := removelast (np.shape x) ++ [out_features l];
                   np.data := concat (affine l <$> np.chunks k (np.data x)) |}
        else Raise (RuntimeError "expected scalar type Float but found Double")
      else Raise (RuntimeError "size mismatch")
  | None => Raise (RuntimeError "size mismatch")
  end.

Definition map_linear (f g : Param → Param) (l : Linear) : Linear :=
  {| in_features := in_features l; out_features := out_features l;
     weight := f (weight l); bias := g (bias l) |}.

(** [F.relu]: the elementwise maximum with zero *)
Definition relu (x : np.ndarray) : np.ndarray := np.map_array (fmax (of_Z 0)) x.

End Layers.
End nn.

Module FCN.
Section Network.
Context `{Numerics}.

(** The module object: its three layers and its train/eval flag. *)
Record t := {
  fc1 : nn.Linear;
  fc1b : nn.Linear;
  fc2 : nn.Linear;
  training : bool;
}.

(** [forward(self, x)], for an input [x] of element type [dt] *)
Definition forward (self : t) (dt : nn.dtype) (x : np.ndarray)
  : Result np.ndarray :=
  out ← nn.relu <$> nn.linear (fc1 self) dt x;
  out ← nn.relu <$> nn.linear (fc1b self) dt out;
  nn.linear (fc2 self) dt out.

(** [parameters()], in registration order *)
Definition parameters (self : t) : list nn.Param :=
  [nn.weight (fc1 self); nn.bias (fc1 self);
   nn.weight (fc1b self); nn.bias (fc1b self);
   nn.weight (fc2 self); nn.bias (fc2 self)].

(** the module with every parameter replaced, by its position in
    [parameters()] *)
Definition map_parameters (f : nat → nn.Param → nn.Param) (self : t) : t :=
  {| fc1 := nn.map_linear (f 0) (f 1) (fc1 self);
     fc1b := nn.map_linear (f 2) (f 3) (fc1b self);
     fc2 := nn.map_linear (f 4) (f 5) (fc2 self);
     training := training self |}.

(** [train()] and [eval()] set the mode flag *)
Definition set_training (b : bool) (self : t) : t :=
  {| fc1 := fc1 self; fc1b := fc1b self; fc2 := fc2 self; training := b |}.

End Network.
End FCN.

(** ** What the libraries compute: the regressors, the reader, the optimiser *)

Inductive Algo := SVR | KernelRidge.

(** the functions the tutorial defines with [def] *)
Inductive Def := plot_svr | plot_krr | plot_comp | plot_nn.

Section Estimators.
Context `{Numerics}.

(** kernel expressions of [sklearn.gaussian_process.kernels] *)
Inductive KernelExpr :=
  | ConstantKernel (constant_value : num)
  | ExpSineSquared (length_scale periodicity : num)
  | RBF (length_scale : num)
  | KSum (a b : KernelExpr)
  | KProduct (a b : KernelExpr).

(** What the libraries compute and the notebooks only call: the rows of
    values the reader of pandas makes of a text, given the separator,
    the header row and the names of the columns; fitting and evaluating
    a regressor, with the validation of their arguments; the initial
    draw of a layer's parameters, the gradient of the loss that autograd
    stores for each parameter element, and Adam's update of one element
    (with its default hyper-parameters), from the learning rate, the
    step number, the element, its gradient and its two moment estimates;
    and the lines in which IPython's time magic reports the times it
    measured, which differ from run to run and are given here by the
    number of events the kernel has logged. *)
Class Learners := {
  read_rows : ascii → option nat → list string → string → Result (list (list num));
  time_report : nat → list string;
  model : Type;
  fit_regressor : Algo → KernelExpr → np.ndarray → np.ndarray → Result model;
  predict_regressor : model → np.ndarray → Result np.ndarray;
  uniform_init : nat → nat → num;
  grad_of : FCN.t → np.ndarray → np.ndarray → nat → nat → num;
  adam_update : num → nat → num → num → num → num → num * num * num;
}.

End Estimators.

(** ** pandas: the delimited-text reader and column access *)

Module pd.
Section Frames.
Context `{Numerics} `{!Learners}.

(** A frame is stored by column, in column order. *)
Definition DataFrame := list (string * list num).

(** the value of column [j] in a row of the table; a row that is too
    short has a missing value there *)
Definition cell (j : nat) (r : list num) : num := default nan (r !! j).

(** the frame of a table given by its rows: one column for every name,
    in the order of the names *)
Definition frame (names : list string) (rows : list (list num)) : DataFrame :=
  imap (λ j name, (name, cell j <$> rows)) names.

(** [pd.read_csv(path, sep=sep, header=header, names=names)]: the file
    is looked up, and its text is handed to the reader of the library
    with the separator, the header row and the names as they are given.
    The columns of the frame are those of [names], in that order. *)
Definition read_csv (files : gmap string File) (path : string) (sep : ascii)
    (header : option nat) (names : list string) : Result DataFrame :=
  match files !! path with
  | None => Raise (FileNotFoundError path)
  | Some (NpzFile _) => Raise (ValueError "cannot decode the file as text")
  | Some (TextFile text) => frame names <$> read_rows sep header names text
  end.

(** [df[name]]: the column of that name *)
Definition getitem (df : DataFrame) (name : string) : Result (list num) :=
  match list_find (λ c, c.1 = name) df with
  | Some (_, c) => Ok c.2
  | None => Raise (KeyError name)
  end.

(** [series.to_numpy()] *)
Definition to_numpy (col : list num) : np.ndarray := np.array col.

End Frames.
End pd.

(** ** scikit-learn: the scaler *)

Module StandardScaler.
Section Scaler.
Context `{Numerics}.

(** The fitted state: [mean_] and [scale_], one entry per feature. *)
Record t := { mean_ : list num; scale_ : list num }.

(** feature column [j] of a two-dimensional array with [f] columns *)
Definition column (f j : nat) (X : np.ndarray) : list num :=
  (λ r, default nan (r !! j)) <$> np.chunks f (np.data X).

(** What the scaler accepts in its input: finite numbers and missing
    values, but no infinity. *)
Definition admissible (x : num) : bool := is_finite x || is_nan x.

(** [fit(X)]: the statistics of every feature column *)
Definition fit (X : np.ndarray) : Result t :=
  match np.shape X with
  | [n; f] =>
      if bool_decide (n = 0 ∨ f = 0)
      then Raise (ValueError "found array with no sample or no feature")
      else if forallb admissible (np.data X)
      then Ok {| mean_ := (λ j, mean (column f j X)) <$> seq 0 f;
                 scale_ := (λ j, std (column f j X)) <$> seq 0 f |}
      else Raise (ValueError "input contains infinity")
  | _ => Raise (ValueError "expected 2D array")
  end.

(** the standard score of a value of feature [j] *)
Definition score (s : t) (j : nat) (x : num) : num :=
  fdiv (fsub x (default nan (mean_ s !! j))) (default nan (scale_ s !! j)).

(** [transform(X)]: every element replaced by its standard score *)
Definition transform (s : option t) (X : np.ndarray) : Result np.ndarray :=
  match s with
  | None => Raise (ValueError "this StandardScaler instance is not fitted yet")
  | Some s =>
      match np.shape X with
      | [n; f] =>
          if forallb admissible (np.data X)
          then
            if bool_decide (f = length (mean_ s) ∧ n ≠ 0)
            then Ok {| np.shape := [n; f];
                       np.data := imap (λ p x, score s (p `mod` f) x) (np.data X) |}
            else Raise (ValueError "number of features does not match")
          else Raise (ValueError "input contains infinity")
      | _ => Raise (ValueError "expected 2D array")
      end
  end.

End Scaler.
End StandardScaler.

(** ** The kernel: values, objects, state *)

Section Kernel.
Context `{Numerics} `{!Learners}.

(** What a tensor remembers of the computation that produced it, when
    gradients are enabled: the module it went through and its input, and
    for a loss the target as well. *)
Inductive Tape :=
  | TForward (module : nat) (input : np.ndarray)
  | TLoss (module : nat) (input target : np.ndarray).

Inductive PyVal :=
  | VNone
  | VInt (z : Z)
  | VFloat (x : num)
  | VModule (name : string)
  | VClass (name : string)
  | VFunction (def : Def)
  | VArray (a : np.ndarray)
  | VFrame (df : pd.DataFrame)
  | VTensor (dt : nn.dtype) (a : np.ndarray) (tape : option Tape)
  | VDataset (X y : np.ndarray)
  | VLoader (X y : np.ndarray) (batch_size : nat)
  | VLossFn
  | VList (tensors : list (nn.dtype * np.ndarray * option Tape))
  | VRef (id : nat).

(** Adam's state for one parameter tensor. *)
Record Slot := { steps : nat; exp_avg : list num; exp_avg_sq : list num }.

(** An optimiser refers to the module whose parameters it was given, and
    keeps its state in a dictionary keyed by parameter. *)
Record Adam := { params : nat; rate : num; state : gmap nat Slot }.

(** Mutable objects live on a heap and are referred to by [VRef]. *)
Inductive Obj :=
  | OScaler (fitted : option StandardScaler.t)
  | ORegressor (algo : Algo) (kernel : KernelExpr) (fitted : option model)
  | OModule (m : FCN.t)
  | OAdam (o : Adam).

Inductive Event :=
  | EvOpen (path : string)
  | EvCall (fn : string)
  | EvRaise (e : Exn).

#[export] Instance Event_eq_dec : EqDecision Event.
Proof. solve_decision. Defined.

Record Kernel := {
  globals : gmap string PyVal;
  heap : list Obj;
  files : gmap string File;
  stdout : list string;
  log : list Event;
  grad_enabled : bool;
  rng : nat;
}.

Definition set_globals (f : gmap string PyVal → gmap string PyVal) (k : Kernel) :=
  {| globals := f (globals k); heap := heap k; files := files k;
     stdout := stdout k; log := log k; grad_enabled := grad_enabled k;
     rng := rng k |}.
Definition set_heap (f : list Obj → list Obj) (k : Kernel) :=
  {| globals := globals k; heap := f (heap k); files := files k;
     stdout := stdout k; log := log k; grad_enabled := grad_enabled k;
     rng := rng k |}.
Definition set_stdout (f : list string → list string) (k : Kernel) :=
  {| globals := globals k; heap := heap k; files := files k;
     stdout := f (stdout k); log := log k; grad_enabled := grad_enabled k;
     rng := rng k |}.
Definition set_log (f : list Event → list Event) (k : Kernel) :=
  {| globals := globals k; heap := heap k; files := files k;
     stdout := stdout k; log := f (log k); grad_enabled := grad_enabled k;
     rng := rng k |}.
Definition set_grad_enabled (b : bool) (k : Kernel) :=
  {| globals := globals k; heap := heap k; files := files k;
     stdout := stdout k; log := log k; grad_enabled := b; rng := rng k |}.
Definition set_rng (f : nat → nat) (k : Kernel) :=
  {| globals := globals k; heap := heap k; files := files k;
     stdout := stdout k; log := log k; grad_enabled := grad_enabled k;
     rng := f (rng k) |}.

(** A kernel that has run nothing yet. *)
Definition fresh (fs : gmap string File) : Kernel :=
  {| globals := ∅; heap := []; files := fs; stdout := []; log := [];
     grad_enabled := true; rng := 0 |}.

(** ** Computations of a cell *)

Definition M (A : Type) : Type := Kernel → Kernel * Result A.

#[export] Instance M_ret : MRet M := λ A a k, (k, Ok a).
#[export] Instance M_bind : MBind M := λ A B f m k,
  match m k with
  | (k', Ok a) => f a k'
  | (k', Raise e) => (k', Raise e)
  end.

#[export] Instance M_fmap : FMap M := λ A B f m k,
  match m k with
  | (k', Ok a) => (k', Ok (f a))
  | (k', Raise e) => (k', Raise e)
  end.

(** Raising is logged. *)
Definition raise {A} (e : Exn) : M A :=
  λ k, (set_log (λ l, l ++ [EvRaise e]) k, Raise e).

Definition call (fn : string) : M unit :=
  λ k, (set_log (λ l, l ++ [EvCall fn]) k, Ok ()).

(** a file is opened for reading *)
Definition opening (path : string) : M unit :=
  λ k, (set_log (λ l, l ++ [EvOpen path]) k, Ok ()).

(** a library call that returns or raises *)
Definition lift {A} (fn : string) (r : Result A) : M A :=
  call fn;;
  match r with
  | Ok a => mret a
  | Raise e => raise e
  end.

Definition modify (f : Kernel → Kernel) : M unit := λ k, (f k, Ok ()).
Definition gets {A} (f : Kernel → A) : M A := λ k, (k, Ok (f k)).

Definition get_var (x : string) : M PyVal :=
  λ k, match globals k !! x with
       | Some v => (k, Ok v)
       | None => raise (NameError x) k
       end.

Definition set_var (x : string) (v : PyVal) : M unit :=
  modify (set_globals (insert x v)).

(** a new object on the heap *)
Definition new (o : Obj) : M nat :=
  λ k, (set_heap (λ h, h ++ [o]) k, Ok (length (heap k))).

Definition deref (id : nat) : M Obj :=
  λ k, match heap k !! id with
       | Some o => (k, Ok o)
       | None => raise (RuntimeError "no such object") k
       end.

Definition store (id : nat) (o : Obj) : M unit :=
  modify (set_heap (λ h, <[id := o]> h)).

Definition print (line : string) : M unit :=
  call "print";; modify (set_stdout (λ out, out ++ [line])).

(** [for x in xs: body] *)
Fixpoint for_ {X} (xs : list X) (body : X → M unit) : M unit :=
  match xs with
  | [] => mret ()
  | x :: xs => body x;; for_ xs body
  end.

(** [range(n)] *)
Definition range (n : Z) : list Z := Z.of_nat <$> seq 0 (Z.to_nat n).

(** [with torch.no_grad(): body]: gradient recording is switched off for
    the body and switched back on leaving it, however it is left *)
Definition no_grad {A} (body : M A) : M A :=
  λ k, let '(k', r) := body (set_grad_enabled false k) in
       (set_grad_enabled (grad_enabled k) k', r).

(** [%%time] at the head of a cell: IPython's time magic runs the body
    of the cell inside [try]/[except].  When the body raises, the magic
    shows the traceback and returns, so that the cell ends normally;
    when it completes, the magic prints its report of the times. *)
Definition time_magic (body : M unit) : M unit :=
  call "%%time";;
  ((λ k, match body k with
         | (k', Ok _) =>
             (set_stdout (λ out, out ++ time_report (length (log k))) k', Ok ())
         | (k', Raise _) => call "showtraceback" k'
         end) : M unit).

(** Reading a value as what an operation needs. *)
Definition as_array (v : PyVal) : M np.ndarray :=
  match v with VArray a => mret a | _ => raise (TypeError "ndarray") end.
Definition as_frame (v : PyVal) : M pd.DataFrame :=
  match v with VFrame df => mret df | _ => raise (TypeError "DataFrame") end.
Definition as_tensor (v : PyVal) : M (nn.dtype * np.ndarray * option Tape) :=
  match v with
  | VTensor dt a t => mret (dt, a, t)
  | _ => raise (TypeError "Tensor")
  end.
Definition as_int (v : PyVal) : M Z :=
  match v with VInt z => mret z | _ => raise (TypeError "int") end.
Definition as_float (v : PyVal) : M num :=
  match v with VFloat x => mret x | _ => raise (TypeError "float") end.
Definition as_ref (v : PyVal) : M nat :=
  match v with VRef id => mret id | _ => raise (TypeError "object") end.

Definition as_scaler (o : Obj) : M (option StandardScaler.t) :=
  match o with OScaler s => mret s | _ => raise (TypeError "StandardScaler") end.
Definition as_module (o : Obj) : M FCN.t :=
  match o with OModule m => mret m | _ => raise (TypeError "Module") end.
Definition as_adam (o : Obj) : M Adam :=
  match o with OAdam a => mret a | _ => raise (TypeError "Optimizer") end.
Definition as_regressor (o : Obj) : M (Algo * KernelExpr * option model) :=
  match o with
  | ORegressor a ker f => mret (a, ker, f)
  | _ => raise (TypeError "estimator")
  end.
Definition as_loader (v : PyVal) : M (np.ndarray * np.ndarray * nat) :=
  match v with
  | VLoader X y bs => mret (X, y, bs)
  | _ => raise (TypeError "DataLoader")
  end.
Definition as_list (v : PyVal)
  : M (list (nn.dtype * np.ndarray * option Tape)) :=
  match v with VList l => mret l | _ => raise (TypeError "list") end.

End Kernel.

(** ** PyTorch: modules, autograd and the optimiser, on the kernel *)

Module torch.
Section Ops.
Context `{Numerics} `{!Learners}.

(** a freshly initialised parameter tensor: its elements are the next
    draws of the generator *)
Definition new_param (fan_in : nat) (sh : list nat) : M nn.Param :=
  r ← gets rng;
  modify (set_rng (λ r, r + np.size_of sh));;
  mret {| nn.value :=
            {| np.shape := sh;
               np.data := uniform_init fan_in <$> seq r (np.size_of sh) |};
          nn.grad := None |}.

(** [nn.Linear(i, o)] *)
Definition Linear (i o : nat) : M nn.Linear :=
  call "nn.Linear";;
  w ← new_param i [o; i];
  b ← new_param i [o];
  mret {| nn.in_features := i; nn.out_features := o;
          nn.weight := w; nn.bias := b |}.

(** [torch.from_numpy(a)] *)
Definition from_numpy (v : PyVal) : M PyVal :=
  a ← as_array v; mret (VTensor nn.float64 a None).

(** [t.float()]: the tensor in single precision; a tensor that is in
    single precision already is returned as it is *)
Definition float (v : PyVal) : M PyVal :=
  '(dt, a, tape) ← as_tensor v;
  mret (VTensor nn.float32
          (match dt with
           | nn.float32 => a
           | nn.float64 => np.map_array single a
           end) tape).

(** [t.unsqueeze(0)] *)
Definition unsqueeze0 (a : np.ndarray) : np.ndarray :=
  {| np.shape := 1 :: np.shape a; np.data := np.data a |}.

(** [t[start:stop]] *)
Definition getslice (v : PyVal) (start stop : option Z) : M PyVal :=
  '(dt, a, tape) ← as_tensor v;
  b ← lift "Tensor.__getitem__" (np.getslice a start stop);
  mret (VTensor dt b tape).

(** [TensorDataset(X, y)]: the tensors must agree on their first axis *)
Definition TensorDataset (X y : PyVal) : M PyVal :=
  '(_, X, _) ← as_tensor X;
  '(_, y, _) ← as_tensor y;
  lift "TensorDataset"
    (match head (np.shape X), head (np.shape y) with
     | Some n, Some m =>
         if bool_decide (n = m) then Ok (VDataset X y) else Raise AssertionError
     | _, _ => Raise IndexError
     end).

(** [DataLoader(ds, batch_size=bs, shuffle=False)] *)
Definition DataLoader (ds : PyVal) (bs : nat) : M PyVal :=
  match ds with
  | VDataset X y => call "DataLoader";; mret (VLoader X y bs)
  | _ => raise (TypeError "Dataset")
  end.

(** the batches a sequential loader yields: consecutive groups of
    [bs] samples, the last one possibly shorter *)
Definition batches (X y : np.ndarray) (bs : nat)
  : list (np.ndarray * np.ndarray) :=
  match np.shape X with
  | [] => []
  | n :: _ =>
      (λ i, (np.between (i * bs) (n `min` (S i * bs)) (tail (np.shape X)) X,
             np.between (i * bs) (n `min` (S i * bs)) (tail (np.shape y)) y))
        <$> seq 0 ((n + bs - 1) `div` bs)
  end.

(** whether autograd records the operation at hand; recording is logged *)
Definition recording : M bool :=
  λ k, if grad_enabled k
       then (set_log (λ l, l ++ [EvCall "autograd.record"]) k, Ok true)
       else (k, Ok false).

(** [module(x)]: the forward pass, recorded when gradients are enabled *)
Definition call_module (f : PyVal) (x : PyVal) : M PyVal :=
  id ← as_ref f;
  m ← deref id ≫= as_module;
  '(dt, a, _) ← as_tensor x;
  y ← lift "FCN.forward" (FCN.forward m dt a);
  g ← recording;
  mret (VTensor dt y (if g : bool then Some (TForward id a) else None)).

(** [nn.MSELoss()(input, target)]: the mean of the squared differences,
    a tensor with no axis.  Input and target of different shapes are
    broadcast to their common shape, and rejected when they have none. *)
Definition call_loss (f : PyVal) (x y : PyVal) : M PyVal :=
  match f with
  | VLossFn =>
      '(da, a, tape) ← as_tensor x;
      '(db, b, _) ← as_tensor y;
      let loss v :=
        VTensor (nn.promote da db) {| np.shape := []; np.data := [v] |}
          (match tape with
           | Some (TForward id inp) => Some (TLoss id inp b)
           | _ => None
           end) in
      lift "MSELoss"
        (if bool_decide (np.shape a = np.shape b)
         then Ok (loss (mse (np.data a) (np.data b)))
         else match np.broadcast_shapes (np.shape a) (np.shape b) with
              | Some sh =>
                  Ok (loss (mse (np.broadcast_to (np.shape a) sh (np.data a))
                              (np.broadcast_to (np.shape b) sh (np.data b))))
              | None => Raise (RuntimeError "size mismatch")
              end)
  | _ => raise (TypeError "loss function")
  end.

(** [module.train()] / [module.eval()] *)
Definition set_mode (f : PyVal) (b : bool) : M unit :=
  id ← as_ref f;
  m ← deref id ≫= as_module;
  call (if b then "Module.train" else "Module.eval");;
  store id (OModule (FCN.set_training b m)).

(** the gradient of one parameter tensor added to what it holds *)
Definition accumulate (m : FCN.t) (x target : np.ndarray) (i : nat)
    (p : nn.Param) : nn.Param :=
  let g := imap (λ j _, grad_of m x target i j) (np.data (nn.value p)) in
  {| nn.value := nn.value p;
     nn.grad := Some
       {| np.shape := np.shape (nn.value p);
          np.data := match nn.grad p with
                     | None => g
                     | Some g0 =>
                         imap (λ j gj, fadd (default (of_Z 0) (np.data g0 !! j)) gj) g
                     end |} |}.

(** [l.backward()] *)
Definition backward (l : PyVal) : M unit :=
  '(_, _, tape) ← as_tensor l;
  match tape with
  | Some (TLoss id inp target) =>
      m ← deref id ≫= as_module;
      call "Tensor.backward";;
      store id (OModule (FCN.map_parameters (accumulate m inp target) m))
  | Some (TForward _ _) =>
      raise (RuntimeError "grad can be implicitly created only for scalar outputs")
  | None =>
      raise (RuntimeError "element 0 of tensors does not require grad")
  end.

(** [optim.Adam(module.parameters(), lr=lr)] *)
Definition Adam_new (f : PyVal) (lr : PyVal) : M PyVal :=
  id ← as_ref f;
  _ ← deref id ≫= as_module;
  lr ← as_float lr;
  call "optim.Adam";;
  oid ← new (OAdam {| params := id; rate := lr; state := ∅ |});
  mret (VRef oid).

Definition zero_param (p : nn.Param) : nn.Param :=
  {| nn.value := nn.value p;
     nn.grad := np.map_array (λ _ : num, of_Z 0) <$> nn.grad p |}.

(** [optimiser.zero_grad()] *)
Definition zero_grad (opt : PyVal) : M unit :=
  oid ← as_ref opt;
  o ← deref oid ≫= as_adam;
  m ← deref (params o) ≫= as_module;
  call "Optimizer.zero_grad";;
  store (params o) (OModule (FCN.map_parameters (λ _, zero_param) m)).

(** Adam on one parameter tensor: a parameter without gradient is
    skipped; the state of a parameter is created at its first step. *)
Definition adam_param (lr : num) (slot : option Slot) (p : nn.Param)
  : nn.Param * option Slot :=
  match nn.grad p with
  | None => (p, slot)
  | Some g =>
      let n := length (np.data (nn.value p)) in
      let s := default {| steps := 0; exp_avg := replicate n (of_Z 0);
                          exp_avg_sq := replicate n (of_Z 0) |} slot in
      let upd := imap (λ j θ, adam_update lr (S (steps s)) θ
                                (default (of_Z 0) (np.data g !! j))
                                (default (of_Z 0) (exp_avg s !! j))
                                (default (of_Z 0) (exp_avg_sq s !! j)))
                   (np.data (nn.value p)) in
      ({| nn.value := {| np.shape := np.shape (nn.value p);
                         np.data := (λ u, u.1.1) <$> upd |};
          nn.grad := nn.grad p |},
       Some {| steps := S (steps s);
               exp_avg := (λ u, u.1.2) <$> upd;
               exp_avg_sq := (λ u, u.2) <$> upd |})
  end.

Definition adam_state (lr : num) (st : gmap nat Slot) (ps : list nn.Param)
  : gmap nat Slot :=
  foldr (λ ip st', match (adam_param lr (st !! ip.1) ip.2).2 with
                   | Some s => <[ip.1 := s]> st'
                   | None => st'
                   end) st (imap pair ps).

(** [optimiser.step()]: the parameters of the module are updated in
    place, through the reference the optimiser holds *)
Definition step (opt : PyVal) : M unit :=
  oid ← as_ref opt;
  o ← deref oid ≫= as_adam;
  m ← deref (params o) ≫= as_module;
  call "Optimizer.step";;
  store (params o)
    (OModule (FCN.map_parameters
                (λ i p, (adam_param (rate o) (state o !! i) p).1) m));;
  store oid (OAdam {| params := params o; rate := rate o;
                      state := adam_state (rate o) (state o) (FCN.parameters m) |}).

End Ops.
End torch.

(** ** scikit-learn objects on the kernel *)

Module sklearn.
Section Ops.
Context `{Numerics} `{!Learners}.

(** [StandardScaler()] *)
Definition StandardScaler_new : M PyVal :=
  call "StandardScaler";;
  id ← new (OScaler None);
  mret (VRef id).

(** [scaler.fit(X)]: the fitted state is stored in the scaler *)
Definition fit_scaler (ss : PyVal) (X : np.ndarray) : M unit :=
  id ← as_ref ss;
  _ ← deref id ≫= as_scaler;
  s ← lift "StandardScaler.fit" (StandardScaler.fit X);
  store id (OScaler (Some s)).

(** [scaler.transform(X)] *)
Definition transform (ss : PyVal) (X : np.ndarray) : M np.ndarray :=
  id ← as_ref ss;
  s ← deref id ≫= as_scaler;
  lift "StandardScaler.transform" (StandardScaler.transform s X).

(** [SVR(kernel=ker)], [KernelRidge(kernel=ker)] *)
Definition estimator (a : Algo) (ker : KernelExpr) : M PyVal :=
  call "estimator";;
  id ← new (ORegressor a ker None);
  mret (VRef id).

(** [est.fit(X, y)] *)
Definition fit (est : PyVal) (X y : np.ndarray) : M unit :=
  id ← as_ref est;
  '(a, ker, _) ← deref id ≫= as_regressor;
  f ← lift "estimator.fit" (fit_regressor a ker X y);
  store id (ORegressor a ker (Some f)).

(** [est.predict(X)] *)
Definition predict (est : PyVal) (X : np.ndarray) : M np.ndarray :=
  id ← as_ref est;
  '(_, _, f) ← deref id ≫= as_regressor;
  lift "estimator.predict"
    (match f with
     | Some f => predict_regressor f X
     | None => Raise (ValueError "this estimator is not fitted yet")
     end).

End Ops.
End sklearn.

(** ** The ML-Helio tutorial, cell by cell *)

Module Tutorial.
Section Cells.
Context `{Numerics} `{!Learners}.

Definition cell_imports : M unit :=
  call "%matplotlib inline";;
  set_var "np" (VModule "numpy");;
  set_var "pd" (VModule "pandas");;
  set_var "plt" (VModule "matplotlib.pyplot");;
  set_var "ExpSineSquared" (VClass "ExpSineSquared");;
  set_var "RBF" (VClass "RBF");;
  set_var "ConstantKernel" (VClass "ConstantKernel");;
  set_var "SVR" (VClass "SVR");;
  set_var "StandardScaler" (VClass "StandardScaler");;
  set_var "KernelRidge" (VClass "KernelRidge");;
  set_var "torch" (VModule "torch");;
  set_var "nn" (VModule "torch.nn");;
  set_var "optim" (VModule "torch.optim");;
  set_var "F" (VModule "torch.nn.functional");;
  set_var "TensorDataset" (VClass "TensorDataset");;
  set_var "DataLoader" (VClass "DataLoader").

(** The file of the series and the names given to its columns. *)
Definition csv_path : string := "SN_m_tot_V2.0.csv".
Definition csv_names : list string :=
  ["Year"; "Month"; "Date in fraction of year"; "Monthly mean";
   "Monthly standard deviation"; "Number of observations";
   "Definitive/provisional marker"].

Definition cell_read_csv : M unit :=
  _ ← get_var "pd";
  fs ← gets files;
  opening csv_path;;
  df ← lift "pd.read_csv" (pd.read_csv fs csv_path ";" None csv_names);
  set_var "ss_data" (VFrame df).

Definition cell_tail : M unit :=
  _ ← get_var "ss_data" ≫= as_frame;
  call "DataFrame.tail".

(** [frame[name]] for the frame bound to a variable *)
Definition column (frame name : string) : M (list num) :=
  df ← get_var frame ≫= as_frame;
  lift "DataFrame.__getitem__" (pd.getitem df name).

(** [plt.f(...)] for the calls that only decorate a figure *)
Definition plt (f : string) : M unit :=
  _ ← get_var "plt";
  call ("plt." +:+ f).

(** [plt.plot(x, y)]: both must have the same first dimension *)
Definition plt_plot (x y : M (list nat)) : M unit :=
  _ ← get_var "plt";
  sx ← x;
  sy ← y;
  lift "plt.plot"
    (if bool_decide (head sx = head sy) then Ok ()
     else Raise (ValueError "x and y must have same first dimension")).

Definition shape_of (x : string) : M (list nat) :=
  np.shape <$> (get_var x ≫= as_array).

Definition cell_plot_data : M unit :=
  plt "figure";;
  plt_plot ((λ c, [length c]) <$> column "ss_data" "Date in fraction of year")
           ((λ c, [length c]) <$> column "ss_data" "Monthly mean");;
  plt "ylabel";;
  plt "xlabel".

Definition cell_extract : M unit :=
  t ← column "ss_data" "Date in fraction of year";
  set_var "time" (VArray (pd.to_numpy t));;
  v ← column "ss_data" "Monthly mean";
  set_var "ss_number" (VArray (pd.to_numpy v)).

(** [x.reshape(dims)] for the array bound to a variable *)
Definition reshaped (x : string) (dims : list Z) : M np.ndarray :=
  a ← get_var x ≫= as_array;
  lift "ndarray.reshape" (np.reshape a dims).

Definition cell_scaler_fit : M unit :=
  _ ← get_var "StandardScaler";
  s ← sklearn.StandardScaler_new;
  set_var "ss" s;;
  s ← get_var "ss";
  X ← reshaped "time" [-1; 1]%Z;
  sklearn.fit_scaler s X.

Definition cell_scaler_transform : M unit :=
  s ← get_var "ss";
  X ← reshaped "time" [-1; 1]%Z;
  Y ← sklearn.transform s X;
  set_var "time_ss" (VArray Y).

(** The kernel both regressors are given. *)
Definition the_kernel : KernelExpr :=
  KProduct (ConstantKernel (of_Z 10))
    (KSum (ExpSineSquared (decimal 1 (-1)) (of_Z 1)) (RBF (decimal 1 (-2)))).

(** [x = Estimator(kernel=...)] *)
Definition make_estimator (x cls : string) (a : Algo) : M unit :=
  _ ← get_var cls;
  _ ← get_var "ConstantKernel";
  _ ← get_var "ExpSineSquared";
  _ ← get_var "RBF";
  e ← sklearn.estimator a the_kernel;
  set_var x e.

(** [x.fit(time_ss, ss_number)] *)
Definition fit_estimator (x : string) : M unit :=
  e ← get_var x;
  X ← get_var "time_ss" ≫= as_array;
  y ← get_var "ss_number" ≫= as_array;
  sklearn.fit e X y.

(** [target = x.predict(inf_ss)] *)
Definition predict_estimator (target x : string) : M unit :=
  e ← get_var x;
  X ← get_var "inf_ss" ≫= as_array;
  Y ← sklearn.predict e X;
  set_var target (VArray Y).

Definition cell_svr : M unit := make_estimator "svr" "SVR" SVR.
Definition cell_svr_fit : M unit := time_magic (fit_estimator "svr").

Definition cell_inf : M unit :=
  _ ← get_var "np";
  call "np.linspace";;
  set_var "inf" (VArray (np.linspace (of_Z 1600) (of_Z 2200) 1000));;
  s ← get_var "ss";
  X ← reshaped "inf" [-1; 1]%Z;
  Y ← sklearn.transform s X;
  set_var "inf_ss" (VArray Y).

Definition cell_svr_predict : M unit := predict_estimator "curve_fit" "svr".

(** [def f(): ...] binds the name; the body runs when it is called. *)
Definition cell_def (d : Def) : M unit :=
  set_var (match d with
           | plot_svr => "plot_svr"
           | plot_krr => "plot_krr"
           | plot_comp => "plot_comp"
           | plot_nn => "plot_nn"
           end) (VFunction d).

(** the data points, common to all the figures *)
Definition plot_points : M unit :=
  plt_plot (shape_of "time") (shape_of "ss_number").

Definition body (d : Def) : M unit :=
  match d with
  | plot_svr =>
      plt "figure";;
      plot_points;;
      plt_plot (shape_of "inf") (shape_of "curve_fit");;
      plt "legend";; plt "ylabel";; plt "xlabel"
  | plot_krr =>
      plt "figure";;
      plot_points;;
      plt_plot (shape_of "inf") (shape_of "curve_fit_k");;
      plt "legend";; plt "ylabel";; plt "xlabel"
  | plot_comp =>
      plt "figure";;
      plot_points;;
      plt_plot (shape_of "inf") (shape_of "curve_fit_k");;
      plt_plot (shape_of "inf") (shape_of "curve_fit");;
      plt "legend";; plt "ylabel";; plt "xlabel"
  | plot_nn =>
      plt "figure";;
      plot_points;;
      plt_plot
        (a ← get_var "time" ≫= as_array;
         np.shape <$> lift "ndarray.__getitem__" (np.getslice a (Some 8%Z) None))
        (np.shape <$> reshaped "curve_fit" [3240]%Z);;
      plt "ylabel";; plt "xlabel"
  end.

(** [f()] *)
Definition cell_call (f : string) : M unit :=
  v ← get_var f;
  match v with
  | VFunction d => body d
  | _ => raise (TypeError "callable")
  end.

Definition cell_krr : M unit := make_estimator "krr" "KernelRidge" KernelRidge.
Definition cell_krr_fit : M unit := fit_estimator "krr".
Definition cell_krr_predict : M unit := predict_estimator "curve_fit_k" "krr".

Definition cell_tensor_demo : M unit :=
  _ ← get_var "np";
  call "np.zeros";;
  set_var "a" (VArray (np.zeros 4));;
  _ ← get_var "torch";
  b ← get_var "a" ≫= torch.from_numpy;
  set_var "b" b;;
  '(_, c, _) ← get_var "b" ≫= as_tensor;
  set_var "c" (VArray c);;
  _ ← get_var "a"; _ ← get_var "b"; _ ← get_var "c";
  print "<class 'numpy.ndarray'> <class 'torch.Tensor'> <class 'numpy.ndarray'>".

(** [class FCN(nn.Module): ...] *)
Definition cell_class_FCN : M unit :=
  _ ← get_var "nn";
  set_var "FCN" (VClass "FCN").

(** [FCN()]: the constructor builds the three layers *)
Definition FCN_new : M PyVal :=
  c ← get_var "FCN";
  match c with
  | VClass _ =>
      _ ← get_var "FCN";
      _ ← get_var "nn";
      l1 ← torch.Linear 135 1000;
      _ ← get_var "nn";
      l1b ← torch.Linear 1000 1000;
      _ ← get_var "nn";
      l2 ← torch.Linear 1000 135;
      id ← new (OModule {| FCN.fc1 := l1; FCN.fc1b := l1b; FCN.fc2 := l2;
                           FCN.training := true |});
      mret (VRef id)
  | _ => raise (TypeError "callable")
  end.

(** [target = x[8:].reshape(24, -1)] *)
Definition windows (target x : string) : M unit :=
  a ← get_var x ≫= as_array;
  b ← lift "ndarray.__getitem__" (np.getslice a (Some 8%Z) None);
  c ← lift "ndarray.reshape" (np.reshape b [24; -1]%Z);
  set_var target (VArray c).

Definition cell_times_rs : M unit := windows "times_rs" "time_ss".
Definition cell_ss_number_rs : M unit := windows "ss_number_rs" "ss_number".

(** [torch.from_numpy(x)[start:stop]] *)
Definition tensor_slice (x : string) (start stop : option Z) : M PyVal :=
  _ ← get_var "torch";
  t ← get_var x ≫= torch.from_numpy;
  torch.getslice t start stop.

(** [target = TensorDataset(times_rs-part, ss_number_rs-part)] *)
Definition make_dataset (target : string) (start stop : option Z) : M unit :=
  _ ← get_var "TensorDataset";
  X ← tensor_slice "times_rs" start stop;
  y ← tensor_slice "ss_number_rs" start stop;
  ds ← torch.TensorDataset X y;
  set_var target ds.

Definition cell_datasets : M unit :=
  make_dataset "train_dataset" None (Some (-2)%Z);;
  make_dataset "val_dataset" (Some (-2)%Z) None.

Definition make_loader (ds : string) : M PyVal :=
  _ ← get_var "DataLoader";
  d ← get_var ds;
  torch.DataLoader d 64.

Definition cell_loaders : M unit :=
  tl ← make_loader "train_dataset";
  vl ← make_loader "val_dataset";
  set_var "train_loader" tl;;
  set_var "val_loader" vl.

Definition cell_setup : M unit :=
  f ← FCN_new;
  set_var "fcn" f;;
  set_var "n_epochs" (VInt 100);;
  set_var "lr" (VFloat (decimal 5 (-3)));;
  _ ← get_var "optim";
  f ← get_var "fcn";
  lr ← get_var "lr";
  o ← torch.Adam_new f lr;
  set_var "optimiser" o;;
  _ ← get_var "nn";
  call "nn.MSELoss";;
  set_var "loss" VLossFn.

(** [for inp, out in loader: body]; the data sets of the notebook are
    made of tensors that come from numpy arrays, so a batch is in double
    precision *)
Definition for_loader (loader : string) (body : M unit) : M unit :=
  '(X, y, bs) ← get_var loader ≫= as_loader;
  for_ (torch.batches X y bs)
    (λ b, set_var "inp" (VTensor nn.float64 b.1 None);;
          set_var "out" (VTensor nn.float64 b.2 None);;
          body).

(** [inp, out = inp.float(), out.float()] *)
Definition to_float : M unit :=
  a ← get_var "inp" ≫= torch.float;
  b ← get_var "out" ≫= torch.float;
  set_var "inp" a;;
  set_var "out" b.

(** [model = fcn(inp); l = loss(model, out)] *)
Definition evaluate : M unit :=
  f ← get_var "fcn";
  x ← get_var "inp";
  y ← torch.call_module f x;
  set_var "model" y;;
  lf ← get_var "loss";
  m ← get_var "model";
  o ← get_var "out";
  l ← torch.call_loss lf m o;
  set_var "l" l.

Definition train_step : M unit :=
  to_float;;
  get_var "optimiser" ≫= torch.zero_grad;;
  evaluate;;
  get_var "l" ≫= torch.backward;;
  get_var "optimiser" ≫= torch.step.

Definition training_pass : M unit :=
  f ← get_var "fcn";
  torch.set_mode f true;;
  for_loader "train_loader" train_step.

Definition validation_step : M unit :=
  to_float;;
  evaluate;;
  ls ← get_var "losses" ≫= as_list;
  l ← get_var "l" ≫= as_tensor;
  set_var "losses" (VList (ls ++ [l])).

Definition validation_pass : M unit :=
  f ← get_var "fcn";
  torch.set_mode f false;;
  set_var "losses" (VList []);;
  _ ← get_var "torch";
  no_grad (for_loader "val_loader" validation_step).

(** the line an epoch prints *)
Definition report_line (j : Z) (losses : list num) : string :=
  "The validation loss are epoch " +:+ pretty j +:+ " is "
    +:+ to_text (mean losses).

Definition report : M unit :=
  j ← get_var "j" ≫= as_int;
  _ ← get_var "np";
  ls ← get_var "losses" ≫= as_list;
  call "np.mean";;
  print (report_line j (concat ((λ t, np.data t.1.2) <$> ls))).

Definition epoch (j : Z) : M unit :=
  set_var "j" (VInt j);;
  training_pass;;
  validation_pass;;
  report.

Definition cell_train : M unit :=
  n ← get_var "n_epochs" ≫= as_int;
  for_ (range n) epoch.

Definition cell_predict_nn : M unit :=
  _ ← get_var "torch";
  no_grad
    (f ← get_var "fcn";
     _ ← get_var "torch";
     t ← get_var "times_rs" ≫= torch.from_numpy;
     '(dt, a, tape) ← torch.float t ≫= as_tensor;
     '(_, y, _) ← torch.call_module f (VTensor dt (torch.unsqueeze0 a) tape)
                    ≫= as_tensor;
     set_var "curve_fit" (VArray y)).

(** The code cells of the notebook, in order. *)
Definition cells : list (M unit) :=
  [cell_imports; cell_read_csv; cell_tail; cell_plot_data; cell_extract;
   cell_scaler_fit; cell_scaler_transform;
   cell_svr; cell_svr_fit; cell_inf; cell_svr_predict;
   cell_def plot_svr; cell_call "plot_svr";
   cell_krr; cell_krr_fit; cell_krr_predict;
   cell_def plot_krr; cell_call "plot_krr";
   cell_def plot_comp; cell_call "plot_comp";
   cell_tensor_demo; cell_class_FCN;
   cell_times_rs; cell_ss_number_rs; cell_datasets; cell_loaders;
   cell_setup; cell_train; cell_predict_nn;
   cell_def plot_nn; cell_call "plot_nn"].

End Cells.
End Tutorial.

(** Running cells one after the other, stopping at the first that raises. *)
Definition run_all `{Numerics} `{!Learners} (cs : list (M unit)) : M unit :=
  for_ cs id.

(** ** The clustering exercises, cell by cell *)

Module Exercises.
Section Cells.
Context `{Numerics} `{!Learners}.

Definition cell_magic : M unit := call "%matplotlib notebook".

Definition cell_imports : M unit :=
  set_var "np" (VModule "numpy");;
  set_var "plt" (VModule "matplotlib.pyplot").

(** The archive of the data set and the key the matrix is saved under. *)
Definition npz_path : string := "data.npz".
Definition npz_key : string := "data".

(** [data = np.load("data.npz")["data"]] *)
Definition cell_load : M unit :=
  _ ← get_var "np";
  fs ← gets files;
  opening npz_path;;
  a ← lift "np.load" (np_load_item fs npz_path npz_key);
  set_var "data" (VArray a).

Definition cell_import_PCA : M unit := set_var "PCA" (VClass "PCA").

(** a cell that holds only a comment, left to the student *)
Definition cell_todo : M unit := mret ().

(** The bar chart of the explained variance reads [pca], which no cell
    of the notebook defines, and an attribute that no value the notebook
    creates has. *)
Definition cell_bar : M unit :=
  Tutorial.plt "figure";;
  _ ← get_var "plt";
  _ ← get_var "np";
  call "np.arange";;
  _ ← get_var "pca";
  raise (AttributeError "explained_variance_ratio_").

Definition cell_import_hierarchy : M unit :=
  set_var "linkage" (VClass "linkage");;
  set_var "dendrogram" (VClass "dendrogram");;
  set_var "fcluster" (VClass "fcluster").

(** The code cells of the notebook, in order. *)
Definition cells : list (M unit) :=
  [cell_magic; cell_imports; cell_load; cell_import_PCA; cell_todo;
   cell_bar; cell_todo; cell_import_hierarchy; cell_todo; cell_todo;
   cell_todo; cell_todo].

(** the cells that follow the loading of the matrix *)
Definition later_cells : list (M unit) := drop 3 cells.

End Cells.
End Exercises.

(** The user runs the cells in order; a cell that raises leaves the
    kernel as it was when the exception arose, and the next cell can
    still be run. *)
Fixpoint run_each `{Numerics} `{!Learners} (cs : list (M unit)) (k : Kernel)
  : Kernel :=
  match cs with
  | [] => k
  | c :: cs => run_each cs (c k).1
  end.

(** ** An instance: binary64 arithmetic and baseline learners

    The properties below hold for every [Numerics] and [Learners].  This
    instance makes the notebooks runnable on examples: IEEE double
    precision from the kernel's primitive floats, summations from left
    to right, and learners that stand in for the libraries (a reader of
    plain texts, a regressor predicting the mean target, an autograd
    that reports zero gradients). *)

Module Float64.

Definition from_Z (z : Z) : float :=
  if (z <? 0)%Z then PrimFloat.opp (PrimFloat.of_uint63 (Uint63.of_Z (- z)))
  else PrimFloat.of_uint63 (Uint63.of_Z z).

Definition from_decimal (m e : Z) : float :=
  if (e <? 0)%Z then PrimFloat.div (from_Z m) (from_Z (10 ^ (- e)))
  else PrimFloat.mul (from_Z m) (from_Z (10 ^ e)).

Definition maxf (a b : float) : float := if PrimFloat.ltb a b then b else a.

Definition round32 (x : float) : float :=
  match Prim2SF x with
  | S754_finite s m e => SF2Prim (binary_round 24 128 s m e)
  | _ => x
  end.

Definition digit (c : ascii) : option Z :=
  let n := (Z.of_N (N_of_ascii c) - 48)%Z in
  if ((0 <=? n) && (n <=? 9))%Z then Some n else None.

Fixpoint read_digits (s : string) (acc : Z) (n : nat) : Z * nat * string :=
  match s with
  | String c s' =>
      match digit c with
      | Some d => read_digits s' (10 * acc + d)%Z (S n)
      | None => (acc, n, s)
      end
  | EmptyString => (acc, n, s)
  end.

Fixpoint strip (s : string) : string :=
  match s with
  | String " " s' => strip s'
  | _ => s
  end.

Definition unsigned (s : string) : float :=
  let '(i, n, rest) := read_digits s 0 0 in
  match rest with
  | String "." rest' =>
      let '(f, m, rest'') := read_digits rest' 0 0 in
      match strip rest'', (n + m)%nat with
      | EmptyString, S _ =>
          PrimFloat.div (from_Z (i * 10 ^ Z.of_nat m + f)%Z)
            (from_Z (10 ^ Z.of_nat m)%Z)
      | _, _ => PrimFloat.nan
      end
  | _ =>
      match strip rest, n with
      | EmptyString, S _ => from_Z i
      | _, _ => PrimFloat.nan
      end
  end.

(** a from_decimal field, possibly padded with blanks *)
Definition parse (s : string) : float :=
  match strip s with
  | String "-" s' => PrimFloat.opp (unsigned s')
  | s' => unsigned s'
  end.

(** a rendering with six decimals *)
Definition render (x : float) : string :=
  match Prim2SF x with
  | S754_zero _ => "0.0"
  | S754_infinity s => if s then "-inf" else "inf"
  | S754_nan => "nan"
  | S754_finite s m e =>
      let scaled := if (0 <=? e)%Z then (Z.pos m * 2 ^ e * 10 ^ 6)%Z
                    else (Z.pos m * 10 ^ 6 / 2 ^ (- e))%Z in
      (if s then "-" else "") +:+ pretty (scaled / 10 ^ 6)%Z +:+ "."
        +:+ pretty (1000000 + scaled `mod` 10 ^ 6)%Z
  end.

Definition sum (l : list float) : float := foldl PrimFloat.add (from_Z 0) l.

Definition average (l : list float) : float :=
  PrimFloat.div (sum l) (from_Z (Z.of_nat (length l))).

(** the scale of a column: its population standard deviation, and one
    for a constant column *)
Definition deviation (l : list float) : float :=
  let m := average l in
  let s := PrimFloat.sqrt
             (average ((λ x, PrimFloat.mul (PrimFloat.sub x m) (PrimFloat.sub x m)) <$> l)) in
  if PrimFloat.eqb s (from_Z 0) then from_Z 1 else s.

Definition inner (a b : list float) : float := sum (zip_with PrimFloat.mul a b).

Definition squared_error (a b : list float) : float :=
  average (zip_with (λ x y, PrimFloat.mul (PrimFloat.sub x y) (PrimFloat.sub x y)) a b).

#[export] Instance numerics : Numerics := {|
  num := float;
  of_Z := from_Z;
  decimal := from_decimal;
  nan := PrimFloat.nan;
  fadd := PrimFloat.add;
  fsub := PrimFloat.sub;
  fmul := PrimFloat.mul;
  fdiv := PrimFloat.div;
  fmax := maxf;
  single := round32;
  is_finite := PrimFloat.is_finite;
  is_nan := PrimFloat.is_nan;
  to_text := render;
  mean := average;
  std := deviation;
  dot := inner;
  mse := squared_error;
|}.

(** A reader for plain texts: records end at a line feed, lines of
    blanks are skipped, every field is a number or a missing value, and
    a record with more fields than there are names is rejected. *)
Definition newline : ascii := "010"%char.

Fixpoint split_on (sep : ascii) (s : string) : list string :=
  match s with
  | EmptyString => [EmptyString]
  | String c s' =>
      if bool_decide (c = sep) then EmptyString :: split_on sep s'
      else match split_on sep s' with
           | f :: fs => String c f :: fs
           | [] => [String c EmptyString]
           end
  end.

Fixpoint blank (s : string) : bool :=
  match s with
  | EmptyString => true
  | String c s' =>
      (bool_decide (c = " "%char) || bool_decide (c = "009"%char)
       || bool_decide (c = "013"%char)) && blank s'
  end.

Definition records (sep : ascii) (text : string) : list (list string) :=
  split_on sep <$> filter (λ l, blank l = false) (split_on newline text).

Definition plain_rows (sep : ascii) (header : option nat) (names : list string)
    (text : string) : Result (list (list float)) :=
  let recs := drop (from_option S 0 header) (records sep text) in
  match list_find (λ r, length names < length r) recs with
  | Some (i, _) => Raise (ParserError (S i))
  | None => Ok ((λ r : list string, parse <$> r) <$> recs)
  end.

(** the average target, whatever the kernel; like the estimators of the
    library, it accepts finite numbers only *)
Definition baseline_fit (_ : Algo) (_ : KernelExpr) (X y : np.ndarray)
  : Result float :=
  match np.shape X, np.shape y with
  | [n; _], [m] =>
      if forallb PrimFloat.is_finite (np.data X ++ np.data y)
      then
        if bool_decide (n = m ∧ n ≠ 0) then Ok (average (np.data y))
        else Raise (ValueError "inconsistent numbers of samples")
      else Raise (ValueError "input contains NaN or infinity")
  | _, _ => Raise (ValueError "expected 2D array")
  end.

Definition baseline_predict (f : float) (X : np.ndarray) : Result np.ndarray :=
  match np.shape X with
  | [n; _] =>
      if forallb PrimFloat.is_finite (np.data X)
      then Ok (np.array (replicate n f))
      else Raise (ValueError "input contains NaN or infinity")
  | _ => Raise (ValueError "expected 2D array")
  end.

(** draws in the interval of [nn.Linear], from a congruential generator *)
Definition draw (fan_in i : nat) : float :=
  let u := ((Z.of_nat i * 1103515245 + 12345) `mod` 2 ^ 31)%Z in
  PrimFloat.div
    (PrimFloat.sub (PrimFloat.div (from_Z (2 * u)) (from_Z (2 ^ 31))) (from_Z 1))
    (PrimFloat.sqrt (from_Z (Z.of_nat fan_in))).

Fixpoint power (x : float) (n : nat) : float :=
  match n with
  | 0 => from_Z 1
  | S n => PrimFloat.mul x (power x n)
  end.

(** Adam with its default hyper-parameters *)
Definition adam_rule (lr : float) (t : nat) (θ g m v : float)
  : float * float * float :=
  let β1 := from_decimal 9 (-1) in
  let β2 := from_decimal 999 (-3) in
  let m' := PrimFloat.add (PrimFloat.mul β1 m)
              (PrimFloat.mul (PrimFloat.sub (from_Z 1) β1) g) in
  let v' := PrimFloat.add (PrimFloat.mul β2 v)
              (PrimFloat.mul (PrimFloat.sub (from_Z 1) β2) (PrimFloat.mul g g)) in
  let c1 := PrimFloat.sub (from_Z 1) (power β1 t) in
  let c2 := PrimFloat.sub (from_Z 1) (power β2 t) in
  let denom := PrimFloat.add
                 (PrimFloat.div (PrimFloat.sqrt v') (PrimFloat.sqrt c2))
                 (from_decimal 1 (-8)) in
  (PrimFloat.sub θ (PrimFloat.mul (PrimFloat.div lr c1) (PrimFloat.div m' denom)),
   m', v').

#[export] Instance learners : Learners := {|
  read_rows := plain_rows;
  time_report := λ _, ["CPU times: user 0 ns, sys: 0 ns, total: 0 ns";
                       "Wall time: 0 ns"];
  model := float;
  fit_regressor := baseline_fit;
  predict_regressor := baseline_predict;
  uniform_init := draw;
  grad_of := λ _ _ _ _ _, from_Z 0;
  adam_update := adam_rule;
|}.

End Float64.

(** ** Example inputs *)

Module Example.
Import Float64.

Definition zeros (sh : list nat) : np.ndarray :=
  {| np.shape := sh; np.data := replicate (np.size_of sh) (from_Z 0) |}.

(** an archive with the sample matrix and a second array *)
Definition archive : gmap string np.ndarray :=
  {[ "data" := zeros [400; 10]; "labels" := zeros [400] ]}.

(** the first records of the series *)
Definition series : string :=
  "1749;01;1749.042;  96.7; -1.0;   -1;1" +:+ String newline
    ("1749;02;1749.123; 104.3; -1.0;   -1;1" +:+ String newline "").

Definition disk : gmap string File :=
  {[ "data.npz" := NpzFile archive; "SN_m_tot_V2.0.csv" := TextFile series ]}.

(** the kernels of the two notebooks once their imports have run *)
Definition exercises_started : Kernel :=
  run_each [Exercises.cell_magic; Exercises.cell_imports] (fresh disk).
Definition tutorial_started : Kernel :=
  run_each [Tutorial.cell_imports] (fresh disk).

(** the tutorial once the series is read and its columns are extracted *)
Definition tutorial_loaded : Kernel :=
  run_each (take 5 Tutorial.cells) (fresh disk).

(** a series of 3248 months, standardised, in a kernel that has run the
    imports *)
Definition tutorial_standardised : Kernel :=
  set_globals
    (λ g, <["ss_number" := VArray (zeros [3248])]>
            (<["time_ss" := VArray (zeros [3248; 1])]> g))
    tutorial_started.

(** a kernel with the loaders over 22 and 2 windows *)
Definition tutorial_windowed : Kernel :=
  set_globals
    (λ g, <["val_loader" := VLoader (zeros [2; 135]) (zeros [2; 135]) 64]>
            (<["train_loader" := VLoader (zeros [22; 135]) (zeros [22; 135]) 64]>
               (<["FCN" := VClass "FCN"]> g)))
    tutorial_started.

Definition zero_param (sh : list nat) : nn.Param :=
  {| nn.value := zeros sh; nn.grad := None |}.
Definition zero_layer (i o : nat) : nn.Linear :=
  {| nn.in_features := i; nn.out_features := o;
     nn.weight := zero_param [o; i]; nn.bias := zero_param [o] |}.

(** the network with all its parameters zero *)
Definition zero_net : FCN.t :=
  {| FCN.fc1 := zero_layer 135 1000; FCN.fc1b := zero_layer 1000 1000;
     FCN.fc2 := zero_layer 1000 135; FCN.training := true |}.

(** the kernel once the network and its optimiser are set up *)
Definition tutorial_ready : Kernel :=
  set_heap
    (λ _, [OModule zero_net;
           OAdam {| params := 0; rate := from_decimal 5 (-3); state := ∅ |}])
    (set_globals
       (λ g, <["loss" := VLossFn]>
               (<["optimiser" := VRef 1]>
                  (<["n_epochs" := VInt 100]> (<["fcn" := VRef 0]> g))))
       tutorial_windowed).

(** the same with windows of 136 samples in the training loader *)
Definition tutorial_wide : Kernel :=
  set_globals
    (insert "train_loader" (VLoader (zeros [22; 136]) (zeros [22; 136]) 64))
    tutorial_ready.

(** the kernel once the regressors have predicted and the plotting
    functions are defined, for a series of 3248 months *)
Definition tutorial_fitted : Kernel :=
  set_globals
    (λ g, <["plot_nn" := VFunction plot_nn]>
            (<["plot_comp" := VFunction plot_comp]>
               (<["plot_svr" := VFunction plot_svr]>
                  (<["curve_fit_k" := VArray (zeros [1000])]>
                     (<["curve_fit" := VArray (zeros [1000])]>
                        (<["inf" := VArray (zeros [1000])]>
                           (<["inf_ss" := VArray (zeros [1000; 1])]>
                              (<["times_rs" := VArray (zeros [24; 135])]>
                                 (<["ss_number" := VArray (zeros [3248])]>
                                    (<["time" := VArray (zeros [3248])]>
                                       (<["time_ss" := VArray (zeros [3248; 1])]> g)))))))))))
    tutorial_ready.

(** a kernel in which an estimator has been created and not fitted *)
Definition tutorial_unfitted : Kernel :=
  set_heap (λ h, h ++ [ORegressor SVR Tutorial.the_kernel None])
    (set_globals (insert "svr" (VRef 2)) tutorial_fitted).

(** the same once [ss_number] has lost its first eight entries: the
    regressor is then given 3248 samples and 3240 targets *)
Definition tutorial_mismatched : Kernel :=
  set_globals (insert "ss_number" (VArray (zeros [3240]))) tutorial_unfitted.

(** the tutorial with an infinite time among the times *)
Definition tutorial_unbounded : Kernel :=
  set_globals
    (insert "time" (VArray (np.array [from_Z 1749; PrimFloat.infinity])))
    tutorial_started.

(** a series of 3248 months, and a disk that holds it: month [i] after
    January 1749, its date in the middle of the month and a monthly
    mean between 0.0 and 199.9 *)
Definition digits (w : nat) (n : N) : string :=
  let s := pretty n in
  String.concat "" (replicate (w - String.length s) "0") +:+ s.
Definition month_record (i : N) : string :=
  let year := (1749 + i `div` 12)%N in
  let month := (1 + i `mod` 12)%N in
  let tenths := ((i * 37) `mod` 2000)%N in
  pretty year +:+ ";" +:+ digits 2 month +:+ ";"
    +:+ pretty year +:+ "." +:+ digits 3 (((2 * month - 1) * 1000) `div` 24)%N
    +:+ "; " +:+ pretty (tenths `div` 10)%N +:+ "." +:+ pretty (tenths `mod` 10)%N
    +:+ "; -1.0;   -1;1" +:+ String newline "".
Definition long_series : string :=
  foldr String.append "" ((λ i, month_record (N.of_nat i)) <$> seq 0 3248).

(** the tables the reader makes of the two series *)
Definition table_of (text : string) : list (list float) :=
  match plain_rows ";" None Tutorial.csv_names text with
  | Ok rows => rows
  | Raise _ => []
  end.
Definition table : list (list float) := table_of series.
Definition long_table : list (list float) := table_of long_series.
Definition long_disk : gmap string File :=
  {[ "SN_m_tot_V2.0.csv" := TextFile long_series ]}.

End Example.

(** * Vocabulary of the properties *)

(** ** Properties kept by every step of a computation

    [R k k' o] relates the kernel before a computation, the kernel after
    it and its outcome ([None] when it completes, the exception when it
    raises).  A relation that holds of doing nothing and composes with a
    completed first part is kept by sequencing, whatever the cell. *)

Definition outcome {A} (r : Result A) : option Exn :=
  match r with
  | Ok _ => None
  | Raise e => Some e
  end.

Section Obeys.
Context `{Numerics} `{!Learners}.
Implicit Types (k : Kernel).

Definition obeys {A} (R : Kernel → Kernel → option Exn → Prop) (m : M A) : Prop :=
  ∀ k, R k (m k).1 (outcome (m k).2).

Class Compositional (R : Kernel → Kernel → option Exn → Prop) : Prop := {
  comp_refl k : R k k None;
  comp_trans k k1 k2 o : R k k1 None → R k1 k2 o → R k k2 o;
}.

(** The events of a computation end with the exception it raises, if it
    raises, and hold no other: nothing runs after an exception, and no
    exception is raised and then lost. *)
Definition raised_last (k k' : Kernel) (o : option Exn) : Prop :=
  ∃ evs, log k' = log k ++ evs ∧
    match o with
    | None => ∀ e, EvRaise e ∉ evs
    | Some e => ∃ pre, evs = pre ++ [EvRaise e] ∧ ∀ e', EvRaise e' ∉ pre
    end.

(** what a relation must grant for the steps that write to the log *)
Definition raises_ok (R : Kernel → Kernel → option Exn → Prop) : Prop :=
  ∀ k e, R k (set_log (λ l, l ++ [EvRaise e]) k) (Some e).
Definition logs_ok (R : Kernel → Kernel → option Exn → Prop) (ev : Event) : Prop :=
  ∀ k, R k (set_log (λ l, l ++ [ev]) k) None.

(** Modelled from the spec: the archive [data.npz], a data file of the
    repository that is not among the sources.  The spec describes it as
    one packed-array file holding two named numeric arrays; the sample
    matrix, which the notebook reads under the key ["data"], is
    described as 400 observations of 10 features. *)
Record packed_array_file (arrays : gmap string np.ndarray) (a : np.ndarray)
  : Prop := {
  two_named_arrays : size arrays = 2;
  sample_matrix : arrays !! Exercises.npz_key = Some a;
  sample_shape : np.shape a = [400; 10];
}.

(** the fitted state an estimator holds after [fit] returned or raised *)
Definition fitted_by (r : Result model) (f0 : option model) : option model :=
  match r with
  | Ok f => Some f
  | Raise _ => f0
  end.

(** What the properties of a whole run ask of the regressors of the
    library, given the kernel of the tutorial: on finite data, one
    feature and as many targets as samples, [fit] returns; and the
    model it returns predicts one value for every sample of a finite
    input of one feature. *)
Definition regressors_work : Prop :=
  ∀ a (X y : np.ndarray) n,
    np.shape X = [n; 1] → np.shape y = [n] → n ≠ 0 →
    length (np.data X) = n → length (np.data y) = n →
    forallb is_finite (np.data X ++ np.data y) = true →
    ∃ f, fit_regressor a Tutorial.the_kernel X y = Ok f ∧
         ∀ (X' : np.ndarray) m,
           np.shape X' = [m; 1] → m ≠ 0 → length (np.data X') = m →
           forallb is_finite (np.data X') = true →
           ∃ Y, predict_regressor f X' = Ok Y ∧ np.shape Y = [m].

(** the events that open a file, and the calls that fit or apply a scaler *)
Definition is_open (e : Event) : bool :=
  match e with
  | EvOpen _ => true
  | _ => false
  end.
Definition is_scaling (e : Event) : bool :=
  match e with
  | EvCall fn =>
      String.eqb fn "StandardScaler.fit"
      || String.eqb fn "StandardScaler.transform"
  | _ => false
  end.

(** the calls by which the tutorial builds a network or an optimiser,
    and those by which it trains one *)
Definition is_building (e : Event) : bool :=
  match e with
  | EvCall fn => String.eqb fn "nn.Linear" || String.eqb fn "optim.Adam"
  | _ => false
  end.
Definition is_training (e : Event) : bool :=
  match e with
  | EvCall fn =>
      String.eqb fn "Optimizer.zero_grad" || String.eqb fn "Tensor.backward"
      || String.eqb fn "Optimizer.step"
  | _ => false
  end.

(** the variable [x] is bound to what it was bound to *)
Definition bound_alike (x : string) (k k' : Kernel) (_ : option Exn) : Prop :=
  globals k' !! x = globals k !! x.

(** no event of the kind [P] was logged *)
Definition silent (P : Event → bool) (k k' : Kernel) (_ : option Exn) : Prop :=
  ∃ evs, log k' = log k ++ evs ∧ filter (λ e, P e) evs = [].

(** A layer with [i] inputs and [o] outputs, as [nn.Linear(i, o)] builds
    it, and the network as [FCN()] builds it. *)
Definition layer_ok (i o : nat) (l : nn.Linear) : Prop :=
  nn.in_features l = i ∧ nn.out_features l = o ∧
  np.shape (nn.value (nn.weight l)) = [o; i] ∧
  length (np.data (nn.value (nn.weight l))) = o * i ∧
  np.shape (nn.value (nn.bias l)) = [o] ∧
  length (np.data (nn.value (nn.bias l))) = o.
Definition network_ok (net : FCN.t) : Prop :=
  layer_ok 135 1000 (FCN.fc1 net) ∧ layer_ok 1000 1000 (FCN.fc1b net) ∧
  layer_ok 1000 135 (FCN.fc2 net).

(** the number of steps Adam has made on parameter [i] *)
Definition steps_of (o : Adam) (i : nat) : nat :=
  from_option steps 0 (state o !! i).

(** What the training cell needs of the kernel: the names it reads, the
    network [mid] and the optimiser [oid] on the heap, and loaders over
    22 training windows and 2 validation windows of 135 samples. *)
Record ready (k : Kernel) (mid oid : nat) (tx ty vx vy : list num) : Prop := {
  ready_torch : is_Some (globals k !! "torch");
  ready_np : is_Some (globals k !! "np");
  ready_fcn : globals k !! "fcn" = Some (VRef mid);
  ready_optimiser : globals k !! "optimiser" = Some (VRef oid);
  ready_loss : globals k !! "loss" = Some VLossFn;
  ready_epochs : globals k !! "n_epochs" = Some (VInt 100);
  ready_train :
    globals k !! "train_loader"
    = Some (VLoader {| np.shape := [22; 135]; np.data := tx |}
                    {| np.shape := [22; 135]; np.data := ty |} 64);
  ready_val :
    globals k !! "val_loader"
    = Some (VLoader {| np.shape := [2; 135]; np.data := vx |}
                    {| np.shape := [2; 135]; np.data := vy |} 64);
  ready_grad : grad_enabled k = true;
}.

(** the library calls of one epoch, and of the cell that sets training up *)
Definition epoch_log : list Event :=
  [EvCall "Module.train"; EvCall "Optimizer.zero_grad"; EvCall "FCN.forward";
   EvCall "autograd.record"; EvCall "MSELoss"; EvCall "Tensor.backward";
   EvCall "Optimizer.step";
   EvCall "Module.eval"; EvCall "FCN.forward"; EvCall "MSELoss";
   EvCall "np.mean"; EvCall "print"].
Definition setup_log : list Event :=
  [EvCall "nn.Linear"; EvCall "nn.Linear"; EvCall "nn.Linear";
   EvCall "optim.Adam"; EvCall "nn.MSELoss"].

(** the output of a forward pass, on a single-precision input, that
    returns *)
Definition forward_value (m : FCN.t) (x : np.ndarray) : np.ndarray :=
  match FCN.forward m nn.float32 x with
  | Ok y => y
  | Raise _ => x
  end.

(** one sample through the three layers of the network *)
Definition sample_forward (m : FCN.t) (x : list num) : list num :=
  nn.affine (FCN.fc2 m)
    (fmax (of_Z 0) <$> nn.affine (FCN.fc1b m)
       (fmax (of_Z 0) <$> nn.affine (FCN.fc1 m) x)).

(** The parameters of the modules and the optimisers on the heap,
    position by position. *)
Definition parameters_of (o : Obj) : option (list nn.Param) :=
  match o with
  | OModule m => Some (FCN.parameters m)
  | _ => None
  end.
Definition optimiser_of (o : Obj) : option Adam :=
  match o with
  | OAdam a => Some a
  | _ => None
  end.
Definition weights (k : Kernel) : list (option (list nn.Param)) :=
  parameters_of <$> heap k.
Definition optimisers (k : Kernel) : list (option Adam) :=
  optimiser_of <$> heap k.

(** the calls by which training acts on the parameters *)
Definition training_calls : list Event :=
  [EvCall "autograd.record"; EvCall "Tensor.backward"; EvCall "Optimizer.step"].

(** The parameters and the optimisers are what they were, gradient
    recording is switched as it was, and nothing was recorded for
    autograd, no backward pass and no optimiser step was made. *)
Definition untrained (k k' : Kernel) (_ : option Exn) : Prop :=
  weights k' = weights k ∧ optimisers k' = optimisers k ∧
  grad_enabled k' = grad_enabled k ∧
  ∃ evs, log k' = log k ++ evs ∧ ∀ ev, ev ∈ training_calls → ev ∉ evs.

(** the same, of a computation that starts with recording switched off *)
Definition sheltered (k k' : Kernel) (o : option Exn) : Prop :=
  grad_enabled k = false → untrained k k' o.

End Obeys.

(** * Properties *)

(** ** Running a computation step by step *)

Create HintDb cell discriminated.
Create HintDb steps discriminated.

#[export] Hint Unfold
  as_array as_frame as_tensor as_int as_float as_ref as_scaler as_module
  as_adam as_regressor as_loader as_list print
  torch.new_param torch.Linear Tutorial.FCN_new
  torch.call_module torch.call_loss torch.set_mode torch.backward
  torch.Adam_new torch.zero_grad torch.step
  Tutorial.for_loader Tutorial.to_float Tutorial.evaluate Tutorial.train_step
  Tutorial.training_pass Tutorial.validation_step Tutorial.validation_pass
  Tutorial.report Tutorial.epoch
  Tutorial.column Tutorial.plt Tutorial.plt_plot Tutorial.shape_of
  Tutorial.reshaped Tutorial.windows Tutorial.tensor_slice
  Tutorial.make_dataset Tutorial.make_loader Tutorial.make_estimator
  Tutorial.fit_estimator Tutorial.predict_estimator
  torch.from_numpy torch.float torch.getslice torch.TensorDataset
  torch.DataLoader sklearn.StandardScaler_new sklearn.fit_scaler
  sklearn.transform sklearn.estimator sklearn.fit sklearn.predict : cell.

Section Running.
Context `{Numerics} `{!Learners}.
Implicit Types (k : Kernel) (x : string) (v : PyVal).

Lemma run_bind {A B} (m : M A) (f : A → M B) k k1 a r :
  m k = (k1, Ok a) → f a k1 = r → (m ≫= f) k = r.
Proof. intros Hm Hf. unfold mbind, M_bind. by rewrite Hm. Qed.

Lemma run_bind_raise {A B} (m : M A) (f : A → M B) k k1 e :
  m k = (k1, Raise e) → (m ≫= f) k = (k1, Raise e).
Proof. intros Hm. unfold mbind, M_bind. by rewrite Hm. Qed.

Lemma run_fmap {A B} (g : A → B) (m : M A) k k1 a :
  m k = (k1, Ok a) → (g <$> m) k = (k1, Ok (g a)).
Proof. intros Hm. unfold fmap, M_fmap. by rewrite Hm. Qed.

Lemma run_ret {A} (a : A) k : mret (M := M) a k = (k, Ok a).
Proof. done. Qed.

Lemma run_get_var x v k : globals k !! x = Some v → get_var x k = (k, Ok v).
Proof. intros Hx. unfold get_var. by rewrite Hx. Qed.

Lemma run_get_var_unbound x k :
  globals k !! x = None →
  get_var x k = (set_log (λ l, l ++ [EvRaise (NameError x)]) k,
                 Raise (NameError x)).
Proof. intros Hx. unfold get_var. by rewrite Hx. Qed.

Lemma run_deref id o k : heap k !! id = Some o → deref id k = (k, Ok o).
Proof. intros Hx. unfold deref. by rewrite Hx. Qed.

Lemma run_no_grad {A} (body : M A) k k1 a :
  body (set_grad_enabled false k) = (k1, Ok a) →
  no_grad body k = (set_grad_enabled (grad_enabled k) k1, Ok a).
Proof. intros Hb. unfold no_grad. by rewrite Hb. Qed.

Lemma run_lift {A} fn (r : Result A) a k :
  r = Ok a → lift fn r k = (set_log (λ l, l ++ [EvCall fn]) k, Ok a).
Proof. by intros ->. Qed.

Lemma run_lift_raise {A} fn (r : Result A) e k :
  r = Raise e →
  lift fn r k
  = (set_log (λ l, l ++ [EvRaise e]) (set_log (λ l, l ++ [EvCall fn]) k),
     Raise e).
Proof. by intros ->. Qed.

Lemma run_time_magic (body : M unit) k k1 :
  body (set_log (λ l, l ++ [EvCall "%%time"]) k) = (k1, Ok ()) →
  time_magic body k
  = (set_stdout
       (λ out, out ++ time_report (length (log k ++ [EvCall "%%time"]))) k1,
     Ok ()).
Proof.
  intros Hb. unfold time_magic, mbind, M_bind, call. by rewrite Hb.
Qed.

(** what the time magic leaves of its body: the state the body ended
    in, with the traceback shown when the body raised *)
Lemma time_magic_run (body : M unit) k :
  let r := body (set_log (λ l, l ++ [EvCall "%%time"]) k) in
  let k' := (time_magic body k).1 in
  (time_magic body k).2 = Ok () ∧
  globals k' = globals r.1 ∧ heap k' = heap r.1 ∧ files k' = files r.1 ∧
  grad_enabled k' = grad_enabled r.1 ∧
  log k' = log r.1 ++ match r.2 with
                      | Ok _ => []
                      | Raise _ => [EvCall "showtraceback"]
                      end ∧
  stdout k' = stdout r.1
                ++ match r.2 with
                   | Ok _ => time_report (length (log k ++ [EvCall "%%time"]))
                   | Raise _ => []
                   end.
Proof.
  unfold time_magic, mbind, M_bind, call.
  destruct (body _) as [k1 [[]|e]]; cbn; by rewrite ?app_nil_r.
Qed.

Lemma run_time_magic_raise (body : M unit) k k1 e :
  body (set_log (λ l, l ++ [EvCall "%%time"]) k) = (k1, Raise e) →
  time_magic body k
  = (set_log (λ l, l ++ [EvCall "showtraceback"]) k1, Ok ()).
Proof.
  intros Hb. unfold time_magic, mbind, M_bind, call. by rewrite Hb.
Qed.

End Running.

Ltac kernel_simpl :=
  cbn [globals heap files stdout log grad_enabled rng set_globals set_heap
       set_stdout set_log set_grad_enabled set_rng fresh fst snd
       params rate state].

(** a lookup in a namespace built by assignments *)
Ltac solve_lookup :=
  kernel_simpl;
  repeat first [ rewrite lookup_insert_eq | rewrite lookup_insert_ne by done ];
  first [ reflexivity | eassumption ].

Create HintDb lib discriminated.
Create HintDb heap discriminated.

Lemma insert_snoc {A} (l : list A) (x y : A) :
  <[length l := y]> (l ++ [x]) = l ++ [y].
Proof.
  rewrite insert_app_r_alt by done. by rewrite Nat.sub_diag.
Qed.

(** a lookup in a heap built by allocations and updates *)
Ltac solve_heap :=
  kernel_simpl; rewrite ?insert_snoc;
  first [ eassumption
        | apply list_lookup_middle; reflexivity
        | solve [ eauto 40 with heap nocore ] ].

(** steps that later parts of the development teach the tactic *)
Ltac run_hook := fail.

Ltac run_step :=
  lazymatch goal with
  | |- _ ?k = _ => tryif is_evar k then fail else idtac
  end;
  cbv beta iota; kernel_simpl;
  repeat match goal with
         | Hg : grad_enabled _ = _ |- _ => rewrite Hg
         end;
  lazymatch goal with
  | |- mbind _ _ _ = _ => eapply run_bind; [ | cbv beta iota ]
  | |- no_grad _ _ = _ => eapply run_no_grad
  | |- time_magic _ _ = _ => eapply run_time_magic
  | |- for_ (_ :: _) _ _ = _ => cbn [for_]
  | |- for_ [] _ _ = _ => apply run_ret
  | |- for_ _ _ _ = _ => run_hook
  | |- lift _ _ _ = _ => eapply run_lift; solve [ eauto 12 with lib nocore ]
  | |- deref _ _ = _ => apply run_deref; solve_heap
  | |- fmap _ _ _ = _ => eapply run_fmap
  | |- mret _ _ = _ => apply run_ret
  | |- get_var _ _ = _ => apply run_get_var; solve_lookup
  | |- set_var _ _ _ = _ => reflexivity
  | |- torch.recording _ = _ =>
      unfold torch.recording; kernel_simpl;
      repeat match goal with
             | Hg : grad_enabled _ = _ |- _ => rewrite Hg
             end;
      reflexivity
  | |- modify _ _ = _ => reflexivity
  | |- gets _ _ = _ => reflexivity
  | |- call _ _ = _ => reflexivity
  | |- opening _ _ = _ => reflexivity
  | |- new _ _ = _ => reflexivity
  | |- store _ _ _ = _ => reflexivity
  | |- _ => progress autounfold with cell
  end.

Ltac run := repeat run_step.

(** ** Composition of the properties kept by every step *)

Section Obeys.
Context `{Numerics} `{!Learners}.
Implicit Types (k : Kernel).
Context (R : Kernel → Kernel → option Exn → Prop) `{!Compositional R}.

Lemma obeys_ret {A} (a : A) : obeys R (mret a).
Proof. intros k. apply comp_refl. Qed.

Lemma obeys_bind {A B} (m : M A) (f : A → M B) :
  obeys R m → (∀ a, obeys R (f a)) → obeys R (m ≫= f).
Proof.
  intros Hm Hf k. specialize (Hm k). unfold mbind, M_bind.
  destruct (m k) as [k1 [a|e]]; simpl in *; [|done].
  eapply comp_trans; [done|]. apply Hf.
Qed.

Lemma obeys_fmap {A B} (g : A → B) (m : M A) : obeys R m → obeys R (g <$> m).
Proof.
  intros Hm k. specialize (Hm k). unfold fmap, M_fmap.
  by destruct (m k) as [k1 [a|e]].
Qed.

Lemma obeys_modify (g : Kernel → Kernel) :
  (∀ k, R k (g k) None) → obeys R (modify g).
Proof. intros Hg k. apply Hg. Qed.

Lemma obeys_gets {A} (g : Kernel → A) : obeys R (gets g).
Proof. intros k. apply comp_refl. Qed.

Lemma obeys_raise {A} e : raises_ok R → obeys R (raise (A := A) e).
Proof. intros Hr k. apply Hr. Qed.

Lemma obeys_call fn : logs_ok R (EvCall fn) → obeys R (call fn).
Proof. intros Hc k. apply Hc. Qed.

Lemma obeys_opening p : logs_ok R (EvOpen p) → obeys R (opening p).
Proof. intros Ho k. apply Ho. Qed.

Lemma obeys_lift {A} fn (r : Result A) :
  logs_ok R (EvCall fn) → raises_ok R → obeys R (lift fn r).
Proof.
  intros Hc Hr. apply obeys_bind; [by apply obeys_call|].
  intros _. destruct r; [apply obeys_ret | by apply obeys_raise].
Qed.

Lemma obeys_get_var x : raises_ok R → obeys R (get_var x).
Proof.
  intros HR k. unfold get_var.
  destruct (globals k !! x); [apply comp_refl | by apply obeys_raise].
Qed.

Lemma obeys_deref id : raises_ok R → obeys R (deref id).
Proof.
  intros HR k. unfold deref.
  destruct (heap k !! id); [apply comp_refl | by apply obeys_raise].
Qed.

Lemma obeys_recording :
  logs_ok R (EvCall "autograd.record") → obeys R torch.recording.
Proof.
  intros Hc k. unfold torch.recording.
  destruct (grad_enabled k); [apply Hc | apply comp_refl].
Qed.

Lemma obeys_for {X} (xs : list X) (body : X → M unit) :
  (∀ x, obeys R (body x)) → obeys R (for_ xs body).
Proof.
  intros Hb. induction xs as [|x xs IH]; simpl; [apply obeys_ret|].
  apply obeys_bind; [apply Hb | by intros _].
Qed.

(** The time magic keeps what its body keeps, when the relation does
    not look at the outcome: the exception of the body is caught. *)
Lemma obeys_time_magic (body : M unit) :
  (∀ k k' o, R k k' o → R k k' None) →
  logs_ok R (EvCall "%%time") → logs_ok R (EvCall "showtraceback") →
  (∀ k f, R k (set_stdout f k) None) →
  obeys R body → obeys R (time_magic body).
Proof.
  intros Hblind Ht Hs Hout Hb. unfold time_magic.
  apply obeys_bind; [by apply obeys_call|]. intros _ k.
  specialize (Hb k). destruct (body k) as [k' [[]|e]]; simpl in *.
  - eapply comp_trans; [exact Hb|]. apply Hout.
  - eapply comp_trans; [eapply Hblind, Hb|]. apply Hs.
Qed.

Lemma obeys_no_grad {A} (body : M A) :
  (∀ k b, R k (set_grad_enabled b k) None) →
  (∀ k k' o b, R k k' o → R k (set_grad_enabled b k') o) →
  obeys R body → obeys R (no_grad body).
Proof.
  intros Hg Hc Hb k. unfold no_grad.
  specialize (Hb (set_grad_enabled false k)).
  destruct (body _) as [k' r]; simpl in *.
  apply Hc. eapply comp_trans; [apply Hg | done].
Qed.

End Obeys.

#[export] Hint Unfold
  set_var store print
  torch.new_param torch.Linear torch.call_module torch.call_loss
  torch.set_mode torch.backward torch.Adam_new torch.zero_grad torch.step
  Tutorial.cell_imports Tutorial.cell_read_csv Tutorial.cell_tail
  Tutorial.cell_plot_data Tutorial.cell_extract Tutorial.cell_scaler_fit
  Tutorial.cell_scaler_transform Tutorial.cell_svr Tutorial.cell_svr_fit
  Tutorial.cell_inf Tutorial.cell_svr_predict Tutorial.cell_def
  Tutorial.plot_points Tutorial.body Tutorial.cell_call Tutorial.cell_krr
  Tutorial.cell_krr_fit Tutorial.cell_krr_predict Tutorial.cell_tensor_demo
  Tutorial.cell_class_FCN Tutorial.FCN_new Tutorial.cell_times_rs
  Tutorial.cell_ss_number_rs Tutorial.cell_datasets Tutorial.cell_loaders
  Tutorial.cell_setup Tutorial.for_loader Tutorial.to_float Tutorial.evaluate
  Tutorial.train_step Tutorial.training_pass Tutorial.validation_step
  Tutorial.validation_pass Tutorial.report Tutorial.epoch Tutorial.cell_train
  Tutorial.cell_predict_nn
  Exercises.cell_magic Exercises.cell_imports Exercises.cell_load
  Exercises.cell_import_PCA Exercises.cell_todo Exercises.cell_bar
  Exercises.cell_import_hierarchy : steps.

Lemma obeys_new `{Numerics} `{!Learners} R (o : Obj) :
  (∀ k, R k (set_heap (λ h, h ++ [o]) k) None) → obeys R (new o).
Proof. intros Hg k. apply Hg. Qed.

(** Decomposing a computation into its steps; [side] settles what the
    relation must grant for a step that changes the kernel. *)
Ltac obey_step side :=
  lazymatch goal with
  | |- obeys ?R (mbind ?f ?m) =>
      apply (obeys_bind R m f); [ | intros ?; cbv beta ]
  | |- obeys ?R (fmap ?g ?m) => apply (obeys_fmap R g m)
  | |- obeys ?R (mret ?a) => apply (obeys_ret R a)
  | |- obeys ?R (gets ?g) => apply (obeys_gets R g)
  | |- obeys _ (modify _) => apply obeys_modify; side
  | |- obeys _ (new _) => apply obeys_new; side
  | |- obeys _ (raise _) => apply obeys_raise; side
  | |- obeys _ (call _) => apply obeys_call; side
  | |- obeys _ (opening _) => apply obeys_opening; side
  | |- obeys ?R (lift ?fn ?r) => apply (obeys_lift R fn r); side
  | |- obeys ?R (get_var ?x) => apply (obeys_get_var R x); side
  | |- obeys ?R (deref ?id) => apply (obeys_deref R id); side
  | |- obeys ?R torch.recording => apply (obeys_recording R); side
  | |- obeys ?R (for_ ?xs ?body) =>
      apply (obeys_for R xs body); intros ?; cbv beta
  | |- obeys ?R (no_grad ?body) =>
      apply (obeys_no_grad R body); [side | side | ]
  | |- obeys ?R (time_magic ?body) =>
      apply (obeys_time_magic R body); [side | side | side | side | ]
  | |- obeys _ (match ?v with _ => _ end) => destruct v
  | |- obeys _ _ => progress (autounfold with cell steps)
  end.

Ltac obey side := repeat obey_step side.

(** ** Where exceptions are not handled *)

Section Propagation.
Context `{Numerics} `{!Learners}.
Implicit Types (k : Kernel).

Lemma raised_last_quiet k k' : log k' = log k → raised_last k k' None.
Proof.
  intros Hl. exists []. rewrite Hl, app_nil_r. split; [done|].
  intros e He. by apply not_elem_of_nil in He.
Qed.

#[export] Instance raised_last_compositional : Compositional raised_last.
Proof.
  split.
  - intros k. by apply raised_last_quiet.
  - intros k k1 k2 o (evs1 & H1 & Hq) (evs2 & H2 & Ho).
    exists (evs1 ++ evs2). split; [by rewrite H2, H1, app_assoc|].
    destruct o as [e|].
    + destruct Ho as (pre & -> & Hpre). exists (evs1 ++ pre).
      split; [by rewrite app_assoc|].
      intros e' [?|?]%elem_of_app; [by eapply Hq | by eapply Hpre].
    + intros e [?|?]%elem_of_app; [by eapply Hq | by eapply Ho].
Qed.

Lemma raised_last_call fn : logs_ok raised_last (EvCall fn).
Proof.
  intros k. exists [EvCall fn]. split; [done|].
  intros e He%list_elem_of_singleton. discriminate.
Qed.

Lemma raised_last_open p : logs_ok raised_last (EvOpen p).
Proof.
  intros k. exists [EvOpen p]. split; [done|].
  intros e He%list_elem_of_singleton. discriminate.
Qed.

Lemma raised_last_raise : raises_ok raised_last.
Proof.
  intros k e. exists [EvRaise e]. split; [done|]. exists []. split; [done|].
  intros e' He. by apply not_elem_of_nil in He.
Qed.

Lemma raised_last_no_grad k k' o b :
  raised_last k k' o → raised_last k (set_grad_enabled b k') o.
Proof. done. Qed.

End Propagation.

Ltac quiet_side :=
  first [ exact raised_last_raise
        | apply raised_last_call
        | apply raised_last_open
        | exact raised_last_no_grad
        | intros; apply raised_last_quiet; reflexivity ].

Section PropagationCells.
Context `{Numerics} `{!Learners}.

(** every cell of the tutorial but the ninth, the one under [%%time] *)
Lemma tutorial_cells_propagate :
  Forall (obeys raised_last) (delete 8 Tutorial.cells).
Proof.
  unfold Tutorial.cells. cbn [delete list_delete].
  repeat apply Forall_cons_2; [..|done]; obey quiet_side.
Qed.

Lemma exercises_cells_propagate : Forall (obeys raised_last) Exercises.cells.
Proof.
  unfold Exercises.cells. repeat apply Forall_cons_2; [..|done]; obey quiet_side.
Qed.

End PropagationCells.

(** ** The validation pass trains nothing *)

Section Validation.
Context `{Numerics} `{!Learners}.
Implicit Types (k : Kernel).

Lemma untrained_quiet k k' :
  heap k' = heap k → log k' = log k → grad_enabled k' = grad_enabled k →
  untrained k k' None.
Proof.
  intros Hh Hl Hg. unfold untrained, weights, optimisers. rewrite Hh, Hl.
  split_and!; [done..|]. exists []. rewrite app_nil_r.
  split; [done|]. intros ev _. apply not_elem_of_nil.
Qed.

Lemma untrained_log k ev o :
  ev ∉ training_calls → untrained k (set_log (λ l, l ++ [ev]) k) o.
Proof.
  intros Hev. split_and!; [done..|]. exists [ev]. split; [done|].
  by intros ev' Hin ->%list_elem_of_singleton.
Qed.

#[export] Instance untrained_compositional : Compositional untrained.
Proof.
  split.
  - intros k. by apply untrained_quiet.
  - intros k k1 k2 o (Hw1 & Ho1 & Hg1 & evs1 & Hl1 & Hn1)
      (Hw2 & Ho2 & Hg2 & evs2 & Hl2 & Hn2).
    split_and!; [congruence..|]. exists (evs1 ++ evs2).
    split; [by rewrite Hl2, Hl1, app_assoc|].
    intros ev Hev [?|?]%elem_of_app; [by eapply Hn1 | by eapply Hn2].
Qed.

#[export] Instance sheltered_compositional : Compositional sheltered.
Proof.
  split.
  - intros k _. apply comp_refl.
  - intros k k1 k2 o H1 H2 Hg. specialize (H1 Hg).
    eapply comp_trans; [done|]. apply H2.
    destruct H1 as (_ & _ & -> & _). done.
Qed.

Lemma not_training_call fn :
  fn ≠ "autograd.record" → fn ≠ "Tensor.backward" → fn ≠ "Optimizer.step" →
  EvCall fn ∉ training_calls.
Proof.
  intros H1 H2 H3 Hin. unfold training_calls in Hin.
  repeat (apply elem_of_cons in Hin as [[= ?]|Hin]; [done|]).
  by apply not_elem_of_nil in Hin.
Qed.

Lemma untrained_raise : raises_ok untrained.
Proof.
  intros k e. apply untrained_log. intros Hin. unfold training_calls in Hin.
  repeat (apply elem_of_cons in Hin as [[=]|Hin]).
  by apply not_elem_of_nil in Hin.
Qed.

Lemma untrained_call fn :
  fn ≠ "autograd.record" → fn ≠ "Tensor.backward" → fn ≠ "Optimizer.step" →
  logs_ok untrained (EvCall fn).
Proof. intros H1 H2 H3 k. by apply untrained_log, not_training_call. Qed.

Lemma sheltered_raise : raises_ok sheltered.
Proof. intros k e _. apply untrained_raise. Qed.

Lemma sheltered_call fn :
  fn ≠ "autograd.record" → fn ≠ "Tensor.backward" → fn ≠ "Optimizer.step" →
  logs_ok sheltered (EvCall fn).
Proof. intros H1 H2 H3 k _. by apply untrained_call. Qed.

Lemma sheltered_quiet k k' :
  heap k' = heap k → log k' = log k → grad_enabled k' = grad_enabled k →
  sheltered k k' None.
Proof. intros ??? _. by apply untrained_quiet. Qed.

(** With recording switched off, nothing is recorded. *)
Lemma recording_sheltered : obeys sheltered torch.recording.
Proof.
  intros k Hg. unfold torch.recording. rewrite Hg. by apply untrained_quiet.
Qed.

(** Switching the mode rewrites the module object with the same
    parameters. *)
Lemma set_mode_untrained f b : obeys untrained (torch.set_mode f b).
Proof.
  intros k. unfold torch.set_mode, as_ref.
  destruct f; try apply untrained_raise.
  unfold mbind at 1, M_bind at 1, mret, M_ret.
  unfold mbind at 1, M_bind at 1, deref, mbind at 1, M_bind at 1.
  destruct (heap k !! id) as [o|] eqn:Hid; [|apply untrained_raise].
  destruct o; try apply untrained_raise. simpl.
  split_and!.
  - unfold weights. simpl. rewrite list_fmap_insert. apply list_insert_id.
    by rewrite list_lookup_fmap, Hid.
  - unfold optimisers. simpl. rewrite list_fmap_insert. apply list_insert_id.
    by rewrite list_lookup_fmap, Hid.
  - done.
  - eexists [_]. split; [done|].
    intros ev Hev ->%list_elem_of_singleton. revert Hev.
    apply not_training_call; by destruct b.
Qed.

(** A body that trains nothing once recording is off trains nothing
    under [no_grad], however recording was switched before. *)
Lemma no_grad_untrained {A} (body : M A) :
  obeys sheltered body → obeys untrained (no_grad body).
Proof.
  intros Hb k. unfold no_grad.
  specialize (Hb (set_grad_enabled false k) eq_refl).
  destruct (body _) as [k' r]. simpl in *.
  destruct Hb as (Hw & Ho & _ & Hl). by split_and!.
Qed.

End Validation.

Ltac untrained_side :=
  first [ exact untrained_raise
        | apply untrained_call; discriminate
        | intros; apply untrained_quiet; reflexivity
        | intros; assumption ].

Ltac sheltered_side :=
  first [ exact sheltered_raise
        | apply sheltered_call; discriminate
        | intros; apply sheltered_quiet; reflexivity ].

Ltac obey_sheltered :=
  repeat first [ apply recording_sheltered | obey_step sheltered_side ].

Ltac obey_untrained :=
  repeat first [ apply set_mode_untrained
               | apply no_grad_untrained; obey_sheltered
               | obey_step untrained_side ].

Section ValidationPass.
Context `{Numerics} `{!Learners}.

Lemma validation_pass_untrained : obeys untrained Tutorial.validation_pass.
Proof. unfold Tutorial.validation_pass. obey_untrained. Qed.

End ValidationPass.

(** ** Arrays and layers *)

Section ArrayFacts.
Context `{Numerics}.

Lemma length_chunks {A} k (l : list A) :
  length (np.chunks k l) = length l `div` k.
Proof. unfold np.chunks. by rewrite length_fmap, length_seq. Qed.

Lemma chunks_whole {A} k (l : list A) :
  k ≠ 0 → length l = k → np.chunks k l = [l].
Proof.
  intros Hk Hl. unfold np.chunks, np.block. rewrite Hl, Nat.div_same by done.
  simpl. by rewrite drop_0, take_ge by lia.
Qed.

Lemma length_weight_rows i o l :
  i ≠ 0 → layer_ok i o l → length (nn.weight_rows l) = o.
Proof.
  intros Hi (Hin & _ & _ & Hw & _). unfold nn.weight_rows.
  rewrite length_chunks, Hw, Hin. by apply Nat.div_mul.
Qed.

Lemma length_affine i o l x :
  i ≠ 0 → layer_ok i o l → length (nn.affine l x) = o.
Proof.
  intros Hi Hl. unfold nn.affine.
  rewrite length_zip_with, (length_weight_rows i o) by done.
  destruct Hl as (_ & _ & _ & _ & _ & ->). lia.
Qed.

(** A layer maps a vector of its input size to the vector [W x + b]. *)
Lemma linear_vector i o l x :
  i ≠ 0 → layer_ok i o l → length x = i →
  nn.linear l nn.float32 (np.array x) = Ok (np.array (nn.affine l x)).
Proof.
  intros Hi Hl Hx. unfold nn.linear, np.array. simpl.
  destruct (Hl) as (Hin & Hout & _).
  rewrite bool_decide_true by congruence.
  rewrite chunks_whole by congruence. simpl.
  by rewrite app_nil_r, Hout, (length_affine i o).
Qed.

(** On any input whose last axis has the input size, a layer returns an
    array whose last axis has the output size. *)
Lemma linear_shape l x pre :
  np.shape x = pre ++ [nn.in_features l] →
  ∃ y, nn.linear l nn.float32 x = Ok y ∧
       np.shape y = pre ++ [nn.out_features l].
Proof.
  intros Hx. unfold nn.linear. rewrite Hx, last_snoc.
  rewrite bool_decide_true by done. eexists. split; [done|]. simpl.
  by rewrite removelast_last.
Qed.

Lemma forward_shape net x pre :
  network_ok net → np.shape x = pre ++ [135] →
  ∃ y, FCN.forward net nn.float32 x = Ok y ∧ np.shape y = pre ++ [135].
Proof.
  intros ((H1 & O1 & _) & (H2 & O2 & _) & (H3 & O3 & _)) Hx.
  unfold FCN.forward.
  destruct (linear_shape (FCN.fc1 net) x pre) as (y1 & -> & S1); [by rewrite H1|].
  destruct (linear_shape (FCN.fc1b net) (nn.relu y1) pre) as (y2 & E2 & S2).
  { simpl. by rewrite S1, O1, H2. }
  simpl. rewrite E2. simpl.
  destruct (linear_shape (FCN.fc2 net) (nn.relu y2) pre) as (y3 & E3 & S3).
  { simpl. by rewrite S2, O2, H3. }
  exists y3. split; [done|]. by rewrite S3, O3.
Qed.

End ArrayFacts.

(** ** The clustering exercises *)

Section ExercisesFacts.
Context `{Numerics} `{!Learners}.
Implicit Types (k : Kernel).

Lemma np_load_item_ok (fs : gmap string File) path key arrays a :
  fs !! path = Some (NpzFile arrays) → arrays !! key = Some a →
  np_load_item fs path key = Ok a.
Proof. intros Hf Ha. unfold np_load_item. by rewrite Hf, Ha. Qed.
#[local] Hint Resolve np_load_item_ok : lib.

Lemma cell_load_ok k arrays a v :
  globals k !! "np" = Some v →
  files k !! Exercises.npz_path = Some (NpzFile arrays) →
  arrays !! Exercises.npz_key = Some a →
  ∃ k', Exercises.cell_load k = (k', Ok ()) ∧
        globals k' = <["data" := VArray a]> (globals k) ∧
        log k' = log k ++ [EvOpen Exercises.npz_path; EvCall "np.load"] ∧
        heap k' = heap k ∧ files k' = files k.
Proof.
  intros Hnp Hf Ha. eexists. split.
  - unfold Exercises.cell_load. run.
  - kernel_simpl. by rewrite <- app_assoc.
Qed.

End ExercisesFacts.

(** ** Cells that leave a binding alone, or log no event of a kind *)

Section Frames.
Context `{Numerics} `{!Learners}.
Implicit Types (k : Kernel).

#[export] Instance bound_alike_compositional x : Compositional (bound_alike x).
Proof.
  split.
  - done.
  - intros k k1 k2 o H1 H2. unfold bound_alike in *. congruence.
Qed.

#[export] Instance silent_compositional P : Compositional (silent P).
Proof.
  split.
  - intros k. exists []. by rewrite app_nil_r.
  - intros k k1 k2 o (evs1 & Hl1 & Hf1) (evs2 & Hl2 & Hf2).
    exists (evs1 ++ evs2). split; [by rewrite Hl2, Hl1, app_assoc|].
    by rewrite filter_app, Hf1, Hf2.
Qed.

Lemma bound_alike_set_var x y v k :
  x ≠ y → bound_alike x k (set_globals (insert y v) k) None.
Proof. intros Hxy. unfold bound_alike. simpl. by rewrite lookup_insert_ne. Qed.

Lemma silent_quiet P k k' o : log k' = log k → silent P k k' o.
Proof. intros Hl. exists []. by rewrite Hl, app_nil_r. Qed.

Lemma silent_log P ev k o :
  P ev = false → silent P k (set_log (λ l, l ++ [ev]) k) o.
Proof.
  intros HP. exists [ev]. split; [done|].
  rewrite filter_cons_False; [done|]. rewrite HP. by intros [].
Qed.

Lemma run_each_obeys R `{!Compositional R} (cs : list (M unit)) k :
  (∀ k k' o, R k k' o → R k k' None) →
  Forall (obeys R) cs → R k (run_each cs k) None.
Proof.
  intros Hblind Hcs. revert k. induction Hcs as [|c cs Hc _ IH]; intros k; simpl.
  - apply comp_refl.
  - eapply comp_trans; [|apply IH]. eapply Hblind, Hc.
Qed.

End Frames.

Ltac bound_side :=
  unfold logs_ok, raises_ok; intros;
  first [ apply bound_alike_set_var; discriminate
        | reflexivity
        | assumption ].

Ltac silent_side :=
  unfold logs_ok, raises_ok; intros;
  first [ apply silent_log; reflexivity
        | apply silent_quiet; reflexivity
        | assumption ].

Section FrameCells.
Context `{Numerics} `{!Learners}.

(** Of the tutorial: only the second cell opens a file, only the fifth
    binds [ss_number], and only the sixth, the seventh and the tenth
    call the scaler. *)
Lemma others_open_nothing :
  Forall (obeys (silent is_open)) (delete 1 Tutorial.cells).
Proof.
  unfold Tutorial.cells. cbn [delete list_delete].
  repeat apply Forall_cons_2; [..|done]; obey silent_side.
Qed.

Lemma others_keep_target :
  Forall (obeys (bound_alike "ss_number")) (delete 4 Tutorial.cells).
Proof.
  unfold Tutorial.cells. cbn [delete list_delete].
  repeat apply Forall_cons_2; [..|done]; obey bound_side.
Qed.

Lemma others_scale_nothing :
  Forall (obeys (silent is_scaling))
    (delete 5 (delete 6 (delete 9 Tutorial.cells))).
Proof.
  unfold Tutorial.cells. cbn [delete list_delete].
  repeat apply Forall_cons_2; [..|done]; obey silent_side.
Qed.

(** Of the exercises: the cells after the loading bind no [data] and
    open no file. *)
Lemma later_cells_keep_data :
  Forall (obeys (bound_alike "data")) Exercises.later_cells.
Proof.
  unfold Exercises.later_cells, Exercises.cells. simpl.
  repeat apply Forall_cons_2; [..|done]; obey bound_side.
Qed.

Lemma later_cells_open_nothing :
  Forall (obeys (silent is_open)) Exercises.later_cells.
Proof.
  unfold Exercises.later_cells, Exercises.cells. simpl.
  repeat apply Forall_cons_2; [..|done]; obey silent_side.
Qed.

End FrameCells.

(** ** Reading the series and extracting its columns *)

Section Loading.
Context `{Numerics} `{!Learners}.
Implicit Types (k : Kernel).

Lemma read_csv_ok (fs : gmap string File) path sep names text rows :
  fs !! path = Some (TextFile text) →
  read_rows sep None names text = Ok rows →
  pd.read_csv fs path sep None names = Ok (pd.frame names rows).
Proof. intros Hf Hr. unfold pd.read_csv. by rewrite Hf, Hr. Qed.

Lemma read_csv_raises (fs : gmap string File) path sep names text e :
  fs !! path = Some (TextFile text) →
  read_rows sep None names text = Raise e →
  pd.read_csv fs path sep None names = Raise e.
Proof. intros Hf Hr. unfold pd.read_csv. by rewrite Hf, Hr. Qed.

(** The columns of the frame of the series, by the names the notebook
    uses. *)
Lemma getitem_date (rows : list (list num)) :
  pd.getitem (pd.frame Tutorial.csv_names rows) "Date in fraction of year"
  = Ok (pd.cell 2 <$> rows).
Proof. reflexivity. Qed.

Lemma getitem_mean (rows : list (list num)) :
  pd.getitem (pd.frame Tutorial.csv_names rows) "Monthly mean"
  = Ok (pd.cell 3 <$> rows).
Proof. reflexivity. Qed.

#[local] Hint Resolve read_csv_ok getitem_date getitem_mean : lib.

Lemma cell_read_csv_ok k text rows v :
  globals k !! "pd" = Some v →
  files k !! Tutorial.csv_path = Some (TextFile text) →
  read_rows ";" None Tutorial.csv_names text = Ok rows →
  Tutorial.cell_read_csv k
  = (set_globals
       (insert "ss_data" (VFrame (pd.frame Tutorial.csv_names rows)))
       (set_log (λ l, l ++ [EvCall "pd.read_csv"])
          (set_log (λ l, l ++ [EvOpen Tutorial.csv_path]) k)),
     Ok ()).
Proof.
  intros Hpd Hf Hw. unfold Tutorial.cell_read_csv. run.
Qed.

(** a fault of the reader is the fault of the cell, which binds nothing *)
Lemma cell_read_csv_raises k v e :
  globals k !! "pd" = Some v →
  pd.read_csv (files k) Tutorial.csv_path ";" None Tutorial.csv_names = Raise e →
  Tutorial.cell_read_csv k
  = (set_log (λ l, l ++ [EvRaise e])
       (set_log (λ l, l ++ [EvCall "pd.read_csv"])
          (set_log (λ l, l ++ [EvOpen Tutorial.csv_path]) k)),
     Raise e).
Proof.
  intros Hpd Hr. unfold Tutorial.cell_read_csv.
  eapply run_bind; [run|]. cbv beta.
  eapply run_bind; [run|]. cbv beta.
  eapply run_bind; [run|]. cbv beta.
  eapply run_bind_raise. kernel_simpl.
  eapply run_lift_raise. exact Hr.
Qed.

Lemma cell_read_csv_inv k k1 text :
  files k !! Tutorial.csv_path = Some (TextFile text) →
  Tutorial.cell_read_csv k = (k1, Ok ()) →
  ∃ rows,
    read_rows ";" None Tutorial.csv_names text = Ok rows ∧
    is_Some (globals k !! "pd") ∧
    k1 = set_globals
           (insert "ss_data" (VFrame (pd.frame Tutorial.csv_names rows)))
           (set_log (λ l, l ++ [EvCall "pd.read_csv"])
              (set_log (λ l, l ++ [EvOpen Tutorial.csv_path]) k)).
Proof.
  intros Hf Hrun. unfold Tutorial.cell_read_csv in Hrun.
  cbv [mbind M_bind get_var gets opening lift call mret M_ret set_var modify
       raise] in Hrun.
  destruct (globals k !! "pd") as [v|] eqn:Hpd; [|done].
  unfold pd.read_csv in Hrun. cbn [files set_log] in Hrun. rewrite Hf in Hrun.
  destruct (read_rows _ _ _ _) as [rows|e] eqn:Hr; [|done].
  injection Hrun as <-. by exists rows.
Qed.

Lemma cell_extract_ok k (rows : list (list num)) :
  globals k !! "ss_data"
    = Some (VFrame (pd.frame Tutorial.csv_names rows)) →
  ∃ k', Tutorial.cell_extract k = (k', Ok ()) ∧
        globals k' = <["ss_number" := VArray (np.array (pd.cell 3 <$> rows))]>
                       (<["time" := VArray (np.array (pd.cell 2 <$> rows))]>
                          (globals k)) ∧
        heap k' = heap k ∧ files k' = files k.
Proof.
  intros Hdf. eexists. split; [unfold Tutorial.cell_extract; run | done].
Qed.

End Loading.

(** ** Standardising the time column *)

Section Scaling.
Context `{Numerics} `{!Learners}.
Implicit Types (k : Kernel).

Lemma infer_shape_column n : np.infer_shape n [-1; 1]%Z = Ok [n; 1].
Proof.
  unfold np.infer_shape.
  rewrite bool_decide_false.
  2:{ intros [Hd|Hd]%Exists_cons; [lia|].
      apply Exists_cons in Hd as [Hd|Hd]; [lia|]. by apply Exists_nil in Hd. }
  simpl. do 2 f_equal. apply (Nat.div_1_r n).
Qed.

Lemma chunks_1 {A} (l : list A) : np.chunks 1 l = (λ x, [x]) <$> l.
Proof.
  apply list_eq. intros i. unfold np.chunks, np.block.
  rewrite !list_lookup_fmap, Nat.div_1_r.
  destruct (decide (i < length l)) as [Hi|Hi].
  - rewrite lookup_seq_lt by done. simpl. rewrite Nat.mul_1_r.
    destruct (lookup_lt_is_Some_2 l i Hi) as [x Hx]. rewrite Hx. simpl.
    f_equal. apply list_eq. intros [|j].
    + by rewrite lookup_take_lt, lookup_drop, Nat.add_0_r by lia.
    + by rewrite lookup_take_ge by lia.
  - rewrite lookup_seq_ge by lia. by rewrite lookup_ge_None_2 by lia.
Qed.

Lemma column_single sh (l : list num) :
  StandardScaler.column 1 0 {| np.shape := sh; np.data := l |} = l.
Proof.
  unfold StandardScaler.column. simpl. rewrite chunks_1, <- list_fmap_compose.
  by rewrite <- (list_fmap_id l) at 2.
Qed.

(** Fitting on one column stores the mean and the deviation of that
    column. *)
Lemma fit_column (ts : list num) :
  ts ≠ [] → forallb StandardScaler.admissible ts = true →
  StandardScaler.fit {| np.shape := [length ts; 1]; np.data := ts |}
  = Ok {| StandardScaler.mean_ := [mean ts]; StandardScaler.scale_ := [std ts] |}.
Proof.
  intros Hts Hadm. unfold StandardScaler.fit. simpl.
  rewrite bool_decide_false.
  2:{ intros [Hl|?]; [|done]. by apply length_zero_iff_nil in Hl. }
  by rewrite Hadm, column_single.
Qed.

(** Transforming one column with a scaler fitted on one column maps
    every value to its standard score. *)
Lemma transform_column m sd (xs : list num) :
  xs ≠ [] → forallb StandardScaler.admissible xs = true →
  StandardScaler.transform
    (Some {| StandardScaler.mean_ := [m]; StandardScaler.scale_ := [sd] |})
    {| np.shape := [length xs; 1]; np.data := xs |}
  = Ok {| np.shape := [length xs; 1];
          np.data := (λ x, fdiv (fsub x m) sd) <$> xs |}.
Proof.
  intros Hxs Hadm. unfold StandardScaler.transform. simpl.
  rewrite Hadm, bool_decide_true.
  2:{ split; [done|]. intros Hl. by apply length_zero_iff_nil in Hl. }
  do 2 f_equal. erewrite imap_ext; [apply imap_const|]. done.
Qed.

Lemma reshape_column (ts : list num) :
  np.reshape (np.array ts) [-1; 1]%Z
  = Ok {| np.shape := [length ts; 1]; np.data := ts |}.
Proof. unfold np.reshape, np.array. cbn [np.data]. by rewrite infer_shape_column. Qed.

#[local] Hint Resolve reshape_column fit_column transform_column : lib.

(** The two cells that fit the scaler and transform the time column. *)
Lemma scaler_cells_ok k ts c :
  globals k !! "StandardScaler" = Some c →
  globals k !! "time" = Some (VArray (np.array ts)) →
  ts ≠ [] → forallb StandardScaler.admissible ts = true →
  ∃ k1 k2,
    Tutorial.cell_scaler_fit k = (k1, Ok ()) ∧
    Tutorial.cell_scaler_transform k1 = (k2, Ok ()) ∧
    globals k2
    = <["time_ss" := VArray {| np.shape := [length ts; 1];
                              np.data := (λ x, fdiv (fsub x (mean ts)) (std ts)) <$> ts |}]>
        (<["ss" := VRef (length (heap k))]> (globals k)) ∧
    heap k2 = heap k ++ [OScaler (Some {| StandardScaler.mean_ := [mean ts];
                                          StandardScaler.scale_ := [std ts] |})] ∧
    log k2 = log k ++ [EvCall "StandardScaler"; EvCall "ndarray.reshape";
                       EvCall "StandardScaler.fit"; EvCall "ndarray.reshape";
                       EvCall "StandardScaler.transform"].
Proof.
  intros Hc Ht Hts Hadm. eexists _, _. split_and!.
  - unfold Tutorial.cell_scaler_fit. run.
  - unfold Tutorial.cell_scaler_transform. run.
  - done.
  - kernel_simpl. by rewrite insert_snoc.
  - kernel_simpl. by rewrite <- !app_assoc.
Qed.

Lemma length_linspace a b n : length (np.data (np.linspace a b n)) = n.
Proof. unfold np.linspace, np.array. cbn [np.data]. by rewrite length_fmap, length_seq. Qed.

Lemma reshape_linspace a b n :
  np.reshape (np.linspace a b n) [-1; 1]%Z
  = Ok {| np.shape := [n; 1]; np.data := np.data (np.linspace a b n) |}.
Proof.
  rewrite <- (length_linspace a b n) at 2. apply reshape_column.
Qed.

Lemma transform_grid m sd a b n :
  n ≠ 0 →
  forallb StandardScaler.admissible (np.data (np.linspace a b n)) = true →
  StandardScaler.transform
    (Some {| StandardScaler.mean_ := [m]; StandardScaler.scale_ := [sd] |})
    {| np.shape := [n; 1]; np.data := np.data (np.linspace a b n) |}
  = Ok {| np.shape := [n; 1];
          np.data := (λ x, fdiv (fsub x m) sd) <$> np.data (np.linspace a b n) |}.
Proof.
  intros Hn Hadm. rewrite <- (length_linspace a b n) at 1 3.
  apply transform_column; [|done]. intros Hnil.
  apply (f_equal length) in Hnil. rewrite length_linspace in Hnil. done.
Qed.

(** The inference grid goes through the scaler as it was fitted. *)
Lemma cell_inf_ok k v sid m sd :
  globals k !! "np" = Some v →
  globals k !! "ss" = Some (VRef sid) →
  heap k !! sid = Some (OScaler (Some {| StandardScaler.mean_ := [m];
                                         StandardScaler.scale_ := [sd] |})) →
  forallb StandardScaler.admissible
    (np.data (np.linspace (of_Z 1600) (of_Z 2200) 1000)) = true →
  ∃ k', Tutorial.cell_inf k = (k', Ok ()) ∧
    globals k'
    = <["inf_ss" := VArray
          {| np.shape := [1000; 1];
             np.data := (λ x, fdiv (fsub x m) sd)
                          <$> np.data (np.linspace (of_Z 1600) (of_Z 2200) 1000) |}]>
        (<["inf" := VArray (np.linspace (of_Z 1600) (of_Z 2200) 1000)]> (globals k)) ∧
    heap k' = heap k ∧
    log k' = log k ++ [EvCall "np.linspace"; EvCall "ndarray.reshape";
                       EvCall "StandardScaler.transform"].
Proof.
  intros Hnp Hss Hsid Hadm.
  pose proof (reshape_linspace (of_Z 1600) (of_Z 2200) 1000) as Hr.
  pose proof (transform_grid m sd (of_Z 1600) (of_Z 2200) 1000 ltac:(done) Hadm)
    as Ht.
  eexists. split_and!.
  - unfold Tutorial.cell_inf. run.
  - done.
  - done.
  - kernel_simpl. by rewrite <- !app_assoc.
Qed.

(** Creating an estimator, and fitting it whether the library accepts
    the data or raises. *)
Lemma make_estimator_ok k x cls a c1 c2 c3 c4 :
  globals k !! cls = Some c1 →
  globals k !! "ConstantKernel" = Some c2 →
  globals k !! "ExpSineSquared" = Some c3 →
  globals k !! "RBF" = Some c4 →
  Tutorial.make_estimator x cls a k
  = (set_globals (insert x (VRef (length (heap k))))
       (set_heap (λ h, h ++ [ORegressor a Tutorial.the_kernel None])
          (set_log (λ l, l ++ [EvCall "estimator"]) k)), Ok ()).
Proof. intros. unfold Tutorial.make_estimator. run. Qed.

Lemma fit_estimator_run k x id a ker f0 X y :
  globals k !! x = Some (VRef id) →
  globals k !! "time_ss" = Some (VArray X) →
  globals k !! "ss_number" = Some (VArray y) →
  heap k !! id = Some (ORegressor a ker f0) →
  let k' := (Tutorial.fit_estimator x k).1 in
  globals k' = globals k ∧
  heap k' = <[id := ORegressor a ker (fitted_by (fit_regressor a ker X y) f0)]>
              (heap k) ∧
  log k' = log k ++ EvCall "estimator.fit"
             :: match fit_regressor a ker X y with
                | Ok _ => []
                | Raise e => [EvRaise e]
                end.
Proof.
  intros Hx HX Hy Hid. unfold Tutorial.fit_estimator.
  cbv [mbind M_bind mret M_ret get_var deref lift call raise store modify
       as_ref as_array as_regressor sklearn.fit].
  rewrite Hx, HX, Hy, Hid. cbv beta iota. kernel_simpl.
  destruct (fit_regressor a ker X y) as [f|e]; cbv beta iota zeta; kernel_simpl.
  - done.
  - split_and!; [done| |by rewrite <- app_assoc].
    unfold fitted_by. by rewrite (list_insert_id _ _ _ Hid).
Qed.

Lemma scaling_cells k ts vs c1 c2 c3 c4 c5 c6 :
  globals k !! "StandardScaler" = Some c1 →
  globals k !! "SVR" = Some c2 →
  globals k !! "ConstantKernel" = Some c3 →
  globals k !! "ExpSineSquared" = Some c4 →
  globals k !! "RBF" = Some c5 →
  globals k !! "np" = Some c6 →
  globals k !! "time" = Some (VArray (np.array ts)) →
  globals k !! "ss_number" = Some (VArray (np.array vs)) →
  ts ≠ [] →
  forallb StandardScaler.admissible ts = true →
  forallb StandardScaler.admissible
    (np.data (np.linspace (of_Z 1600) (of_Z 2200) 1000)) = true →
  let z := λ x, fdiv (fsub x (mean ts)) (std ts) in
  let time_ss := {| np.shape := [length ts; 1]; np.data := z <$> ts |} in
  let k' := run_each [Tutorial.cell_scaler_fit; Tutorial.cell_scaler_transform;
                      Tutorial.cell_svr; Tutorial.cell_svr_fit;
                      Tutorial.cell_inf] k in
  globals k' !! "time_ss" = Some (VArray time_ss) ∧
  globals k' !! "inf_ss"
    = Some (VArray {| np.shape := [1000; 1];
                      np.data := z <$> np.data (np.linspace (of_Z 1600) (of_Z 2200) 1000) |}) ∧
  globals k' !! "ss_number" = Some (VArray (np.array vs)) ∧
  heap k' = heap k ++
    [OScaler (Some {| StandardScaler.mean_ := [mean ts];
                      StandardScaler.scale_ := [std ts] |});
     ORegressor SVR Tutorial.the_kernel
       (fitted_by (fit_regressor SVR Tutorial.the_kernel time_ss (np.array vs)) None)] ∧
  filter (λ e, e = EvCall "StandardScaler.fit") (drop (length (log k)) (log k'))
    = [EvCall "StandardScaler.fit"].
Proof.
  intros H1 H2 H3 H4 H5 H6 Ht Hv Hts Ha Hg z time_ss k'. subst k'.
  destruct (scaler_cells_ok k ts c1 H1 Ht Hts Ha)
    as (k1 & k2 & E1 & E2 & G2 & Hp2 & L2).
  cbn [run_each]. rewrite E1. cbn [fst]. rewrite E2. cbn [fst].
  assert (Tutorial.cell_svr k2
          = (set_globals (insert "svr" (VRef (length (heap k2))))
               (set_heap (λ h, h ++ [ORegressor SVR Tutorial.the_kernel None])
                  (set_log (λ l, l ++ [EvCall "estimator"]) k2)), Ok ())) as E3.
  { apply (make_estimator_ok _ _ _ _ c2 c3 c4 c5); rewrite G2; solve_lookup. }
  rewrite E3. cbn [fst]. clear E3.
  set (k3 := set_globals _ _).
  destruct (time_magic_run (Tutorial.fit_estimator "svr") k3)
    as (_ & Gm & Hm & _ & _ & Lm & _).
  fold Tutorial.cell_svr_fit in Gm, Hm, Lm.
  set (k3' := set_log _ k3) in *.
  destruct (fit_estimator_run k3' "svr" (length (heap k2)) SVR
              Tutorial.the_kernel None time_ss (np.array vs))
    as (G4 & Hp4 & L4).
  { subst k3' k3. solve_lookup. }
  { subst k3' k3. kernel_simpl. rewrite G2. solve_lookup. }
  { subst k3' k3. kernel_simpl. rewrite G2. solve_lookup. }
  { subst k3' k3. kernel_simpl. by apply list_lookup_middle. }
  rewrite G4 in Gm. rewrite Hp4 in Hm. rewrite L4 in Lm.
  set (k4 := (Tutorial.cell_svr_fit k3).1) in *.
  assert (heap k4 = heap k2 ++ [ORegressor SVR Tutorial.the_kernel
            (fitted_by (fit_regressor SVR Tutorial.the_kernel time_ss (np.array vs)) None)])
    as Hp4'.
  { rewrite Hm. subst k3' k3. kernel_simpl. apply insert_snoc. }
  destruct (cell_inf_ok k4 c6 (length (heap k)) (mean ts) (std ts))
    as (k5 & E5 & G5 & Hp5 & L5).
  { rewrite Gm. subst k3' k3. kernel_simpl. rewrite G2. solve_lookup. }
  { rewrite Gm. subst k3' k3. kernel_simpl. rewrite G2. solve_lookup. }
  { rewrite Hp4', Hp2, <- app_assoc. by apply list_lookup_middle. }
  { done. }
  rewrite E5. cbn [fst].
  split_and!.
  - rewrite G5, Gm. subst k3' k3. kernel_simpl. rewrite G2. solve_lookup.
  - rewrite G5. solve_lookup.
  - rewrite G5, Gm. subst k3' k3. kernel_simpl. rewrite G2. solve_lookup.
  - by rewrite Hp5, Hp4', Hp2, <- app_assoc.
  - rewrite L5, Lm. subst k3' k3. kernel_simpl. rewrite L2.
    rewrite <- !app_assoc, drop_app_length.
    destruct (Tutorial.fit_estimator _ _).2;
      by destruct (fit_regressor _ _ _ _).
Qed.

End Scaling.

(** ** Windows, and the split into training and validation data *)

Section Windows.
Context `{Numerics} `{!Learners}.
Implicit Types (k : Kernel).

Lemma block_take {A} w (l : list A) m i :
  S i * w ≤ m → np.block w (take m l) i = np.block w l i.
Proof.
  intros Hm. unfold np.block. apply list_eq. intros p.
  destruct (decide (p < w)) as [Hp|Hp].
  - rewrite !lookup_take_lt, !lookup_drop by done.
    apply lookup_take_lt. lia.
  - by rewrite !lookup_take_ge by lia.
Qed.

Lemma block_drop {A} w (l : list A) j i :
  np.block w (drop (j * w) l) i = np.block w l (j + i).
Proof.
  unfold np.block. rewrite drop_drop. do 2 f_equal. lia.
Qed.

(** the series without its first eight samples, as 24 windows *)
Lemma windows_ok k target x rest (d : list num) :
  globals k !! x = Some (VArray {| np.shape := 3248 :: rest; np.data := d |}) →
  np.size_of rest = 1 → length d = 3248 →
  Tutorial.windows target x k
  = (set_globals (insert target (VArray {| np.shape := [24; 135];
                                           np.data := drop 8 d |}))
       (set_log (λ l, l ++ [EvCall "ndarray.reshape"])
          (set_log (λ l, l ++ [EvCall "ndarray.__getitem__"]) k)), Ok ()).
Proof.
  intros Hx Hrest Hd.
  assert (np.getslice {| np.shape := 3248 :: rest; np.data := d |} (Some 8%Z) None
          = Ok {| np.shape := 3240 :: rest; np.data := drop 8 d |}) as Hs.
  { unfold np.getslice, np.between. cbn [np.shape np.data]. rewrite Hrest.
    change (np.bound 3248 0 (Some 8%Z)) with 8.
    change (np.bound 3248 3248 None) with 3248.
    change (3248 - 8) with 3240. rewrite !Nat.mul_1_r.
    by rewrite take_ge by (rewrite length_drop; lia). }
  assert (np.reshape {| np.shape := 3240 :: rest; np.data := drop 8 d |} [24; -1]%Z
          = Ok {| np.shape := [24; 135]; np.data := drop 8 d |}) as Hr.
  { unfold np.reshape. cbn [np.data]. rewrite length_drop, Hd.
    change (3248 - 8) with 3240. reflexivity. }
  unfold Tutorial.windows. run.
Qed.

Lemma slice_train (w : list num) :
  np.getslice {| np.shape := [24; 135]; np.data := w |} None (Some (-2)%Z)
  = Ok {| np.shape := [22; 135]; np.data := take (22 * 135) w |}.
Proof. reflexivity. Qed.

Lemma slice_val (w : list num) :
  length w = 24 * 135 →
  np.getslice {| np.shape := [24; 135]; np.data := w |} (Some (-2)%Z) None
  = Ok {| np.shape := [2; 135]; np.data := drop (22 * 135) w |}.
Proof.
  intros Hw. unfold np.getslice, np.between. cbn [np.shape np.data].
  change (np.bound 24 0 (Some (-2)%Z)) with 22.
  change (np.bound 24 24 None) with 24.
  change ((24 - 22) * np.size_of [135]) with (2 * 135).
  change (22 * np.size_of [135]) with (22 * 135).
  rewrite take_ge; [done|]. rewrite length_drop, Hw. lia.
Qed.

Lemma dataset_check (X y : np.ndarray) n sx sy :
  np.shape X = n :: sx → np.shape y = n :: sy →
  match head (np.shape X), head (np.shape y) with
  | Some n, Some m =>
      if bool_decide (n = m) then Ok (VDataset X y) else Raise AssertionError
  | _, _ => Raise IndexError
  end = Ok (VDataset X y).
Proof. intros -> ->. simpl. by rewrite bool_decide_true. Qed.

#[local] Hint Resolve slice_train slice_val dataset_check : lib.
#[local] Hint Extern 1 (np.shape _ = _ :: _) => reflexivity : lib.

(** The training set is the first 22 windows and the validation set the
    last two, of the inputs and of the targets alike. *)
Lemma cell_datasets_ok k c1 c2 (w v : list num) :
  globals k !! "TensorDataset" = Some c1 →
  globals k !! "torch" = Some c2 →
  globals k !! "times_rs"
    = Some (VArray {| np.shape := [24; 135]; np.data := w |}) →
  globals k !! "ss_number_rs"
    = Some (VArray {| np.shape := [24; 135]; np.data := v |}) →
  length w = 24 * 135 → length v = 24 * 135 →
  ∃ k', Tutorial.cell_datasets k = (k', Ok ()) ∧
    globals k'
    = <["val_dataset" :=
          VDataset {| np.shape := [2; 135]; np.data := drop (22 * 135) w |}
                   {| np.shape := [2; 135]; np.data := drop (22 * 135) v |}]>
        (<["train_dataset" :=
             VDataset {| np.shape := [22; 135]; np.data := take (22 * 135) w |}
                      {| np.shape := [22; 135]; np.data := take (22 * 135) v |}]>
           (globals k)) ∧
    heap k' = heap k ∧ stdout k' = stdout k ∧ grad_enabled k' = grad_enabled k.
Proof.
  intros H1 H2 Hw Hv Lw Lv. eexists. split.
  - unfold Tutorial.cell_datasets. run.
  - done.
Qed.

Lemma cell_loaders_ok k c X y X' y' :
  globals k !! "DataLoader" = Some c →
  globals k !! "train_dataset" = Some (VDataset X y) →
  globals k !! "val_dataset" = Some (VDataset X' y') →
  ∃ k', Tutorial.cell_loaders k = (k', Ok ()) ∧
    globals k' = <["val_loader" := VLoader X' y' 64]>
                   (<["train_loader" := VLoader X y 64]> (globals k)) ∧
    heap k' = heap k ∧ stdout k' = stdout k ∧ grad_enabled k' = grad_enabled k.
Proof.
  intros H1 H2 H3. eexists. split.
  - unfold Tutorial.cell_loaders. run.
  - done.
Qed.

End Windows.

(** ** Setting up and training the network *)

Section Training.
Context `{Numerics} `{!Learners}.
Implicit Types (k : Kernel) (net : FCN.t).

Lemma lookup_store_eq {A} (h : list A) id o o' :
  h !! id = Some o → <[id := o']> h !! id = Some o'.
Proof. intros Hid. apply list_lookup_insert_eq. by eapply lookup_lt_Some. Qed.

Lemma lookup_store_ne {A} (h : list A) id id' o o' :
  id ≠ id' → h !! id' = Some o → <[id := o']> h !! id' = Some o.
Proof. intros Hne Hid. by rewrite list_lookup_insert_ne. Qed.

(** *** The network stays well formed *)

Lemma layer_ok_map i o f g l :
  (∀ p, np.shape (nn.value (f p)) = np.shape (nn.value p) ∧
        length (np.data (nn.value (f p))) = length (np.data (nn.value p))) →
  (∀ p, np.shape (nn.value (g p)) = np.shape (nn.value p) ∧
        length (np.data (nn.value (g p))) = length (np.data (nn.value p))) →
  layer_ok i o l → layer_ok i o (nn.map_linear f g l).
Proof.
  intros Hf Hg (Hi & Ho & Sw & Lw & Sb & Lb). unfold layer_ok. simpl.
  destruct (Hf (nn.weight l)) as [-> ->]. destruct (Hg (nn.bias l)) as [-> ->].
  done.
Qed.

Lemma network_ok_map f net :
  (∀ i p, np.shape (nn.value (f i p)) = np.shape (nn.value p) ∧
          length (np.data (nn.value (f i p))) = length (np.data (nn.value p))) →
  network_ok net → network_ok (FCN.map_parameters f net).
Proof.
  intros Hf (H1 & H2 & H3). unfold network_ok. simpl.
  split_and!; by apply layer_ok_map.
Qed.

Lemma network_ok_set_training b net :
  network_ok net → network_ok (FCN.set_training b net).
Proof. done. Qed.

Lemma network_ok_zero net :
  network_ok net → network_ok (FCN.map_parameters (λ _, torch.zero_param) net).
Proof. by apply network_ok_map. Qed.

Lemma network_ok_accumulate m x t net :
  network_ok net → network_ok (FCN.map_parameters (torch.accumulate m x t) net).
Proof. by apply network_ok_map. Qed.

Lemma network_ok_adam lr (st : gmap nat Slot) net :
  network_ok net →
  network_ok (FCN.map_parameters (λ i p, (torch.adam_param lr (st !! i) p).1) net).
Proof.
  apply network_ok_map. intros i p. unfold torch.adam_param.
  destruct (nn.grad p); [|done]. simpl.
  by rewrite length_fmap, length_imap.
Qed.

(** *** The forward pass on a batch *)

Lemma forward_batch net (x : np.ndarray) b :
  network_ok net → np.shape x = [b; 135] →
  FCN.forward net nn.float32 x = Ok (forward_value net x).
Proof.
  intros Hnet Hx. destruct (forward_shape net x [b] Hnet Hx) as (y & Hy & _).
  unfold forward_value. by rewrite Hy.
Qed.

Lemma forward_value_shape net (x : np.ndarray) b :
  network_ok net → np.shape x = [b; 135] →
  np.shape (forward_value net x) = [b; 135].
Proof.
  intros Hnet Hx. destruct (forward_shape net x [b] Hnet Hx) as (y & Hy & Sy).
  unfold forward_value. by rewrite Hy.
Qed.

Lemma loss_check net (x t : np.ndarray) b (v : PyVal) (r : Result PyVal) :
  network_ok net → np.shape x = [b; 135] → np.shape t = [b; 135] →
  (if bool_decide (np.shape (forward_value net x) = np.shape t)
   then Ok v else r) = Ok v.
Proof.
  intros Hnet Hx Ht.
  by rewrite bool_decide_true by (by rewrite (forward_value_shape _ _ b), Ht).
Qed.

(** *** The state of the optimiser *)

Lemma adam_param_keeps lr slot (p : nn.Param) :
  (torch.adam_param lr slot p).2 = None → slot = None.
Proof. unfold torch.adam_param. by destruct (nn.grad p). Qed.

Lemma adam_state_lookup_aux lr (st : gmap nat Slot) ps n i :
  foldr (λ ip st', match (torch.adam_param lr (st !! ip.1) ip.2).2 with
                   | Some s => <[ip.1 := s]> st'
                   | None => st'
                   end) st (imap (λ j p, (n + j, p)) ps) !! i
  = if decide (n ≤ i)
    then match ps !! (i - n) with
         | Some p => (torch.adam_param lr (st !! i) p).2
         | None => st !! i
         end
    else st !! i.
Proof.
  revert n. induction ps as [|p ps IH]; intros n.
  { cbn [imap foldr]. by destruct (decide _). }
  rewrite imap_cons. cbn [foldr fst snd].
  rewrite (imap_ext _ (λ j q, (S n + j, q))).
  2:{ intros j q _. cbn. f_equal. lia. }
  rewrite Nat.add_0_r.
  specialize (IH (S n)).
  destruct (decide (i = n)) as [->|Hne].
  - rewrite decide_True, Nat.sub_diag by done. cbn [lookup list_lookup].
    destruct (torch.adam_param lr (st !! n) p).2 as [s|] eqn:Hs.
    + by rewrite lookup_insert_eq.
    + rewrite IH, decide_False by lia. by apply adam_param_keeps in Hs.
  - transitivity
      (foldr (λ ip st', match (torch.adam_param lr (st !! ip.1) ip.2).2 with
                        | Some s => <[ip.1 := s]> st'
                        | None => st'
                        end) st (imap (λ j q, (S n + j, q)) ps) !! i).
    { destruct (torch.adam_param lr (st !! n) p).2; [|done].
      by rewrite lookup_insert_ne. }
    rewrite IH.
    destruct (decide (n ≤ i)) as [Hle|Hgt].
    + rewrite decide_True by lia.
      replace (i - n) with (S (i - S n)) by lia. done.
    + by rewrite decide_False by lia.
Qed.

Lemma adam_state_lookup lr (st : gmap nat Slot) ps i p :
  ps !! i = Some p →
  torch.adam_state lr st ps !! i = (torch.adam_param lr (st !! i) p).2.
Proof.
  intros Hp. unfold torch.adam_state.
  rewrite (imap_ext _ (λ j q, (0 + j, q))) by done.
  by rewrite adam_state_lookup_aux, decide_True, Nat.sub_0_r, Hp by lia.
Qed.

(** A step on a parameter that has a gradient counts one more step. *)
Lemma adam_param_steps lr slot (p : nn.Param) g :
  nn.grad p = Some g →
  from_option steps 0 (torch.adam_param lr slot p).2
  = S (from_option steps 0 slot).
Proof. intros Hg. unfold torch.adam_param. rewrite Hg. by destruct slot. Qed.

Lemma batches_train (tx ty : list num) :
  torch.batches {| np.shape := [22; 135]; np.data := tx |}
                {| np.shape := [22; 135]; np.data := ty |} 64
  = [({| np.shape := [22; 135]; np.data := take (22 * 135) tx |},
      {| np.shape := [22; 135]; np.data := take (22 * 135) ty |})].
Proof. reflexivity. Qed.

Lemma batches_val (vx vy : list num) :
  torch.batches {| np.shape := [2; 135]; np.data := vx |}
                {| np.shape := [2; 135]; np.data := vy |} 64
  = [({| np.shape := [2; 135]; np.data := take (2 * 135) vx |},
      {| np.shape := [2; 135]; np.data := take (2 * 135) vy |})].
Proof. reflexivity. Qed.

End Training.

Ltac run_hook ::= first [ rewrite batches_train | rewrite batches_val ].

#[export] Hint Resolve lookup_store_eq lookup_store_ne : heap.
#[export] Hint Resolve forward_batch loss_check network_ok_set_training
  network_ok_zero network_ok_accumulate network_ok_adam : lib.
#[export] Hint Extern 1 (np.shape _ = [_; _]) => reflexivity : lib.

Section Epoch.
Context `{Numerics} `{!Learners}.
Implicit Types (k : Kernel) (net : FCN.t).

Lemma epoch_ok k mid oid tx ty vx vy net o j :
  ready k mid oid tx ty vx vy →
  heap k !! mid = Some (OModule net) → network_ok net →
  heap k !! oid = Some (OAdam o) → params o = mid →
  ∃ k' net' o' v,
    Tutorial.epoch j k = (k', Ok ()) ∧
    ready k' mid oid tx ty vx vy ∧
    heap k' = <[oid := OAdam o']> (<[mid := OModule net']> (heap k)) ∧
    network_ok net' ∧ params o' = mid ∧ rate o' = rate o ∧
    (∀ i, i < 6 → steps_of o' i = S (steps_of o i)) ∧
    stdout k' = stdout k ++ [Tutorial.report_line j [v]] ∧
    log k' = log k ++ epoch_log.
Proof.
  intros [[? Htorch] [? Hnp] Hfcn Hopt Hloss Hep Htrain Hval Hgrad] Hmid Hnet Hoid Hpar.
  assert (mid ≠ oid) as Hne by (intros ->; congruence).
  assert (oid ≠ mid) as Hne' by done.
  destruct o as [pm lr st]. simpl in Hpar. subst pm.
  eexists _, _, _, _. split.
  { unfold Tutorial.epoch. run. }
  split_and!.
  - split; kernel_simpl; try done; try (eexists; solve_lookup); solve_lookup.
  - kernel_simpl. rewrite !list_insert_insert_eq.
    rewrite (list_insert_insert_ne _ mid oid) by done.
    rewrite !list_insert_insert_eq. reflexivity.
  - eauto 12 with lib nocore.
  - done.
  - done.
  - intros i Hi. unfold steps_of. cbn [state].
    do 6 (destruct i as [|i];
          [erewrite adam_state_lookup by reflexivity;
           by erewrite adam_param_steps by reflexivity|]).
    lia.
  - kernel_simpl. cbn [concat fmap list_fmap app fst snd np.data]. reflexivity.
  - kernel_simpl. by rewrite <- !app_assoc.
Qed.

Lemma epochs_ok mid oid tx ty vx vy n :
  ∀ s k net o,
    ready k mid oid tx ty vx vy →
    heap k !! mid = Some (OModule net) → network_ok net →
    heap k !! oid = Some (OAdam o) → params o = mid →
    ∃ k' net' o' lines,
      for_ (Z.of_nat <$> seq s n) Tutorial.epoch k = (k', Ok ()) ∧
      ready k' mid oid tx ty vx vy ∧
      heap k' = <[oid := OAdam o']> (<[mid := OModule net']> (heap k)) ∧
      network_ok net' ∧ params o' = mid ∧ rate o' = rate o ∧
      (∀ i, i < 6 → steps_of o' i = n + steps_of o i) ∧
      stdout k' = stdout k ++ lines ∧ length lines = n ∧
      (∀ i, i < n →
         ∃ v, lines !! i = Some (Tutorial.report_line (Z.of_nat (s + i)) [v])) ∧
      log k' = log k ++ concat (replicate n epoch_log).
Proof.
  induction n as [|n IH]; intros s k net o Hready Hmid Hnet Hoid Hpar.
  - exists k, net, o, []. split_and!; try done.
    + by rewrite (list_insert_id _ _ _ Hmid), (list_insert_id _ _ _ Hoid).
    + by rewrite app_nil_r.
    + lia.
    + by rewrite app_nil_r.
  - assert (mid ≠ oid) as Hne by (intros ->; congruence).
    destruct (epoch_ok k mid oid tx ty vx vy net o (Z.of_nat s)
                Hready Hmid Hnet Hoid Hpar)
      as (k1 & net1 & o1 & v & E1 & R1 & Hp1 & N1 & P1 & Q1 & S1 & O1 & L1).
    assert (heap k1 !! mid = Some (OModule net1)) as Hmid1.
    { rewrite Hp1. eauto using lookup_store_eq, lookup_store_ne. }
    assert (heap k1 !! oid = Some (OAdam o1)) as Hoid1.
    { rewrite Hp1. eapply lookup_store_eq, lookup_store_ne; [|done]. done. }
    destruct (IH (S s) k1 net1 o1 R1 Hmid1 N1 Hoid1 P1)
      as (k2 & net2 & o2 & lines & E2 & R2 & Hp2 & N2 & P2 & Q2 & S2 & O2 & Ll & Lv & L2).
    exists k2, net2, o2, (Tutorial.report_line (Z.of_nat s) [v] :: lines).
    split_and!; try done.
    + cbn [seq fmap list_fmap for_]. eapply run_bind; [exact E1|exact E2].
    + rewrite Hp2, Hp1.
      rewrite (list_insert_insert_ne _ mid oid) by done.
      by rewrite !list_insert_insert_eq.
    + congruence.
    + intros i Hi. rewrite S2, S1 by done. lia.
    + by rewrite O2, O1, <- app_assoc.
    + simpl. by rewrite Ll.
    + intros [|i] Hi; simpl.
      * exists v. by rewrite Nat.add_0_r.
      * destruct (Lv i ltac:(lia)) as [v' Hv']. exists v'.
        rewrite Hv'. do 3 f_equal. lia.
    + rewrite L2, L1. cbn [replicate concat]. by rewrite <- !app_assoc.
Qed.

Lemma layer_ok_init i o r1 r2 :
  layer_ok i o
    {| nn.in_features := i; nn.out_features := o;
       nn.weight :=
         {| nn.value := {| np.shape := [o; i];
                           np.data := uniform_init i <$> seq r1 (np.size_of [o; i]) |};
            nn.grad := None |};
       nn.bias :=
         {| nn.value := {| np.shape := [o];
                           np.data := uniform_init i <$> seq r2 (np.size_of [o]) |};
            nn.grad := None |} |}.
Proof.
  unfold layer_ok. cbn [nn.in_features nn.out_features nn.weight nn.bias nn.value
                        np.shape np.data].
  rewrite !length_fmap, !length_seq. unfold np.size_of. cbn [foldr].
  by rewrite !Nat.mul_1_r.
Qed.

(** The cell that sets training up creates one network and one
    optimiser, which refers to the parameters of that network. *)
Lemma cell_setup_ok k c1 c2 c3 :
  globals k !! "FCN" = Some (VClass c1) →
  globals k !! "nn" = Some c2 →
  globals k !! "optim" = Some c3 →
  ∃ k' net,
    Tutorial.cell_setup k = (k', Ok ()) ∧ network_ok net ∧
    heap k' = heap k ++ [OModule net;
                         OAdam {| params := length (heap k);
                                  rate := decimal 5 (-3); state := ∅ |}] ∧
    globals k'
    = <["loss" := VLossFn]>
        (<["optimiser" := VRef (S (length (heap k)))]>
           (<["lr" := VFloat (decimal 5 (-3))]>
              (<["n_epochs" := VInt 100]>
                 (<["fcn" := VRef (length (heap k))]> (globals k))))) ∧
    stdout k' = stdout k ∧ grad_enabled k' = grad_enabled k ∧
    log k' = log k ++ setup_log.
Proof.
  intros H1 H2 H3. eexists _, _. split.
  { unfold Tutorial.cell_setup. run. }
  split_and!; cycle 1.
  - kernel_simpl. by rewrite <- app_assoc.
  - kernel_simpl. rewrite length_app, Nat.add_1_r. done.
  - done.
  - done.
  - kernel_simpl. by rewrite <- !app_assoc.
  - split_and!; apply layer_ok_init.
Qed.

End Epoch.

(** ** The faults of the library calls *)

Section Faults.
Context `{Numerics} `{!Learners}.
Implicit Types (k : Kernel).

(** A missing file and an input of the wrong width make the library
    call raise; the cell ends with that exception and binds nothing. *)
Lemma missing_file_raises k v :
  globals k !! "pd" = Some v →
  files k !! Tutorial.csv_path = None →
  ∃ k', Tutorial.cell_read_csv k
        = (k', Raise (FileNotFoundError Tutorial.csv_path)) ∧
        globals k' = globals k.
Proof.
  intros Hpd Hf. unfold Tutorial.cell_read_csv.
  cbv [mbind M_bind get_var gets opening lift call mret M_ret set_var modify
       raise].
  rewrite Hpd. cbv beta iota. kernel_simpl. unfold pd.read_csv. rewrite Hf.
  by eexists.
Qed.

Lemma wrong_width_raises net dt (x : np.ndarray) w :
  network_ok net → last (np.shape x) = Some w → w ≠ 135 →
  FCN.forward net dt x = Raise (RuntimeError "size mismatch").
Proof.
  intros ((Hin & _) & _) Hx Hw. unfold FCN.forward, nn.linear.
  rewrite Hx, Hin. by rewrite (bool_decide_false (w = 135)).
Qed.

End Faults.

(** * The claims *)

Section Claims.
Context `{Numerics} `{!Learners}.
Implicit Types (k : Kernel).

(** C1. The loader of the series, the second cell of the tutorial,
    reads one file, [SN_m_tot_V2.0.csv], in every run, whatever the
    state of the kernel and whatever is on the disk.  The text of the
    file goes to the reader with the separator [;], with no header row
    and with the seven names of the schema; what the reader raises, the
    cell raises, binding nothing.  Otherwise [ss_data] is bound to a
    frame of exactly the seven named columns, in the order of the
    schema, column [j] holding entry [j] of every row the reader made.
    No other cell of the tutorial opens a file, from any state of the
    kernel. *)
Theorem loader_reads_seven_columns k :
  let names := ["Year"; "Month"; "Date in fraction of year"; "Monthly mean";
                "Monthly standard deviation"; "Number of observations";
                "Definitive/provisional marker"] in
  let k' := (Tutorial.cell_read_csv k).1 in
  let r := (Tutorial.cell_read_csv k).2 in
  Tutorial.cells !! 1 = Some Tutorial.cell_read_csv ∧
  match globals k !! "pd" with
  | None =>
      r = Raise (NameError "pd") ∧ globals k' = globals k ∧
      log k' = log k ++ [EvRaise (NameError "pd")]
  | Some _ =>
      log k' = log k ++ EvOpen "SN_m_tot_V2.0.csv" :: EvCall "pd.read_csv"
                 :: match r with
                    | Ok _ => []
                    | Raise e => [EvRaise e]
                    end ∧
      match files k !! "SN_m_tot_V2.0.csv" with
      | None =>
          r = Raise (FileNotFoundError "SN_m_tot_V2.0.csv") ∧
          globals k' = globals k
      | Some (NpzFile _) => globals k' = globals k
      | Some (TextFile text) =>
          match read_rows ";" None names text with
          | Raise e => r = Raise e ∧ globals k' = globals k
          | Ok rows =>
              ∃ df, r = Ok () ∧
                    globals k' = <["ss_data" := VFrame df]> (globals k) ∧
                    df.*1 = names ∧ length df = 7 ∧
                    ∀ j col, df.*2 !! j = Some col → col = pd.cell j <$> rows
          end
      end
  end ∧
  Forall (λ c : M unit,
            ∀ k0, ∃ evs, log (c k0).1 = log k0 ++ evs ∧
                         filter (λ e, is_open e) evs = [])
    (delete 1 Tutorial.cells).
Proof.
  intros names k' r. subst k' r. split; [done|].
  split; [|exact others_open_nothing].
  destruct (globals k !! "pd") as [v|] eqn:Hpd.
  - destruct (files k !! "SN_m_tot_V2.0.csv") as [[text|arrays]|] eqn:Hf.
    + destruct (read_rows ";" None names text) as [rows|e] eqn:Hrows.
      * rewrite (cell_read_csv_ok k text rows v Hpd Hf Hrows). kernel_simpl.
        split; [by rewrite <- app_assoc|].
        eexists. split_and!; [done..|].
        intros j col Hj.
        do 7 (destruct j as [|j]; [by injection Hj as <-|]). done.
      * rewrite (cell_read_csv_raises k v e Hpd); kernel_simpl.
        -- split; [by rewrite <- !app_assoc|done].
        -- by apply (read_csv_raises _ _ _ _ text).
    + rewrite (cell_read_csv_raises k v
                 (ValueError "cannot decode the file as text") Hpd); kernel_simpl.
      * split; [by rewrite <- !app_assoc|done].
      * unfold pd.read_csv. change Tutorial.csv_path with "SN_m_tot_V2.0.csv".
        by rewrite Hf.
    + rewrite (cell_read_csv_raises k v
                 (FileNotFoundError "SN_m_tot_V2.0.csv") Hpd); kernel_simpl.
      * split; [by rewrite <- !app_assoc|done].
      * unfold pd.read_csv. change Tutorial.csv_path with "SN_m_tot_V2.0.csv".
        by rewrite Hf.
  - unfold Tutorial.cell_read_csv.
    rewrite (run_bind_raise _ _ _ _ _ (run_get_var_unbound "pd" k Hpd)).
    by kernel_simpl.
Qed.

(** C7. Whatever table the loader has read from the file, the time
    array and the value array extracted from it have the length of the
    table, its number of rows, and their entries at an index are the
    third and the fourth entry of the row of the table at that index. *)
Theorem time_and_value_aligned k k1 text :
  files k !! "SN_m_tot_V2.0.csv" = Some (TextFile text) →
  Tutorial.cell_read_csv k = (k1, Ok ()) →
  ∃ rows k2 ts vs,
    read_rows ";" None Tutorial.csv_names text = Ok rows ∧
    globals k1 !! "ss_data"
      = Some (VFrame (pd.frame Tutorial.csv_names rows)) ∧
    Tutorial.cell_extract k1 = (k2, Ok ()) ∧
    globals k2 !! "time" = Some (VArray (np.array ts)) ∧
    globals k2 !! "ss_number" = Some (VArray (np.array vs)) ∧
    length ts = length vs ∧
    length ts = length rows ∧
    ∀ i row, rows !! i = Some row →
             ts !! i = Some (pd.cell 2 row) ∧ vs !! i = Some (pd.cell 3 row).
Proof.
  intros Hf (rows & Hrows & _ & ->)%(cell_read_csv_inv _ _ text); [|done].
  edestruct (cell_extract_ok
               (set_globals
                  (insert "ss_data" (VFrame (pd.frame Tutorial.csv_names rows)))
                  (set_log (λ l, l ++ [EvCall "pd.read_csv"])
                     (set_log (λ l, l ++ [EvOpen Tutorial.csv_path]) k)))
               rows)
    as (k2 & E & G & _).
  { solve_lookup. }
  exists rows, k2, (pd.cell 2 <$> rows), (pd.cell 3 <$> rows).
  split_and!; try done.
  - solve_lookup.
  - rewrite G. solve_lookup.
  - rewrite G. solve_lookup.
  - by rewrite !length_fmap.
  - by rewrite length_fmap.
  - intros i row Hr. by rewrite !list_lookup_fmap, Hr.
Qed.

Lemma relu_array (v : list num) :
  nn.relu (np.array v) = np.array (fmax (of_Z 0) <$> v).
Proof. unfold nn.relu, np.map_array, np.array. simpl. by rewrite length_fmap. Qed.

(** C2. The forward pass of the network is three linear layers, 135 to
    1000, 1000 to 1000 and 1000 to 135, with the maximum with zero taken
    after the first and after the second and nothing after the third.
    On every single-precision vector of length 135 it returns, and what
    it returns is that composition, a vector of length 135.  On a
    double-precision vector, which is what [torch.from_numpy] gives and
    why the notebook calls [.float()] first, the first layer raises. *)
Theorem forward_three_layers (net : FCN.t) (x : list num) :
  network_ok net → length x = 135 →
  let h1 := fmax (of_Z 0) <$> nn.affine (FCN.fc1 net) x in
  let h2 := fmax (of_Z 0) <$> nn.affine (FCN.fc1b net) h1 in
  let y := nn.affine (FCN.fc2 net) h2 in
  FCN.forward net nn.float32 (np.array x) = Ok (np.array y) ∧
  length h1 = 1000 ∧ length h2 = 1000 ∧ length y = 135 ∧
  FCN.forward net nn.float64 (np.array x)
  = Raise (RuntimeError "expected scalar type Float but found Double").
Proof.
  intros (H1 & H2 & H3) Hx h1 h2 y.
  assert (length h1 = 1000) as L1.
  { unfold h1. by rewrite length_fmap, (length_affine 135 1000). }
  assert (length h2 = 1000) as L2.
  { unfold h2. by rewrite length_fmap, (length_affine 1000 1000). }
  split_and!; [|done|done|by apply (length_affine 1000 135)|].
  - unfold FCN.forward.
    rewrite (linear_vector 135 1000) by done. simpl. rewrite relu_array. fold h1.
    rewrite (linear_vector 1000 1000) by done. simpl. rewrite relu_array. fold h2.
    by rewrite (linear_vector 1000 135) by done.
  - destruct H1 as (Hin & _). unfold FCN.forward, nn.linear, np.array.
    cbn [np.shape last]. by rewrite Hin, Hx.
Qed.

(** C5. The archive holds two named arrays, and the loader of the
    clustering notebook opens that one file and binds [data] to the
    array saved under the name ["data"]. *)
Theorem loader_reads_matrix_by_name k arrays a v :
  globals k !! "np" = Some v →
  files k !! "data.npz" = Some (NpzFile arrays) →
  packed_array_file arrays a →
  size arrays = 2 ∧ arrays !! "data" = Some a ∧
  ∃ k', Exercises.cell_load k = (k', Ok ()) ∧
        globals k' = <["data" := VArray a]> (globals k) ∧
        log k' = log k ++ [EvOpen "data.npz"; EvCall "np.load"].
Proof.
  intros Hnp Hf [Htwo Ha Hs]. split_and!; [done..|].
  destruct (cell_load_ok k arrays a v Hnp Hf Ha) as (k' & E & G & L & _).
  by exists k'.
Qed.

(** C6. The sample matrix has shape 400 by 10.  Running the notebook
    binds [data] to it and opens the archive once; and from any kernel,
    whichever of the later cells are run, in whatever order and however
    often, [data] stays bound to what it was bound to. *)
Theorem sample_matrix_fixed (fs : gmap string File) arrays a :
  fs !! "data.npz" = Some (NpzFile arrays) →
  packed_array_file arrays a →
  np.shape a = [400; 10] ∧
  globals (run_each Exercises.cells (fresh fs)) !! "data" = Some (VArray a) ∧
  filter (λ e, is_open e) (log (run_each Exercises.cells (fresh fs)))
    = [EvOpen "data.npz"] ∧
  ∀ cs k, Forall (λ c, c ∈ Exercises.later_cells) cs →
          globals (run_each cs k) !! "data" = globals k !! "data".
Proof.
  intros Hf [Htwo Ha Hs]. split; [done|].
  assert (∀ cs k, Forall (λ c, c ∈ Exercises.later_cells) cs →
                  bound_alike "data" k (run_each cs k) None) as Hlater.
  { intros cs k Hcs. apply run_each_obeys; [apply _|done|].
    eapply Forall_impl; [exact Hcs|]. intros c Hc. simpl in Hc.
    by eapply Forall_forall in Hc; [|apply later_cells_keep_data]. }
  change Exercises.cells with
    ([Exercises.cell_magic; Exercises.cell_imports; Exercises.cell_load]
       ++ Exercises.later_cells).
  set (k0 := (Exercises.cell_imports (Exercises.cell_magic (fresh fs)).1).1).
  destruct (cell_load_ok k0 arrays a (VModule "numpy")) as (k1 & E & G & L & _);
    [done..|].
  assert (run_each ([Exercises.cell_magic; Exercises.cell_imports;
                     Exercises.cell_load] ++ Exercises.later_cells) (fresh fs)
          = run_each Exercises.later_cells k1) as ->.
  { cbn [run_each app]. fold k0. by rewrite E. }
  pose proof (Hlater Exercises.later_cells k1) as Hg.
  destruct (run_each_obeys (silent is_open) Exercises.later_cells k1)
    as (evs & Hl & Hno); [by intros ? ? ? ?|apply later_cells_open_nothing|].
  split_and!.
  - rewrite Hg by (apply Forall_forall; auto). rewrite G.
    apply lookup_insert_eq.
  - rewrite Hl, L, !filter_app, Hno. reflexivity.
  - intros cs k Hcs. apply (Hlater cs k Hcs).
Qed.

(** C8. In every cell of the two notebooks but one, from every state
    of the kernel: a cell that completes has raised nothing, and a cell
    in which an exception is raised ends there, with that exception as
    its outcome.  The one cell is the ninth of the tutorial, which fits
    the first regressor under [%%time]: its statement ends at the
    exception it raises, as everywhere, but the time magic catches that
    exception and shows the traceback, and the cell completes, from
    every state of the kernel. *)
Theorem exceptions_propagate :
  Forall (λ c : M unit,
            ∀ k, ∃ evs,
              log (c k).1 = log k ++ evs ∧
              match (c k).2 with
              | Ok _ => ∀ e, EvRaise e ∉ evs
              | Raise e => ∃ pre, evs = pre ++ [EvRaise e] ∧
                                  ∀ e', EvRaise e' ∉ pre
              end)
    (delete 8 Tutorial.cells ++ Exercises.cells) ∧
  Tutorial.cells !! 8 = Some (time_magic (Tutorial.fit_estimator "svr")) ∧
  ∀ k,
    let r := Tutorial.fit_estimator "svr"
               (set_log (λ l, l ++ [EvCall "%%time"]) k) in
    (time_magic (Tutorial.fit_estimator "svr") k).2 = Ok () ∧
    ∃ evs,
      log r.1 = log k ++ EvCall "%%time" :: evs ∧
      match r.2 with
      | Ok _ =>
          (∀ e, EvRaise e ∉ evs) ∧
          log (time_magic (Tutorial.fit_estimator "svr") k).1 = log r.1
      | Raise e =>
          (∃ pre, evs = pre ++ [EvRaise e] ∧ ∀ e', EvRaise e' ∉ pre) ∧
          log (time_magic (Tutorial.fit_estimator "svr") k).1
          = log r.1 ++ [EvCall "showtraceback"]
      end.
Proof.
  split_and!.
  - apply Forall_app. split.
    + eapply Forall_impl; [apply tutorial_cells_propagate|].
      intros c Hc k. destruct (Hc k) as (evs & Hl & Ho). exists evs.
      split; [done|]. by destruct (c k).2.
    + eapply Forall_impl; [apply exercises_cells_propagate|].
      intros c Hc k. destruct (Hc k) as (evs & Hl & Ho). exists evs.
      split; [done|]. by destruct (c k).2.
  - done.
  - intros k r.
    destruct (time_magic_run (Tutorial.fit_estimator "svr") k)
      as (Hok & _ & _ & _ & _ & Hl & _).
    fold r in Hl. split; [done|].
    assert (obeys raised_last (Tutorial.fit_estimator "svr")) as Hb.
    { obey quiet_side. }
    destruct (Hb (set_log (λ l, l ++ [EvCall "%%time"]) k)) as (evs & Hlog & Ho).
    fold r in Hlog, Ho. exists evs. split.
    { rewrite Hlog. kernel_simpl. by rewrite <- app_assoc. }
    destruct r.2 as [[]|e]; simpl in *.
    + split; [done|]. by rewrite Hl, app_nil_r.
    + by split.
Qed.

(** C10. From every state of the kernel, the validation pass of an
    epoch leaves the parameters of every network and the state of every
    optimiser as they were; it records nothing for autograd, makes no
    backward pass and no optimiser step; and it leaves gradient
    recording switched as it found it. *)
Theorem validation_keeps_weights k :
  let k' := (Tutorial.validation_pass k).1 in
  weights k' = weights k ∧ optimisers k' = optimisers k ∧
  grad_enabled k' = grad_enabled k ∧
  ∃ evs, log k' = log k ++ evs ∧
         (EvCall "autograd.record" ∉ evs) ∧ (EvCall "Tensor.backward" ∉ evs) ∧
         (EvCall "Optimizer.step" ∉ evs).
Proof.
  destruct (validation_pass_untrained k) as (Hw & Ho & Hg & evs & Hl & Hn).
  split_and!; [done..|]. exists evs.
  split_and!; [done|..]; apply Hn; unfold training_calls;
    repeat first [apply list_elem_of_here | apply list_elem_of_further].
Qed.

(** C3. One column is standardised, the time column.  When the times
    and the points of the grid are numbers the scaler accepts (finite,
    or missing: it raises on an infinity), the scaler is fitted once, on
    that column; the transformed column holds
    [(x - mean(time)) / std(time)] for every time [x]; the inference
    grid goes through the same fitted transform; and the target column
    is left as it was read, which is also what the regressor is fitted
    on.  From any state of the kernel, no cell of the tutorial but the
    one that extracts the columns binds [ss_number], and no cell but
    these three fits or applies a scaler. *)
Theorem time_standardised_target_untouched k ts vs c1 c2 c3 c4 c5 c6 :
  globals k !! "StandardScaler" = Some c1 →
  globals k !! "SVR" = Some c2 →
  globals k !! "ConstantKernel" = Some c3 →
  globals k !! "ExpSineSquared" = Some c4 →
  globals k !! "RBF" = Some c5 →
  globals k !! "np" = Some c6 →
  globals k !! "time" = Some (VArray (np.array ts)) →
  globals k !! "ss_number" = Some (VArray (np.array vs)) →
  ts ≠ [] →
  forallb StandardScaler.admissible ts = true →
  forallb StandardScaler.admissible
    (np.data (np.linspace (of_Z 1600) (of_Z 2200) 1000)) = true →
  let z := λ x, fdiv (fsub x (mean ts)) (std ts) in
  let time_ss := {| np.shape := [length ts; 1]; np.data := z <$> ts |} in
  let k' := run_each [Tutorial.cell_scaler_fit; Tutorial.cell_scaler_transform;
                      Tutorial.cell_svr; Tutorial.cell_svr_fit;
                      Tutorial.cell_inf] k in
  globals k' !! "time_ss" = Some (VArray time_ss) ∧
  globals k' !! "inf_ss"
    = Some (VArray {| np.shape := [1000; 1];
                      np.data := z <$> np.data (np.linspace (of_Z 1600) (of_Z 2200) 1000) |}) ∧
  globals k' !! "ss_number" = Some (VArray (np.array vs)) ∧
  heap k' = heap k ++
    [OScaler (Some {| StandardScaler.mean_ := [mean ts];
                      StandardScaler.scale_ := [std ts] |});
     ORegressor SVR Tutorial.the_kernel
       (fitted_by (fit_regressor SVR Tutorial.the_kernel time_ss (np.array vs)) None)] ∧
  filter (λ e, e = EvCall "StandardScaler.fit") (drop (length (log k)) (log k'))
    = [EvCall "StandardScaler.fit"] ∧
  Forall (λ c : M unit,
            ∀ k0, globals (c k0).1 !! "ss_number" = globals k0 !! "ss_number")
    (delete 4 Tutorial.cells) ∧
  Forall (λ c : M unit,
            ∀ k0, ∃ evs, log (c k0).1 = log k0 ++ evs ∧
                         filter (λ e, is_scaling e) evs = [])
    (delete 5 (delete 6 (delete 9 Tutorial.cells))).
Proof.
  intros H1 H2 H3 H4 H5 H6 Ht Hv Hne Ha Hg z time_ss k'.
  destruct (scaling_cells k ts vs c1 c2 c3 c4 c5 c6 H1 H2 H3 H4 H5 H6 Ht Hv Hne
              Ha Hg)
    as (A & B & C & D & E).
  split_and!; [done..| |].
  - exact others_keep_target.
  - exact others_scale_nothing.
Qed.

Lemma insert_pair_alloc {A} (h : list A) (x y x' y' : A) :
  <[S (length h) := y']> (<[length h := x']> (h ++ [x; y])) = h ++ [x'; y'].
Proof.
  rewrite (insert_app_r_alt h [x; y] (length h)) by done.
  rewrite insert_app_r_alt by lia.
  by replace (S (length h) - length h) with 1 by lia; rewrite Nat.sub_diag.
Qed.

(** C4. Training terminates.  The cell that sets it up creates one
    network and one Adam optimiser with learning rate 0.005, before the
    loop; the loop then runs the hundred epochs 0 to 99, each printing
    its line and making one optimiser step on every parameter tensor,
    and stops. *)
Theorem training_runs_hundred_epochs k c1 c2 c3 c4 c5 tx ty vx vy :
  globals k !! "FCN" = Some (VClass c1) →
  globals k !! "nn" = Some c2 →
  globals k !! "optim" = Some c3 →
  globals k !! "torch" = Some c4 →
  globals k !! "np" = Some c5 →
  globals k !! "train_loader"
    = Some (VLoader {| np.shape := [22; 135]; np.data := tx |}
                    {| np.shape := [22; 135]; np.data := ty |} 64) →
  globals k !! "val_loader"
    = Some (VLoader {| np.shape := [2; 135]; np.data := vx |}
                    {| np.shape := [2; 135]; np.data := vy |} 64) →
  grad_enabled k = true →
  ∃ k' net o lines,
    run_all [Tutorial.cell_setup; Tutorial.cell_train] k = (k', Ok ()) ∧
    globals k' !! "n_epochs" = Some (VInt 100) ∧
    heap k' = heap k ++ [OModule net; OAdam o] ∧ network_ok net ∧
    params o = length (heap k) ∧ rate o = decimal 5 (-3) ∧
    (∀ i, i < 6 → steps_of o i = 100) ∧
    stdout k' = stdout k ++ lines ∧ length lines = 100 ∧
    (∀ j, j < 100 →
       ∃ v, lines !! j = Some (Tutorial.report_line (Z.of_nat j) [v])) ∧
    log k' = log k ++ setup_log ++ concat (replicate 100 epoch_log).
Proof.
  intros HF Hnn Hoptim Htorch Hnp Htrain Hval Hgrad.
  destruct (cell_setup_ok k c1 c2 c3 HF Hnn Hoptim)
    as (k1 & net0 & E1 & N0 & Hp1 & G1 & O1 & Gr1 & L1).
  set (mid := length (heap k)) in *. set (oid := S mid) in *.
  assert (ready k1 mid oid tx ty vx vy) as R1.
  { split.
    - rewrite G1. eexists. solve_lookup.
    - rewrite G1. eexists. solve_lookup.
    - rewrite G1. solve_lookup.
    - rewrite G1. solve_lookup.
    - rewrite G1. solve_lookup.
    - rewrite G1. solve_lookup.
    - rewrite G1. solve_lookup.
    - rewrite G1. solve_lookup.
    - congruence. }
  assert (heap k1 !! mid = Some (OModule net0)) as Hmid.
  { rewrite Hp1. by apply list_lookup_middle. }
  assert (heap k1 !! oid = Some (OAdam {| params := mid; rate := decimal 5 (-3);
                                          state := ∅ |})) as Hoid.
  { rewrite Hp1. change (heap k ++ [OModule net0; ?x]) with (heap k ++ [OModule net0] ++ [x]).
    rewrite app_assoc. apply list_lookup_middle. rewrite length_app. simpl. lia. }
  destruct (epochs_ok mid oid tx ty vx vy 100 0 k1 net0 _ R1 Hmid N0 Hoid eq_refl)
    as (k2 & net & o & lines & E2 & R2 & Hp2 & N2 & P2 & Q2 & S2 & O2 & Ll & Lv & L2).
  exists k2, net, o, lines. split_and!.
  - cbn [run_all for_]. eapply run_bind; [exact E1|]. cbv beta.
    eapply run_bind; [|apply run_ret].
    unfold Tutorial.cell_train. eapply run_bind.
    + eapply run_bind; [apply run_get_var; rewrite G1; solve_lookup|].
      apply run_ret.
    + exact E2.
  - by destruct R2.
  - rewrite Hp2, Hp1. apply insert_pair_alloc.
  - done.
  - done.
  - by rewrite Q2.
  - intros i Hi. rewrite S2 by done. unfold steps_of. simpl.
    rewrite lookup_empty. simpl. lia.
  - by rewrite O2, O1.
  - done.
  - done.
  - by rewrite L2, L1, <- app_assoc.
Qed.

(** C9. The first eight samples are dropped and the remaining 3240
    become 24 windows of 135 samples, of the standardised times and of
    the targets alike.  The training set is windows 0 to 21 and the
    validation set windows 22 and 23: the two share no window and
    together they are all 24. *)
Theorem split_is_partition k c1 c2 (t v : list num) :
  globals k !! "TensorDataset" = Some c1 →
  globals k !! "torch" = Some c2 →
  globals k !! "time_ss"
    = Some (VArray {| np.shape := [3248; 1]; np.data := t |}) →
  globals k !! "ss_number"
    = Some (VArray {| np.shape := [3248]; np.data := v |}) →
  length t = 3248 → length v = 3248 →
  ∃ k' W V TX Ty VX Vy,
    run_all [Tutorial.cell_times_rs; Tutorial.cell_ss_number_rs;
             Tutorial.cell_datasets] k = (k', Ok ()) ∧
    globals k' !! "times_rs" = Some (VArray W) ∧
    globals k' !! "ss_number_rs" = Some (VArray V) ∧
    globals k' !! "train_dataset" = Some (VDataset TX Ty) ∧
    globals k' !! "val_dataset" = Some (VDataset VX Vy) ∧
    np.shape W = [24; 135] ∧ np.data W = drop 8 t ∧
    np.shape V = [24; 135] ∧ np.data V = drop 8 v ∧
    np.shape TX = [22; 135] ∧ np.shape Ty = [22; 135] ∧
    np.shape VX = [2; 135] ∧ np.shape Vy = [2; 135] ∧
    np.data TX ++ np.data VX = np.data W ∧
    np.data Ty ++ np.data Vy = np.data V ∧
    (∀ i, i < 24 → length (np.block 135 (np.data W) i) = 135) ∧
    (∀ i, i < 22 →
       np.block 135 (np.data TX) i = np.block 135 (np.data W) i ∧
       np.block 135 (np.data Ty) i = np.block 135 (np.data V) i) ∧
    (∀ j, j < 2 →
       np.block 135 (np.data VX) j = np.block 135 (np.data W) (22 + j) ∧
       np.block 135 (np.data Vy) j = np.block 135 (np.data V) (22 + j)).
Proof.
  intros HT Htorch Ht Hv Lt Lv.
  pose proof (windows_ok k "times_rs" "time_ss" [1] t Ht eq_refl Lt) as E1.
  set (k1 := set_globals _ _) in E1.
  assert (globals k1 !! "ss_number"
          = Some (VArray {| np.shape := [3248]; np.data := v |})) as Hv1.
  { subst k1. solve_lookup. }
  pose proof (windows_ok k1 "ss_number_rs" "ss_number" [] v Hv1 eq_refl Lv) as E2.
  set (k2 := set_globals _ _) in E2.
  destruct (cell_datasets_ok k2 c1 c2 (drop 8 t) (drop 8 v)) as (k3 & E3 & G3 & _).
  { subst k2 k1. solve_lookup. }
  { subst k2 k1. solve_lookup. }
  { subst k2 k1. solve_lookup. }
  { subst k2 k1. solve_lookup. }
  { rewrite length_drop, Lt. reflexivity. }
  { rewrite length_drop, Lv. reflexivity. }
  eexists k3, _, _, _, _, _, _. split_and!.
  - cbn [run_all for_]. eapply run_bind; [exact E1|]. cbv beta.
    eapply run_bind; [exact E2|]. cbv beta.
    eapply run_bind; [exact E3|]. apply run_ret.
  - rewrite G3. subst k2 k1. solve_lookup.
  - rewrite G3. subst k2 k1. solve_lookup.
  - rewrite G3. solve_lookup.
  - rewrite G3. solve_lookup.
  - done.
  - done.
  - done.
  - done.
  - done.
  - done.
  - done.
  - done.
  - apply take_drop.
  - apply take_drop.
  - intros i Hi. unfold np.block. cbn [np.data].
    rewrite length_take, !length_drop, Lt. lia.
  - intros i Hi. cbn [np.data]. split; apply block_take; lia.
  - intros j Hj. cbn [np.data]. split; apply block_drop.
Qed.

End Claims.

(** * Further properties of the notebooks *)

(** ** Rows of a batch *)

Section Rows.
Context `{Numerics}.

Lemma chunks_cons {A} w (l r : list A) :
  w ≠ 0 → length l = w → np.chunks w (l ++ r) = l :: np.chunks w r.
Proof.
  intros Hw Hl. unfold np.chunks.
  rewrite length_app, Hl.
  replace ((w + length r) `div` w) with (S (length r `div` w)).
  2:{ replace (w + length r) with (1 * w + length r) by lia.
      rewrite Nat.div_add_l by done. lia. }
  cbn [seq fmap list_fmap]. f_equal.
  - unfold np.block. change (0 * w) with 0. rewrite drop_0.
    by apply take_app_length'.
  - rewrite <- fmap_S_seq, <- list_fmap_compose. apply list_fmap_ext.
    intros i j _. unfold np.block. cbn [compose].
    replace (S j * w) with (length l + j * w) by lia.
    by rewrite <- drop_drop, drop_app_length.
Qed.

Lemma chunks_concat {A} w (L : list (list A)) :
  w ≠ 0 → Forall (λ l, length l = w) L → np.chunks w (concat L) = L.
Proof.
  intros Hw HL. induction HL as [|l L Hl _ IH]; simpl.
  - unfold np.chunks. simpl. by rewrite Nat.Div0.div_0_l.
  - by rewrite chunks_cons, IH.
Qed.

Lemma fmap_concat {A B} (f : A → B) (L : list (list A)) :
  f <$> concat L = concat ((λ l : list A, f <$> l) <$> L).
Proof.
  induction L as [|l L IH]; [done|]. simpl. by rewrite fmap_app, IH.
Qed.

Lemma length_concat_uniform {A} w (L : list (list A)) :
  Forall (λ l, length l = w) L → length (concat L) = length L * w.
Proof.
  intros HL. induction HL as [|l L Hl _ IH]; [done|].
  simpl. rewrite length_app, IH, Hl. lia.
Qed.

(** A layer maps every row of its input by [W x + b]. *)
Lemma linear_rows i o l (x : np.ndarray) pre :
  i ≠ 0 → layer_ok i o l → np.shape x = pre ++ [i] →
  nn.linear l nn.float32 x
  = Ok {| np.shape := pre ++ [o];
          np.data := concat (nn.affine l <$> np.chunks i (np.data x)) |}.
Proof.
  intros Hi Hl Hx. destruct (Hl) as (Hin & Hout & _).
  unfold nn.linear. rewrite Hx, last_snoc, bool_decide_true by done.
  by rewrite removelast_last, Hout.
Qed.

Lemma relu_rows i o l (rows : list (list num)) :
  i ≠ 0 → layer_ok i o l → o ≠ 0 →
  np.chunks o (fmax (of_Z 0) <$> concat (nn.affine l <$> rows))
  = (λ r, fmax (of_Z 0) <$> nn.affine l r) <$> rows.
Proof.
  intros Hi Hl Ho.
  rewrite fmap_concat, <- list_fmap_compose.
  apply chunks_concat; [done|].
  apply Forall_fmap, Forall_forall. intros r _. simpl.
  by rewrite length_fmap, (length_affine i o).
Qed.

Lemma forward_rows net (x : np.ndarray) pre :
  network_ok net → np.shape x = pre ++ [135] →
  FCN.forward net nn.float32 x
  = Ok {| np.shape := pre ++ [135];
          np.data := concat (sample_forward net <$> np.chunks 135 (np.data x)) |}.
Proof.
  intros (H1 & H2 & H3) Hx. unfold FCN.forward.
  rewrite (linear_rows 135 1000 _ _ pre) by done.
  cbn [fmap Result_fmap mbind Result_bind].
  rewrite (linear_rows 1000 1000 _ _ pre) by done.
  cbn [fmap Result_fmap mbind Result_bind].
  rewrite (linear_rows 1000 135 _ _ pre) by done.
  do 2 f_equal. unfold nn.relu, np.map_array. cbn [np.data].
  set (rows := np.chunks 135 (np.data x)).
  rewrite (relu_rows 135 1000 (FCN.fc1 net) rows); [|lia|done|lia].
  rewrite (relu_rows 1000 1000 (FCN.fc1b net)); [|lia|done|lia].
  rewrite <- !list_fmap_compose. done.
Qed.

Lemma length_sample_forward net (x : list num) :
  network_ok net → length (sample_forward net x) = 135.
Proof.
  intros (_ & _ & H3). unfold sample_forward.
  by apply (length_affine 1000 135).
Qed.

Lemma length_forward_rows net (d : list num) n :
  network_ok net → length d = n * 135 →
  length (concat (sample_forward net <$> np.chunks 135 d)) = n * 135.
Proof.
  intros Hnet Hd. rewrite (length_concat_uniform 135).
  - rewrite length_fmap, length_chunks, Hd. by rewrite Nat.div_mul.
  - apply Forall_fmap, Forall_forall. intros r _. simpl.
    by apply length_sample_forward.
Qed.

End Rows.

(** ** Reshaping, slicing and plotting *)

Section Shapes.
Context `{Numerics} `{!Learners}.
Implicit Types (k : Kernel).

Lemma run_fmap_raise {A B} (g : A → B) (m : M A) k k1 e :
  m k = (k1, Raise e) → (g <$> m) k = (k1, Raise e).
Proof. intros Hm. unfold fmap, M_fmap. by rewrite Hm. Qed.

Lemma infer_windows total :
  np.infer_shape total [24; -1]%Z
  = if decide (total `mod` 24 = 0) then Ok [24; total `div` 24]
    else Raise (ValueError "cannot reshape array").
Proof.
  unfold np.infer_shape.
  rewrite bool_decide_false.
  2:{ intros [Hd|Hd]%Exists_cons; [lia|].
      apply Exists_cons in Hd as [Hd|Hd]; [lia|]. by apply Exists_nil in Hd. }
  assert (np.size_of (Z.to_nat <$> filter (λ d, d ≠ (-1)%Z) [24%Z; (-1)%Z]) = 24)
    as -> by reflexivity.
  assert (length (filter (λ d, d = (-1)%Z) [24%Z; (-1)%Z]) = 1) as -> by reflexivity.
  destruct (decide (total `mod` 24 = 0)) as [Hm|Hm].
  - rewrite bool_decide_false by (intros [?|?]; [lia|done]). reflexivity.
  - rewrite bool_decide_true by (by right). reflexivity.
Qed.

Lemma reshape_flat (y : np.ndarray) :
  length (np.data y) = 3240 →
  np.reshape y [3240]%Z = Ok {| np.shape := [3240]; np.data := np.data y |}.
Proof.
  intros Hy. unfold np.reshape, np.infer_shape.
  rewrite bool_decide_false.
  2:{ intros [Hd|Hd]%Exists_cons; [lia|]. by apply Exists_nil in Hd. }
  assert (np.size_of (Z.to_nat <$> filter (λ d, d ≠ (-1)%Z) [3240%Z]) = 3240)
    as -> by reflexivity.
  assert (length (filter (λ d, d = (-1)%Z) [3240%Z]) = 0) as -> by reflexivity.
  rewrite bool_decide_true by done. reflexivity.
Qed.

Lemma reshape_flat_other (y : np.ndarray) :
  length (np.data y) ≠ 3240 →
  np.reshape y [3240]%Z = Raise (ValueError "cannot reshape array").
Proof.
  intros Hy. unfold np.reshape, np.infer_shape.
  rewrite bool_decide_false.
  2:{ intros [Hd|Hd]%Exists_cons; [lia|]. by apply Exists_nil in Hd. }
  assert (np.size_of (Z.to_nat <$> filter (λ d, d ≠ (-1)%Z) [3240%Z]) = 3240)
    as -> by reflexivity.
  assert (length (filter (λ d, d = (-1)%Z) [3240%Z]) = 0) as -> by reflexivity.
  rewrite bool_decide_false by done. reflexivity.
Qed.

(** [a[8:]] of a one-dimensional array *)
Lemma tail_of_series (ts : list num) :
  ∃ d, np.getslice (np.array ts) (Some 8%Z) None
       = Ok {| np.shape := [length ts - 8]; np.data := d |}.
Proof.
  eexists. unfold np.getslice, np.between, np.array. cbn [np.shape np.data].
  assert (np.bound (length ts) 0 (Some 8%Z) = 8 `min` length ts) as ->.
  { unfold np.bound. rewrite bool_decide_false by lia. lia. }
  change (np.bound (length ts) (length ts) None) with (length ts).
  do 3 f_equal. lia.
Qed.

Lemma plot_accepts (sx sy : list nat) e :
  head sx = head sy →
  (if bool_decide (head sx = head sy) then Ok () else Raise e) = Ok ().
Proof. intros Hh. by rewrite bool_decide_true. Qed.

Lemma plot_rejects (sx sy : list nat) e :
  head sx ≠ head sy →
  (if bool_decide (head sx = head sy) then Ok () else Raise e) = Raise e.
Proof. intros Hh. by rewrite bool_decide_false. Qed.

(** a sequential loader over at most 64 samples yields them all at once *)
Lemma batches_whole (X y : np.ndarray) n sx sy :
  np.shape X = n :: sx → np.shape y = n :: sy → 0 < n ≤ 64 →
  length (np.data X) = n * np.size_of sx →
  length (np.data y) = n * np.size_of sy →
  torch.batches X y 64 = [(X, y)].
Proof.
  intros HX Hy Hn LX Ly. unfold torch.batches. rewrite HX, Hy.
  replace ((n + 64 - 1) `div` 64) with 1.
  2:{ apply (Nat.div_unique _ 64 1 (n - 1)); lia. }
  cbn [seq fmap list_fmap tail].
  replace (n `min` (1 * 64)) with n by lia.
  unfold np.between. change (0 * 64) with 0.
  rewrite !Nat.sub_0_r. change (0 * ?s) with 0. rewrite !drop_0.
  rewrite <- LX, <- Ly, !firstn_all.
  destruct X, y; simpl in *; by subst.
Qed.

Lemma batches_22 w (tx ty : list num) :
  torch.batches {| np.shape := [22; w]; np.data := tx |}
                {| np.shape := [22; w]; np.data := ty |} 64
  = [({| np.shape := [22; w]; np.data := take (22 * np.size_of [w]) tx |},
      {| np.shape := [22; w]; np.data := take (22 * np.size_of [w]) ty |})].
Proof. reflexivity. Qed.

End Shapes.

#[export] Hint Resolve plot_accepts plot_rejects : lib.
#[export] Hint Extern 1 (head _ = head _) => (cbn; congruence) : lib.

(** ** Cells of the tutorial, run on their own *)

Section MoreCells.
Context `{Numerics} `{!Learners}.
Implicit Types (k : Kernel).

Lemma exercises_never_bind_pca :
  Forall (obeys (bound_alike "pca")) Exercises.cells.
Proof.
  unfold Exercises.cells.
  repeat apply Forall_cons_2; [..|done]; obey bound_side.
Qed.

Lemma exercises_keep x :
  x ≠ "data" → x ≠ "PCA" →
  Forall (obeys (bound_alike x)) (take 3 (drop 2 Exercises.cells)).
Proof.
  intros H1 H2. unfold Exercises.cells. cbn [take drop].
  repeat apply Forall_cons_2; [..|done];
    obey ltac:(unfold logs_ok, raises_ok; intros;
               first [ apply bound_alike_set_var; congruence
                     | reflexivity | assumption ]).
Qed.

(** an estimator created and fitted on the arrays bound to [time_ss]
    and [ss_number] *)
Lemma estimator_cells k x cls a c1 c2 c3 c4 (X y : np.ndarray) :
  globals k !! cls = Some c1 →
  globals k !! "ConstantKernel" = Some c2 →
  globals k !! "ExpSineSquared" = Some c3 →
  globals k !! "RBF" = Some c4 →
  globals k !! "time_ss" = Some (VArray X) →
  globals k !! "ss_number" = Some (VArray y) →
  x ≠ "time_ss" → x ≠ "ss_number" →
  let k' := (Tutorial.fit_estimator x (Tutorial.make_estimator x cls a k).1).1 in
  globals k' = <[x := VRef (length (heap k))]> (globals k) ∧
  heap k' = heap k ++ [ORegressor a Tutorial.the_kernel
                         (fitted_by (fit_regressor a Tutorial.the_kernel X y) None)].
Proof.
  intros H1 H2 H3 H4 HX Hy Hx1 Hx2 k'. subst k'.
  rewrite (make_estimator_ok k x cls a c1 c2 c3 c4) by done. cbn [fst].
  set (k1 := set_globals _ _).
  destruct (fit_estimator_run k1 x (length (heap k)) a Tutorial.the_kernel None X y)
    as (G & Hp & _).
  { subst k1. solve_lookup. }
  { subst k1. kernel_simpl. by rewrite lookup_insert_ne. }
  { subst k1. kernel_simpl. by rewrite lookup_insert_ne. }
  { subst k1. kernel_simpl. by apply list_lookup_middle. }
  split; [by rewrite G|]. rewrite Hp. subst k1. kernel_simpl. apply insert_snoc.
Qed.

(** the prediction of the network for the 24 windows *)
Lemma cell_predict_nn_ok k mid net c1 (ws : list num) :
  globals k !! "torch" = Some c1 →
  globals k !! "fcn" = Some (VRef mid) →
  heap k !! mid = Some (OModule net) → network_ok net →
  globals k !! "times_rs"
    = Some (VArray {| np.shape := [24; 135]; np.data := ws |}) →
  Tutorial.cell_predict_nn k
  = (set_globals
       (insert "curve_fit"
          (VArray {| np.shape := [1; 24; 135];
                     np.data := concat (sample_forward net
                                          <$> np.chunks 135 (single <$> ws)) |}))
       (set_log (λ l, l ++ [EvCall "FCN.forward"]) k), Ok ()).
Proof.
  intros Htorch Hfcn Hmid Hnet Hws.
  pose proof (forward_rows net
                (torch.unsqueeze0
                   (np.map_array single {| np.shape := [24; 135]; np.data := ws |}))
                [1; 24] Hnet eq_refl) as Hf.
  unfold Tutorial.cell_predict_nn.
  eapply run_bind; [run|]. cbv beta.
  erewrite run_no_grad; [|run].
  destruct k; reflexivity.
Qed.

(** the training cell, from any kernel that is ready for it *)
Lemma cell_train_ok k mid oid tx ty vx vy net o :
  ready k mid oid tx ty vx vy →
  heap k !! mid = Some (OModule net) → network_ok net →
  heap k !! oid = Some (OAdam o) → params o = mid →
  ∃ k' net' o' lines,
    Tutorial.cell_train k = (k', Ok ()) ∧
    ready k' mid oid tx ty vx vy ∧
    heap k' = <[oid := OAdam o']> (<[mid := OModule net']> (heap k)) ∧
    network_ok net' ∧ params o' = mid ∧ rate o' = rate o ∧
    (∀ i, i < 6 → steps_of o' i = 100 + steps_of o i) ∧
    stdout k' = stdout k ++ lines ∧ length lines = 100 ∧
    (∀ j, j < 100 →
       ∃ v, lines !! j = Some (Tutorial.report_line (Z.of_nat j) [v])) ∧
    log k' = log k ++ concat (replicate 100 epoch_log).
Proof.
  intros Hready Hmid Hnet Hoid Hpar.
  destruct (epochs_ok mid oid tx ty vx vy 100 0 k net o Hready Hmid Hnet Hoid Hpar)
    as (k' & net' & o' & lines & E & R & Hp & N & P & Q & S & O & Ll & Lv & L).
  exists k', net', o', lines. split_and!; try done.
  unfold Tutorial.cell_train.
  eapply run_bind; [eapply run_bind; [apply run_get_var; by destruct Hready|];
                    apply run_ret|].
  exact E.
Qed.

End MoreCells.

(** ** The properties *)

Section Further.
Context `{Numerics} `{!Learners}.
Implicit Types (k : Kernel).

(** X1. Whatever files there are, when the cells of the exercises are
    run in order the bar-chart cell opens a figure, calls [np.arange]
    and raises [NameError] for [pca]; and no cell of the notebook binds
    [pca], from any state of the kernel. *)
Theorem bar_chart_needs_pca (fs : gmap string File) :
  let k := run_each (take 5 Exercises.cells) (fresh fs) in
  Exercises.cells !! 5 = Some Exercises.cell_bar ∧
  (∃ k', Exercises.cell_bar k = (k', Raise (NameError "pca")) ∧
         log k' = log k ++ [EvCall "plt.figure"; EvCall "np.arange";
                            EvRaise (NameError "pca")]) ∧
  Forall (λ c : M unit, ∀ k0, globals (c k0).1 !! "pca" = globals k0 !! "pca")
    Exercises.cells.
Proof.
  intros k. split; [done|]. split; [|exact exercises_never_bind_pca].
  set (k2 := run_each (take 2 Exercises.cells) (fresh fs)).
  assert (k = run_each (take 3 (drop 2 Exercises.cells)) k2) as Hk by done.
  assert (∀ x, x ≠ "data" → x ≠ "PCA" → globals k !! x = globals k2 !! x) as Hkeep.
  { intros x H1 H2. rewrite Hk.
    apply (run_each_obeys (bound_alike x)); [by intros ????|].
    by apply exercises_keep. }
  assert (globals k !! "plt" = Some (VModule "matplotlib.pyplot")) as Hplt.
  { by rewrite Hkeep. }
  assert (globals k !! "np" = Some (VModule "numpy")) as Hnp.
  { by rewrite Hkeep. }
  assert (globals k !! "pca" = None) as Hpca.
  { by rewrite Hkeep. }
  clearbody k. clear Hk Hkeep k2.
  unfold Exercises.cell_bar, Tutorial.plt.
  cbv [mbind M_bind get_var call raise mret M_ret].
  rewrite Hplt. cbv beta iota. kernel_simpl. rewrite Hplt. cbv beta iota.
  kernel_simpl. rewrite Hnp. cbv beta iota. kernel_simpl. rewrite Hpca.
  eexists. split; [reflexivity|]. kernel_simpl. by rewrite <- !app_assoc.
Qed.

(** X2. The loader of the exercises logs the opening of the archive and
    the call of [np.load], and ends as the archive decides: without the
    file it raises [FileNotFoundError], with an archive that has no
    array named ["data"] it raises [KeyError]; in both cases it binds
    nothing.  Otherwise it binds [data] to that array. *)
Theorem loading_needs_the_array k v :
  globals k !! "np" = Some v →
  let k' := (Exercises.cell_load k).1 in
  log k' = log k ++ EvOpen "data.npz" :: EvCall "np.load"
             :: match (Exercises.cell_load k).2 with
                | Ok _ => []
                | Raise e => [EvRaise e]
                end ∧
  match files k !! "data.npz" with
  | None =>
      (Exercises.cell_load k).2 = Raise (FileNotFoundError "data.npz") ∧
      globals k' = globals k
  | Some (NpzFile arrays) =>
      match arrays !! "data" with
      | None =>
          (Exercises.cell_load k).2 = Raise (KeyError "data") ∧
          globals k' = globals k
      | Some a =>
          (Exercises.cell_load k).2 = Ok () ∧
          globals k' = <["data" := VArray a]> (globals k)
      end
  | Some (TextFile _) => globals k' = globals k
  end.
Proof.
  intros Hnp k'. subst k'. unfold Exercises.cell_load.
  cbv [mbind M_bind get_var gets opening lift call mret M_ret set_var modify
       raise].
  rewrite Hnp. cbv beta iota. kernel_simpl. unfold np_load_item.
  change Exercises.npz_path with "data.npz".
  change Exercises.npz_key with "data".
  destruct (files k !! "data.npz") as [[text|arrays]|]; cbv beta iota; kernel_simpl.
  - by rewrite <- !app_assoc.
  - destruct (arrays !! "data"); cbv beta iota; kernel_simpl;
      by rewrite <- !app_assoc.
  - by rewrite <- !app_assoc.
Qed.

(** X3. Without the file of the series, running the tutorial from a
    fresh kernel stops in its second cell with [FileNotFoundError]:
    nothing is bound to [ss_data], no object is created and nothing is
    printed. *)
Theorem run_all_needs_the_series (fs : gmap string File) :
  fs !! "SN_m_tot_V2.0.csv" = None →
  ∃ k', run_all Tutorial.cells (fresh fs)
        = (k', Raise (FileNotFoundError "SN_m_tot_V2.0.csv")) ∧
        log k' = [EvCall "%matplotlib inline"; EvOpen "SN_m_tot_V2.0.csv";
                  EvCall "pd.read_csv";
                  EvRaise (FileNotFoundError "SN_m_tot_V2.0.csv")] ∧
        globals k' !! "ss_data" = None ∧ heap k' = [] ∧ stdout k' = [].
Proof.
  intros Hf.
  assert (pd.read_csv fs Tutorial.csv_path ";" None Tutorial.csv_names
          = Raise (FileNotFoundError "SN_m_tot_V2.0.csv")) as Hr.
  { unfold pd.read_csv. change Tutorial.csv_path with "SN_m_tot_V2.0.csv".
    by rewrite Hf. }
  eexists. split.
  - unfold run_all, Tutorial.cells. cbn [for_]. unfold id.
    eapply run_bind; [unfold Tutorial.cell_imports; run|].
    eapply run_bind_raise.
    unfold Tutorial.cell_read_csv.
    eapply run_bind; [run|]. cbv beta.
    eapply run_bind; [run|]. cbv beta.
    eapply run_bind; [run|]. cbv beta.
    eapply run_bind_raise. kernel_simpl.
    eapply run_lift_raise. exact Hr.
  - kernel_simpl. split_and!; done.
Qed.

(** X4. The two regressors are given the same kernel expression and
    are fitted on the same two arrays, the ones bound to [time_ss] and
    [ss_number], which the four cells leave bound as they were. *)
Theorem regressors_share_kernel_and_data k c1 c2 c3 c4 c5 (X y : np.ndarray) :
  globals k !! "SVR" = Some c1 →
  globals k !! "KernelRidge" = Some c2 →
  globals k !! "ConstantKernel" = Some c3 →
  globals k !! "ExpSineSquared" = Some c4 →
  globals k !! "RBF" = Some c5 →
  globals k !! "time_ss" = Some (VArray X) →
  globals k !! "ss_number" = Some (VArray y) →
  let k' := run_each [Tutorial.cell_svr; Tutorial.cell_svr_fit;
                      Tutorial.cell_krr; Tutorial.cell_krr_fit] k in
  globals k' !! "svr" = Some (VRef (length (heap k))) ∧
  globals k' !! "krr" = Some (VRef (S (length (heap k)))) ∧
  globals k' !! "time_ss" = Some (VArray X) ∧
  globals k' !! "ss_number" = Some (VArray y) ∧
  heap k' = heap k ++
    [ORegressor SVR Tutorial.the_kernel
       (fitted_by (fit_regressor SVR Tutorial.the_kernel X y) None);
     ORegressor KernelRidge Tutorial.the_kernel
       (fitted_by (fit_regressor KernelRidge Tutorial.the_kernel X y) None)].
Proof.
  intros H1 H2 H3 H4 H5 HX Hy k'. subst k'. cbn [run_each].
  unfold Tutorial.cell_svr, Tutorial.cell_krr, Tutorial.cell_krr_fit.
  set (ka := (Tutorial.make_estimator "svr" "SVR" SVR k).1).
  assert (ka = (Tutorial.make_estimator "svr" "SVR" SVR k).1) as Hka by done.
  rewrite (make_estimator_ok k "svr" "SVR" SVR c1 c3 c4 c5) in Hka by done.
  cbn [fst] in Hka.
  destruct (time_magic_run (Tutorial.fit_estimator "svr") ka)
    as (_ & Gm & Hm & _).
  fold Tutorial.cell_svr_fit in Gm, Hm.
  destruct (fit_estimator_run (set_log (λ l, l ++ [EvCall "%%time"]) ka)
              "svr" (length (heap k)) SVR Tutorial.the_kernel None X y)
    as (G1 & Hp1 & _).
  { rewrite Hka. solve_lookup. }
  { rewrite Hka. solve_lookup. }
  { rewrite Hka. solve_lookup. }
  { rewrite Hka. kernel_simpl. by apply list_lookup_middle. }
  rewrite G1 in Gm. rewrite Hp1 in Hm.
  set (k1 := (Tutorial.cell_svr_fit ka).1) in *.
  assert (globals k1 = <["svr" := VRef (length (heap k))]> (globals k)) as G1'.
  { rewrite Gm, Hka. done. }
  assert (heap k1 = heap k ++ [ORegressor SVR Tutorial.the_kernel
            (fitted_by (fit_regressor SVR Tutorial.the_kernel X y) None)]) as Hp1'.
  { rewrite Hm, Hka. kernel_simpl. apply insert_snoc. }
  destruct (estimator_cells k1 "krr" "KernelRidge" KernelRidge c2 c3 c4 c5 X y)
    as (G2 & Hp2); try done; try (rewrite G1'; solve_lookup).
  rewrite G2, Hp2, G1', Hp1'. split_and!; try solve_lookup.
  - rewrite length_app, Nat.add_1_r. solve_lookup.
  - by rewrite <- app_assoc.
Qed.

(** X5. Predicting with an estimator that was created and never fitted
    raises, and binds nothing: the cell that predicts needs the cell
    that fits to have completed. *)
Theorem predicting_needs_a_fit k target x id a ker (X : np.ndarray) :
  globals k !! x = Some (VRef id) →
  heap k !! id = Some (ORegressor a ker None) →
  globals k !! "inf_ss" = Some (VArray X) →
  ∃ k', Tutorial.predict_estimator target x k
        = (k', Raise (ValueError "this estimator is not fitted yet")) ∧
        globals k' = globals k ∧ heap k' = heap k.
Proof.
  intros Hx Hid HX. unfold Tutorial.predict_estimator.
  cbv [mbind M_bind get_var as_array as_ref deref as_regressor mret M_ret lift
       call raise set_var modify sklearn.predict].
  rewrite Hx, HX. cbv beta iota. rewrite Hid. cbv beta iota. kernel_simpl.
  by eexists.
Qed.

(** X6. The forward pass of the network returns exactly on the
    single-precision inputs whose last axis has 135 entries, with an
    output of the shape of the input; on every other input it raises
    [RuntimeError]. *)
Theorem forward_width_decides net dt (x : np.ndarray) :
  network_ok net →
  match FCN.forward net dt x with
  | Ok y =>
      last (np.shape x) = Some 135 ∧ dt = nn.float32 ∧ np.shape y = np.shape x
  | Raise e =>
      (last (np.shape x) ≠ Some 135 ∨ dt ≠ nn.float32) ∧
      ∃ msg, e = RuntimeError msg
  end.
Proof.
  intros Hnet.
  destruct (decide (last (np.shape x) = Some 135)) as [Hl|Hl].
  - destruct dt.
    + pose proof Hl as [pre Hsh]%last_Some.
      destruct (forward_shape net x pre Hnet Hsh) as (y & -> & Hy).
      split_and!; [done..|]. by rewrite Hy, Hsh.
    + destruct Hnet as ((Hin & _) & _). unfold FCN.forward, nn.linear.
      rewrite Hl, Hin. cbn. split; [by right|by eexists].
  - destruct Hnet as ((Hin & _) & _). unfold FCN.forward, nn.linear.
    destruct (last (np.shape x)) as [w|].
    + rewrite Hin, (bool_decide_false (w = 135)) by congruence.
      split; [by left|by eexists].
    + split; [by left|by eexists].
Qed.

(** X8. Windows of a series of any length: [x[8:].reshape(24, -1)]
    completes exactly when the elements left after the first eight rows
    fill 24 rows, and then binds the target to those elements as 24
    rows; otherwise it raises [ValueError] and binds nothing. *)
Theorem windows_need_whole_rows k target x n rest (d : list num) :
  globals k !! x = Some (VArray {| np.shape := n :: rest; np.data := d |}) →
  length d = n * np.size_of rest →
  let total := (n - 8) * np.size_of rest in
  let k' := (Tutorial.windows target x k).1 in
  match (Tutorial.windows target x k).2 with
  | Ok _ =>
      total `mod` 24 = 0 ∧
      globals k' = <[target := VArray {| np.shape := [24; total `div` 24];
                                         np.data := drop (8 * np.size_of rest) d |}]>
                     (globals k)
  | Raise e =>
      total `mod` 24 ≠ 0 ∧ e = ValueError "cannot reshape array" ∧
      globals k' = globals k
  end.
Proof.
  intros Hx Hd total k'. subst k'.
  assert (np.getslice {| np.shape := n :: rest; np.data := d |} (Some 8%Z) None
          = Ok {| np.shape := (n - 8) :: rest;
                  np.data := drop (8 * np.size_of rest) d |}) as Hs.
  { unfold np.getslice, np.between. cbn [np.shape np.data].
    assert (np.bound n 0 (Some 8%Z) = 8 `min` n) as ->.
    { unfold np.bound. rewrite bool_decide_false by lia. lia. }
    change (np.bound n n None) with n.
    destruct (decide (8 ≤ n)) as [H8|H8].
    - replace (8 `min` n) with 8 by lia.
      by rewrite take_ge by (rewrite length_drop, Hd; nia).
    - replace (8 `min` n) with n by lia.
      replace (n - n) with 0 by lia. replace (n - 8) with 0 by lia.
      rewrite Nat.mul_0_l, take_0.
      rewrite (drop_ge d (8 * _)); [done|]. rewrite Hd.
      apply Nat.mul_le_mono_r. lia. }
  assert (length (drop (8 * np.size_of rest) d) = total) as Ht.
  { rewrite length_drop, Hd. unfold total. nia. }
  unfold Tutorial.windows.
  cbv [mbind M_bind get_var as_array mret M_ret lift call raise set_var modify].
  rewrite Hx. cbv beta iota. rewrite Hs. cbv beta iota. kernel_simpl.
  unfold np.reshape. cbn [np.data]. rewrite Ht, infer_windows.
  destruct (decide (total `mod` 24 = 0)); cbv beta iota; kernel_simpl; done.
Qed.

(** X9. The loaders are made with batch size 64 and without shuffling:
    over data sets of at most 64 samples each, a pass over a loader is
    one batch, which holds the whole data set in its order. *)
Theorem loaders_yield_one_batch k c X y X' y' n n' sx sy sx' sy' :
  globals k !! "DataLoader" = Some c →
  globals k !! "train_dataset" = Some (VDataset X y) →
  globals k !! "val_dataset" = Some (VDataset X' y') →
  np.shape X = n :: sx → np.shape y = n :: sy → 0 < n ≤ 64 →
  length (np.data X) = n * np.size_of sx →
  length (np.data y) = n * np.size_of sy →
  np.shape X' = n' :: sx' → np.shape y' = n' :: sy' → 0 < n' ≤ 64 →
  length (np.data X') = n' * np.size_of sx' →
  length (np.data y') = n' * np.size_of sy' →
  ∃ k' bs,
    Tutorial.cell_loaders k = (k', Ok ()) ∧
    globals k' !! "train_loader" = Some (VLoader X y bs) ∧
    globals k' !! "val_loader" = Some (VLoader X' y' bs) ∧
    torch.batches X y bs = [(X, y)] ∧
    torch.batches X' y' bs = [(X', y')].
Proof.
  intros Hc Ht Hv. intros.
  destruct (cell_loaders_ok k c X y X' y' Hc Ht Hv) as (k' & E & G & _).
  exists k', 64. split_and!; [done| | | |].
  - rewrite G. solve_lookup.
  - rewrite G. solve_lookup.
  - by eapply batches_whole.
  - by eapply batches_whole.
Qed.

(** X10. Of the cells of the tutorial, from any state of the kernel:
    only the set-up cell creates a layer or an optimiser, and only the
    training cell zeroes gradients, runs a backward pass or steps an
    optimiser. *)
Theorem only_the_training_cell_trains :
  Tutorial.cells !! 26 = Some Tutorial.cell_setup ∧
  Tutorial.cells !! 27 = Some Tutorial.cell_train ∧
  Forall (λ c : M unit,
            ∀ k, ∃ evs, log (c k).1 = log k ++ evs ∧
                        filter (λ e, is_building e) evs = [])
    (delete 26 Tutorial.cells) ∧
  Forall (λ c : M unit,
            ∀ k, ∃ evs, log (c k).1 = log k ++ evs ∧
                        filter (λ e, is_training e) evs = [])
    (delete 27 Tutorial.cells).
Proof.
  split; [done|]. split; [done|]. split.
  - change (Forall (obeys (silent is_building)) (delete 26 Tutorial.cells)).
    unfold Tutorial.cells. cbn [delete list_delete].
    repeat apply Forall_cons_2; [..|done]; obey silent_side.
  - change (Forall (obeys (silent is_training)) (delete 27 Tutorial.cells)).
    unfold Tutorial.cells. cbn [delete list_delete].
    repeat apply Forall_cons_2; [..|done]; obey silent_side.
Qed.

(** X11. With training windows of any width other than 135, the
    training cell raises a size mismatch at the first forward pass of
    the first epoch: gradients have been zeroed, no backward pass and no
    optimiser step is made, nothing is printed, and the parameter
    values of the network are what they were. *)
Theorem training_needs_width_135 k mid oid net o w (tx ty : list num) :
  globals k !! "n_epochs" = Some (VInt 100) →
  globals k !! "fcn" = Some (VRef mid) →
  globals k !! "optimiser" = Some (VRef oid) →
  globals k !! "train_loader"
    = Some (VLoader {| np.shape := [22; w]; np.data := tx |}
                    {| np.shape := [22; w]; np.data := ty |} 64) →
  heap k !! mid = Some (OModule net) → network_ok net →
  heap k !! oid = Some (OAdam o) → params o = mid →
  w ≠ 135 →
  ∃ k' net',
    Tutorial.cell_train k = (k', Raise (RuntimeError "size mismatch")) ∧
    log k' = log k ++ [EvCall "Module.train"; EvCall "Optimizer.zero_grad";
                       EvCall "FCN.forward";
                       EvRaise (RuntimeError "size mismatch")] ∧
    stdout k' = stdout k ∧
    heap k' = <[mid := OModule net']> (heap k) ∧
    nn.value <$> FCN.parameters net' = nn.value <$> FCN.parameters net.
Proof.
  intros Hn Hfcn Hopt Htrain Hmid Hnet Hoid Hpar Hw.
  assert (mid ≠ oid) as Hne by (intros ->; congruence).
  assert (oid ≠ mid) as Hne' by done.
  destruct o as [pm lr st]. simpl in Hpar. subst pm.
  assert (∀ tx', FCN.forward (FCN.map_parameters (λ _, torch.zero_param)
                                (FCN.set_training true net)) nn.float32
            (np.map_array single {| np.shape := [22; w]; np.data := tx' |})
          = Raise (RuntimeError "size mismatch")) as Hfwd.
  { intros tx'. apply (wrong_width_raises _ _ _ w); [|done|done].
    eauto with lib nocore. }
  eexists _, _. split.
  { unfold Tutorial.cell_train.
    eapply run_bind; [run|]. cbv beta.
    change (range 100) with (0%Z :: (Z.of_nat <$> seq 1 99)). cbn [for_].
    eapply run_bind_raise. unfold Tutorial.epoch.
    eapply run_bind; [run|]. cbv beta.
    eapply run_bind_raise. unfold Tutorial.training_pass.
    eapply run_bind; [run|]. cbv beta.
    eapply run_bind; [run|]. cbv beta.
    unfold Tutorial.for_loader.
    eapply run_bind; [run|]. cbv beta iota.
    rewrite batches_22. cbn [for_ fst snd].
    eapply run_bind_raise.
    eapply run_bind; [run|]. cbv beta.
    eapply run_bind; [run|]. cbv beta.
    unfold Tutorial.train_step.
    eapply run_bind; [run|]. cbv beta.
    eapply run_bind; [run|]. cbv beta.
    eapply run_bind_raise. unfold Tutorial.evaluate.
    eapply run_bind; [run|]. cbv beta.
    eapply run_bind; [run|]. cbv beta.
    eapply run_bind_raise. unfold torch.call_module.
    eapply run_bind; [run|]. cbv beta.
    eapply run_bind; [run|]. cbv beta.
    eapply run_bind; [run|]. cbv beta iota.
    eapply run_bind_raise. kernel_simpl.
    eapply run_lift_raise. apply Hfwd. }
  kernel_simpl. split_and!.
  - by rewrite <- !app_assoc.
  - done.
  - rewrite !list_insert_insert_eq. reflexivity.
  - reflexivity.
Qed.

(** X12. The training cell creates nothing: run again, it trains the
    same network with the same optimiser from where they are.  The
    objects on the heap stay where they were, [fcn] and [optimiser]
    refer to them, and every parameter has had 100 more steps. *)
Theorem retraining_continues k mid oid tx ty vx vy net o :
  ready k mid oid tx ty vx vy →
  heap k !! mid = Some (OModule net) → network_ok net →
  heap k !! oid = Some (OAdam o) → params o = mid →
  ∃ k' net' o' lines,
    Tutorial.cell_train k = (k', Ok ()) ∧
    length (heap k') = length (heap k) ∧
    heap k' !! mid = Some (OModule net') ∧ heap k' !! oid = Some (OAdam o') ∧
    (∀ i, i ≠ mid → i ≠ oid → heap k' !! i = heap k !! i) ∧
    globals k' !! "fcn" = Some (VRef mid) ∧
    globals k' !! "optimiser" = Some (VRef oid) ∧
    network_ok net' ∧ params o' = mid ∧ rate o' = rate o ∧
    (∀ i, i < 6 → steps_of o' i = 100 + steps_of o i) ∧
    stdout k' = stdout k ++ lines ∧ length lines = 100.
Proof.
  intros Hready Hmid Hnet Hoid Hpar.
  assert (mid ≠ oid) as Hne by (intros ->; congruence).
  destruct (cell_train_ok k mid oid tx ty vx vy net o Hready Hmid Hnet Hoid Hpar)
    as (k' & net' & o' & lines & E & R & Hp & N & P & Q & S & O & Ll & Lv & L).
  exists k', net', o', lines. split_and!; try done.
  - by rewrite Hp, !length_insert.
  - rewrite Hp. eapply lookup_store_ne; [done|]. by eapply lookup_store_eq.
  - rewrite Hp. by eapply lookup_store_eq, lookup_store_ne.
  - intros i H1 H2. rewrite Hp. by rewrite !list_lookup_insert_ne.
  - by destruct R.
  - by destruct R.
Qed.

(** X13. From every state of the kernel, the cell that predicts with
    the network leaves the parameters of every network and the state of
    every optimiser as they were, records nothing for autograd, and
    leaves gradient recording switched as it found it. *)
Theorem prediction_keeps_weights k :
  let k' := (Tutorial.cell_predict_nn k).1 in
  weights k' = weights k ∧ optimisers k' = optimisers k ∧
  grad_enabled k' = grad_enabled k ∧
  ∃ evs, log k' = log k ++ evs ∧
         (EvCall "autograd.record" ∉ evs) ∧ (EvCall "Tensor.backward" ∉ evs) ∧
         (EvCall "Optimizer.step" ∉ evs).
Proof.
  assert (obeys untrained Tutorial.cell_predict_nn) as Hc.
  { unfold Tutorial.cell_predict_nn. obey_untrained. }
  destruct (Hc k) as (Hw & Ho & Hg & evs & Hl & Hn).
  split_and!; [done..|]. exists evs.
  split_and!; [done|..]; apply Hn; unfold training_calls;
    repeat first [apply list_elem_of_here | apply list_elem_of_further].
Qed.

(** X14. The call of [plot_nn] completes exactly when [curve_fit] has
    3240 elements and the series 3248 samples: with any other number of
    elements the reshape raises, and with any other length of the
    series the plot of [time[8:]] against the 3240 predictions raises. *)
Theorem plot_nn_needs_3240 k c (ts vs : list num) (y : np.ndarray) :
  globals k !! "plot_nn" = Some (VFunction plot_nn) →
  globals k !! "plt" = Some c →
  globals k !! "time" = Some (VArray (np.array ts)) →
  globals k !! "ss_number" = Some (VArray (np.array vs)) →
  globals k !! "curve_fit" = Some (VArray y) →
  length ts = length vs →
  match (Tutorial.cell_call "plot_nn" k).2 with
  | Ok _ => length (np.data y) = 3240 ∧ length ts = 3248
  | Raise e =>
      (length (np.data y) ≠ 3240 ∧ e = ValueError "cannot reshape array") ∨
      (length (np.data y) = 3240 ∧ length ts ≠ 3248 ∧
       e = ValueError "x and y must have same first dimension")
  end.
Proof.
  intros Hf Hplt Ht Hv Hy Hlen.
  destruct (tail_of_series ts) as [d Hs].
  assert (np.shape (np.array ts) = [length ts]) as St by done.
  assert (np.shape (np.array vs) = [length ts]) as Sv by (by rewrite Hlen).
  assert (length (np.data y) = 3240 ∨ length (np.data y) ≠ 3240) as [Ly|Ly] by lia;
    [pose proof (reshape_flat y Ly) as Hr
    |pose proof (reshape_flat_other y Ly) as Hr].
  - assert (length ts = 3248 ∨ length ts ≠ 3248) as [Lt|Lt] by lia.
    + rewrite Lt in Hs. change (3248 - 8) with 3240 in Hs.
      assert (∃ k', Tutorial.cell_call "plot_nn" k = (k', Ok ())) as [k' ->].
      { eexists. unfold Tutorial.cell_call.
        eapply run_bind; [run|]. cbv beta iota.
        unfold Tutorial.body, Tutorial.plot_points. run. }
      done.
    + assert (∃ k', Tutorial.cell_call "plot_nn" k
                = (k', Raise (ValueError "x and y must have same first dimension")))
        as [k' ->].
      { eexists. unfold Tutorial.cell_call.
        eapply run_bind; [run|]. cbv beta iota.
        unfold Tutorial.body, Tutorial.plot_points.
        eapply run_bind; [run|]. cbv beta.
        eapply run_bind; [run|]. cbv beta.
        eapply run_bind_raise.
        unfold Tutorial.plt_plot.
        eapply run_bind; [run|]. cbv beta.
        eapply run_bind; [unfold Tutorial.reshaped; run|]. cbv beta.
        eapply run_bind; [unfold Tutorial.reshaped; run|]. cbv beta.
        eapply run_lift_raise. apply plot_rejects. cbn. intros [= Hh]. lia. }
      right. done.
  - assert (∃ k', Tutorial.cell_call "plot_nn" k
              = (k', Raise (ValueError "cannot reshape array"))) as [k' ->].
    { eexists. unfold Tutorial.cell_call.
      eapply run_bind; [run|]. cbv beta iota.
      unfold Tutorial.body, Tutorial.plot_points.
      eapply run_bind; [run|]. cbv beta.
      eapply run_bind; [run|]. cbv beta.
      eapply run_bind_raise.
      unfold Tutorial.plt_plot.
      eapply run_bind; [run|]. cbv beta.
      eapply run_bind; [run|]. cbv beta.
      eapply run_bind_raise. eapply run_fmap_raise. unfold Tutorial.reshaped.
      eapply run_bind; [run|]. cbv beta.
      eapply run_lift_raise. done. }
    left. done.
Qed.

(** X15. After training, the prediction cell binds [curve_fit] to the
    outputs of the network for the 24 windows, as an array of shape 1
    by 24 by 135, that is 3240 elements; the heap and the switch of
    gradient recording are as before; and with a series of 3248 samples
    the call of [plot_nn] then completes. *)
Theorem prediction_then_plot k mid net c1 c2 (ws ts vs : list num) :
  globals k !! "torch" = Some c1 →
  globals k !! "plt" = Some c2 →
  globals k !! "fcn" = Some (VRef mid) →
  heap k !! mid = Some (OModule net) → network_ok net →
  globals k !! "times_rs"
    = Some (VArray {| np.shape := [24; 135]; np.data := ws |}) →
  length ws = 3240 →
  globals k !! "time" = Some (VArray (np.array ts)) →
  globals k !! "ss_number" = Some (VArray (np.array vs)) →
  length ts = 3248 → length vs = 3248 →
  ∃ k' y,
    run_all [Tutorial.cell_predict_nn; Tutorial.cell_def plot_nn;
             Tutorial.cell_call "plot_nn"] k = (k', Ok ()) ∧
    globals k' !! "curve_fit" = Some (VArray y) ∧
    np.shape y = [1; 24; 135] ∧
    np.data y = concat (sample_forward net <$> np.chunks 135 (single <$> ws)) ∧
    length (np.data y) = 3240 ∧
    heap k' = heap k ∧ grad_enabled k' = grad_enabled k ∧
    log k' = log k ++ [EvCall "FCN.forward"; EvCall "plt.figure";
                       EvCall "plt.plot"; EvCall "ndarray.__getitem__";
                       EvCall "ndarray.reshape"; EvCall "plt.plot";
                       EvCall "plt.ylabel"; EvCall "plt.xlabel"].
Proof.
  intros Htorch Hplt Hfcn Hmid Hnet Hws Lw Ht Hv Lt Lv.
  pose proof (cell_predict_nn_ok k mid net c1 ws Htorch Hfcn Hmid Hnet Hws) as E1.
  set (y := {| np.shape := [1; 24; 135];
               np.data := concat (sample_forward net
                                    <$> np.chunks 135 (single <$> ws)) |}) in *.
  assert (length (np.data y) = 3240) as Ly.
  { apply (length_forward_rows net _ 24 Hnet). by rewrite length_fmap. }
  destruct (tail_of_series ts) as [d Hs].
  rewrite Lt in Hs. change (3248 - 8) with 3240 in Hs.
  pose proof (reshape_flat y Ly) as Hr.
  assert (length ts = length vs) as Hlen by congruence.
  eexists _, y. split.
  { unfold run_all. cbn [for_]. unfold id.
    eapply run_bind; [exact E1|]. cbv beta.
    eapply run_bind; [unfold Tutorial.cell_def; run|]. cbv beta.
    eapply run_bind; [|apply run_ret].
    unfold Tutorial.cell_call.
    eapply run_bind; [run|]. cbv beta iota.
    unfold Tutorial.body, Tutorial.plot_points, Tutorial.reshaped. run. }
  kernel_simpl. split_and!; try done.
  - solve_lookup.
  - by rewrite <- !app_assoc.
Qed.

(** X16. The plotting functions read [curve_fit] when they are called.
    The prediction cell of the network binds that name anew, to an
    array whose first axis has one entry; calling [plot_svr] or
    [plot_comp] after it raises, the grid having 1000 points. *)
Theorem network_prediction_shadows_curve_fit k mid net c1 c2
    (ws ts vs : list num) (g gk : np.ndarray) :
  globals k !! "torch" = Some c1 →
  globals k !! "plt" = Some c2 →
  globals k !! "fcn" = Some (VRef mid) →
  heap k !! mid = Some (OModule net) → network_ok net →
  globals k !! "times_rs"
    = Some (VArray {| np.shape := [24; 135]; np.data := ws |}) →
  globals k !! "time" = Some (VArray (np.array ts)) →
  globals k !! "ss_number" = Some (VArray (np.array vs)) →
  length ts = length vs →
  globals k !! "inf" = Some (VArray g) → np.shape g = [1000] →
  globals k !! "curve_fit_k" = Some (VArray gk) → np.shape gk = [1000] →
  globals k !! "plot_svr" = Some (VFunction plot_svr) →
  globals k !! "plot_comp" = Some (VFunction plot_comp) →
  let k1 := (Tutorial.cell_predict_nn k).1 in
  (Tutorial.cell_call "plot_svr" k1).2
    = Raise (ValueError "x and y must have same first dimension") ∧
  (Tutorial.cell_call "plot_comp" k1).2
    = Raise (ValueError "x and y must have same first dimension").
Proof.
  intros Htorch Hplt Hfcn Hmid Hnet Hws Ht Hv Hlen Hg Sg Hgk Sgk Hsvr Hcomp k1.
  subst k1.
  rewrite (cell_predict_nn_ok k mid net c1 ws Htorch Hfcn Hmid Hnet Hws).
  cbn [fst].
  set (y := {| np.shape := [1; 24; 135];
               np.data := concat (sample_forward net
                                    <$> np.chunks 135 (single <$> ws)) |}).
  assert (np.shape y = [1; 24; 135]) as Sy by done. clearbody y.
  split.
  - assert (∃ k', Tutorial.cell_call "plot_svr"
                (set_globals (insert "curve_fit" (VArray y))
                   (set_log (λ l, l ++ [EvCall "FCN.forward"]) k))
              = (k', Raise (ValueError "x and y must have same first dimension")))
      as [k' ->]; [|done].
    eexists. unfold Tutorial.cell_call.
    eapply run_bind; [run|]. cbv beta iota.
    unfold Tutorial.body, Tutorial.plot_points.
    eapply run_bind; [run|]. cbv beta.
    eapply run_bind; [run|]. cbv beta.
    eapply run_bind_raise.
    unfold Tutorial.plt_plot.
    eapply run_bind; [run|]. cbv beta.
    eapply run_bind; [run|]. cbv beta.
    eapply run_bind; [run|]. cbv beta.
    eapply run_lift_raise. apply plot_rejects. by rewrite Sg, Sy.
  - assert (∃ k', Tutorial.cell_call "plot_comp"
                (set_globals (insert "curve_fit" (VArray y))
                   (set_log (λ l, l ++ [EvCall "FCN.forward"]) k))
              = (k', Raise (ValueError "x and y must have same first dimension")))
      as [k' ->]; [|done].
    eexists. unfold Tutorial.cell_call.
    eapply run_bind; [run|]. cbv beta iota.
    unfold Tutorial.body, Tutorial.plot_points.
    eapply run_bind; [run|]. cbv beta.
    eapply run_bind; [run|]. cbv beta.
    eapply run_bind; [run|]. cbv beta.
    eapply run_bind_raise.
    unfold Tutorial.plt_plot.
    eapply run_bind; [run|]. cbv beta.
    eapply run_bind; [run|]. cbv beta.
    eapply run_bind; [run|]. cbv beta.
    eapply run_lift_raise. apply plot_rejects. by rewrite Sg, Sy.
Qed.

(** X22. The scaler takes no infinity.  With an infinite entry among
    the times, the cell that fits the scaler binds [ss] to a new scaler
    and raises [ValueError] in [fit], leaving the scaler unfitted; the
    cell that transforms the times then raises as well and binds
    nothing. *)
Theorem scaler_rejects_infinity k ts c :
  globals k !! "StandardScaler" = Some c →
  globals k !! "time" = Some (VArray (np.array ts)) →
  ts ≠ [] → forallb StandardScaler.admissible ts = false →
  ∃ k1 k2,
    Tutorial.cell_scaler_fit k
    = (k1, Raise (ValueError "input contains infinity")) ∧
    globals k1 = <["ss" := VRef (length (heap k))]> (globals k) ∧
    heap k1 = heap k ++ [OScaler None] ∧
    Tutorial.cell_scaler_transform k1
    = (k2, Raise (ValueError "this StandardScaler instance is not fitted yet")) ∧
    globals k2 = globals k1 ∧ heap k2 = heap k1.
Proof.
  intros Hc Ht Hts Hinf.
  assert (StandardScaler.fit {| np.shape := [length ts; 1]; np.data := ts |}
          = Raise (ValueError "input contains infinity")) as Hfit.
  { unfold StandardScaler.fit. cbn [np.shape np.data].
    rewrite bool_decide_false.
    2:{ intros [Hl|?]; [|done]. by apply length_zero_iff_nil in Hl. }
    by rewrite Hinf. }
  pose proof (reshape_column ts) as Hr.
  eexists _, _. split_and!.
  - unfold Tutorial.cell_scaler_fit.
    eapply run_bind; [run|]. cbv beta.
    eapply run_bind; [run|]. cbv beta.
    eapply run_bind; [run|]. cbv beta.
    eapply run_bind; [run|]. cbv beta.
    eapply run_bind; [run|]. cbv beta.
    unfold sklearn.fit_scaler.
    eapply run_bind; [run|]. cbv beta.
    eapply run_bind; [run|]. cbv beta.
    eapply run_bind_raise. eapply run_lift_raise. exact Hfit.
  - done.
  - done.
  - unfold Tutorial.cell_scaler_transform.
    eapply run_bind; [run|]. cbv beta.
    eapply run_bind; [run|]. cbv beta.
    eapply run_bind_raise. unfold sklearn.transform.
    eapply run_bind; [run|]. cbv beta.
    eapply run_bind; [run|]. cbv beta.
    eapply run_lift_raise. reflexivity.
  - done.
  - done.
Qed.

End Further.

(** ** Running the whole tutorial *)

#[export] Hint Extern 1 (np.shape _ = _ :: _) => reflexivity : lib.

(** From a fresh kernel the namespace and the heap are known: a lookup
    is settled by computing it. *)
Ltac solve_lookup ::=
  kernel_simpl;
  first [ reflexivity
        | repeat first [ rewrite lookup_insert_eq
                       | rewrite lookup_insert_ne by done ];
          first [ reflexivity | eassumption ] ].

Ltac solve_heap ::=
  kernel_simpl; rewrite ?insert_snoc;
  first [ eassumption
        | apply list_lookup_middle; reflexivity
        | solve [ eauto 40 with heap nocore ]
        | reflexivity ].

Section RunAll.
Context `{Numerics} `{!Learners}.
Implicit Types (k : Kernel).

Lemma for_app {X} (l1 l2 : list X) (f : X → M unit) k k1 :
  for_ l1 f k = (k1, Ok ()) → for_ (l1 ++ l2) f k = for_ l2 f k1.
Proof.
  revert k. induction l1 as [|x l1 IH]; intros k; cbn [for_ app].
  - by intros [= ->].
  - unfold mbind, M_bind. destruct (f x k) as [k' [[]|e]]; [|done]. apply IH.
Qed.

(** the training cell binds only the names of its loops *)
Lemma train_keeps x :
  x ≠ "j" → x ≠ "inp" → x ≠ "out" → x ≠ "model" → x ≠ "l" → x ≠ "losses" →
  obeys (bound_alike x) Tutorial.cell_train.
Proof.
  intros ? ? ? ? ? ?. unfold Tutorial.cell_train.
  obey ltac:(unfold logs_ok, raises_ok; intros;
             first [ apply bound_alike_set_var; congruence
                   | reflexivity | assumption ]).
Qed.

(** The cells up to the loaders, from a fresh kernel, for a table of
    3248 rows of finite numbers and regressors that work. *)
Lemma data_cells_ok (fs : gmap string File) text rows :
  fs !! "SN_m_tot_V2.0.csv" = Some (TextFile text) →
  read_rows ";" None Tutorial.csv_names text = Ok rows →
  length rows = 3248 →
  let ts := pd.cell 2 <$> rows in
  let vs := pd.cell 3 <$> rows in
  let z := λ x, fdiv (fsub x (mean ts)) (std ts) in
  let grid := np.data (np.linspace (of_Z 1600) (of_Z 2200) 1000) in
  forallb is_finite (ts ++ vs ++ (z <$> ts)) = true →
  forallb is_finite (grid ++ (z <$> grid)) = true →
  regressors_work →
  ∃ kA (ws us : list num) f1 f2 n,
    ws = drop 8 (z <$> ts) ∧
    us = drop 8 vs ∧
    for_ (take 26 Tutorial.cells) id (fresh fs) = (kA, Ok ()) ∧
    length ts = 3248 ∧ length vs = 3248 ∧
    length ws = 24 * 135 ∧ length us = 24 * 135 ∧
    globals kA !! "time" = Some (VArray (np.array ts)) ∧
    globals kA !! "ss_number" = Some (VArray (np.array vs)) ∧
    globals kA !! "times_rs"
      = Some (VArray {| np.shape := [24; 135]; np.data := ws |}) ∧
    globals kA !! "train_loader"
      = Some (VLoader {| np.shape := [22; 135]; np.data := take (22 * 135) ws |}
                      {| np.shape := [22; 135]; np.data := take (22 * 135) us |} 64) ∧
    globals kA !! "val_loader"
      = Some (VLoader {| np.shape := [2; 135]; np.data := drop (22 * 135) ws |}
                      {| np.shape := [2; 135]; np.data := drop (22 * 135) us |} 64) ∧
    globals kA !! "FCN" = Some (VClass "FCN") ∧
    globals kA !! "nn" = Some (VModule "torch.nn") ∧
    globals kA !! "optim" = Some (VModule "torch.optim") ∧
    globals kA !! "torch" = Some (VModule "torch") ∧
    globals kA !! "np" = Some (VModule "numpy") ∧
    globals kA !! "plt" = Some (VModule "matplotlib.pyplot") ∧
    heap kA = [OScaler (Some {| StandardScaler.mean_ := [mean ts];
                                StandardScaler.scale_ := [std ts] |});
               ORegressor SVR Tutorial.the_kernel (Some f1);
               ORegressor KernelRidge Tutorial.the_kernel (Some f2)] ∧
    stdout kA
    = time_report n
        ++ ["<class 'numpy.ndarray'> <class 'torch.Tensor'> <class 'numpy.ndarray'>"] ∧
    grad_enabled kA = true.
Proof.
  intros Hf Hrows Hn ts0 vs0 z0 grid0 Hdata Hgrid Hwork.
  rewrite forallb_app in Hdata. apply andb_prop in Hdata as [Fts Hdata].
  rewrite forallb_app in Hdata. apply andb_prop in Hdata as [Fvs Fzs].
  rewrite forallb_app in Hgrid. apply andb_prop in Hgrid as [Fg Fgs].
  pose proof (read_csv_ok fs Tutorial.csv_path ";" Tutorial.csv_names text rows
                Hf Hrows) as Hcsv.
  pose proof (getitem_date rows) as Hd.
  pose proof (getitem_mean rows) as Hm.
  fold ts0 in Hd. fold vs0 in Hm.
  assert (length ts0 = 3248) as Lt by (unfold ts0; by rewrite length_fmap).
  assert (length vs0 = 3248) as Lv by (unfold vs0; by rewrite length_fmap).
  set (ts := ts0) in *. set (vs := vs0) in *. clearbody ts vs. clear ts0 vs0.
  assert (ts ≠ []) as Hne by (intros ->; done).
  assert (forallb StandardScaler.admissible ts = true) as Ats.
  { apply forallb_forall. intros x Hx. unfold StandardScaler.admissible.
    by rewrite (proj1 (forallb_forall _ _) Fts x Hx). }
  assert (forallb StandardScaler.admissible grid0 = true) as Ag.
  { apply forallb_forall. intros x Hx. unfold StandardScaler.admissible.
    by rewrite (proj1 (forallb_forall _ _) Fg x Hx). }
  pose proof (reshape_column ts) as Hr. rewrite Lt in Hr.
  pose proof (fit_column ts Hne Ats) as Hfit. rewrite Lt in Hfit.
  pose proof (transform_column (mean ts) (std ts) ts Hne Ats) as Htr.
  rewrite Lt in Htr.
  fold z0 in Htr.
  set (zs := z0 <$> ts) in *.
  assert (length zs = 3248) as Lz by (unfold zs; by rewrite length_fmap).
  assert (zs = z0 <$> ts) as Ezs by done.
  clearbody zs.
  set (time_ss := {| np.shape := [3248; 1]; np.data := zs |}) in *.
  assert (forallb is_finite (np.data time_ss ++ np.data (np.array vs)) = true)
    as Fxy.
  { change (forallb is_finite (zs ++ vs) = true).
    by rewrite forallb_app, Fzs, Fvs. }
  destruct (Hwork SVR time_ss (np.array vs) 3248) as (f1 & Hf1 & P1);
    [done|by cbn; rewrite Lv|done|done|by cbn|done|].
  destruct (Hwork KernelRidge time_ss (np.array vs) 3248) as (f2 & Hf2 & P2);
    [done|by cbn; rewrite Lv|done|done|by cbn|done|].
  pose proof (reshape_linspace (of_Z 1600) (of_Z 2200) 1000) as Hrl.
  pose proof (transform_grid (mean ts) (std ts) (of_Z 1600) (of_Z 2200) 1000
                ltac:(done) Ag) as Htg.
  fold z0 in Htg. fold grid0 in Htg, Hrl.
  assert (np.shape (np.linspace (of_Z 1600) (of_Z 2200) 1000) = [1000]) as Sg.
  { unfold np.linspace, np.array. cbn [np.shape].
    by rewrite length_fmap, length_seq. }
  assert (length grid0 = 1000) as Lg by apply length_linspace.
  set (grid := np.linspace (of_Z 1600) (of_Z 2200) 1000) in *.
  set (gs := z0 <$> grid0) in *.
  assert (length gs = 1000) as Lgs by (unfold gs; by rewrite length_fmap).
  clearbody gs.
  set (inf_ss := {| np.shape := [1000; 1]; np.data := gs |}) in *.
  destruct (P1 inf_ss 1000 eq_refl ltac:(done) Lgs Fgs) as (Y1 & HY1 & SY1).
  destruct (P2 inf_ss 1000 eq_refl ltac:(done) Lgs Fgs) as (Y2 & HY2 & SY2).
  assert (∃ ws, ws = drop 8 zs ∧ length ws = 24 * 135 ∧
            np.getslice time_ss (Some 8%Z) None
            = Ok {| np.shape := [3240; 1]; np.data := ws |} ∧
            np.reshape {| np.shape := [3240; 1]; np.data := ws |} [24; -1]%Z
            = Ok {| np.shape := [24; 135]; np.data := ws |})
    as (ws & Ews & Lw & Hs1 & Hr1).
  { exists (drop 8 zs). split; [done|]. split; [by rewrite length_drop, Lz|].
    split.
    - unfold np.getslice, np.between, time_ss. cbn [np.shape np.data].
      change (np.bound 3248 0 (Some 8%Z)) with 8.
      change (np.bound 3248 3248 None) with 3248.
      change (3248 - 8) with 3240. change (np.size_of [1]) with 1.
      rewrite !Nat.mul_1_r.
      by rewrite take_ge by (rewrite length_drop; lia).
    - unfold np.reshape. cbn [np.data]. rewrite length_drop, Lz.
      change (3248 - 8) with 3240. reflexivity. }
  assert (∃ us, us = drop 8 vs ∧ length us = 24 * 135 ∧
            np.getslice (np.array vs) (Some 8%Z) None
            = Ok {| np.shape := [3240]; np.data := us |} ∧
            np.reshape {| np.shape := [3240]; np.data := us |} [24; -1]%Z
            = Ok {| np.shape := [24; 135]; np.data := us |})
    as (us & Eus & Lu & Hs2 & Hr2).
  { exists (drop 8 vs). split; [done|]. split; [by rewrite length_drop, Lv|].
    split.
    - unfold np.getslice, np.between, np.array. cbn [np.shape np.data].
      rewrite Lv.
      change (np.bound 3248 0 (Some 8%Z)) with 8.
      change (np.bound 3248 3248 None) with 3248.
      change (3248 - 8) with 3240. change (np.size_of []) with 1.
      rewrite !Nat.mul_1_r.
      by rewrite take_ge by (rewrite length_drop; lia).
    - unfold np.reshape. cbn [np.data]. rewrite length_drop, Lv.
      change (3248 - 8) with 3240. reflexivity. }
  pose proof (slice_train ws) as Ht1. pose proof (slice_val ws Lw) as Hv1.
  pose proof (slice_train us) as Ht2. pose proof (slice_val us Lu) as Hv2.
  pose proof dataset_check as Hds.
  clear Hwork P1 P2.
  eexists _, ws, us, f1, f2, _.
  split_and!; [by rewrite Ews, Ezs | done | ..].
  { unfold Tutorial.cells. cbn [take for_]. unfold id.
    autounfold with steps. unfold pd.to_numpy. fold grid. clearbody grid.
    run. }
  all: kernel_simpl; try done; solve_lookup.
Qed.



(** X20. The training cell reads the number of epochs when it starts:
    with [n_epochs] bound to zero or to a negative number it completes
    at once and leaves the kernel exactly as it was. *)
Theorem no_epochs_no_training k n :
  globals k !! "n_epochs" = Some (VInt n) → (n ≤ 0)%Z →
  Tutorial.cell_train k = (k, Ok ()).
Proof.
  intros Hn Hle. unfold Tutorial.cell_train.
  eapply run_bind; [eapply run_bind; [by apply run_get_var|apply run_ret]|].
  unfold range. replace (Z.to_nat n) with 0 by lia. reflexivity.
Qed.

(** X21. On no disk does running the cells of the exercises in order
    reach the end: without the array it stops in the loader, with the
    exception of the loader, and with it in the bar-chart cell, with
    [NameError] for [pca].  Nothing has been printed and no object
    created. *)
Theorem exercises_never_run_to_the_end (fs : gmap string File) :
  ∃ k' e,
    run_all Exercises.cells (fresh fs) = (k', Raise e) ∧
    e = match np_load_item fs "data.npz" "data" with
        | Ok _ => NameError "pca"
        | Raise e' => e'
        end ∧
    stdout k' = [] ∧ heap k' = [].
Proof.
  destruct (np_load_item fs "data.npz" "data") as [a|e'] eqn:Hload.
  - eexists _, _. split.
    { unfold run_all, Exercises.cells. cbn [for_]. unfold id.
      eapply run_bind; [unfold Exercises.cell_magic; run|]. cbv beta.
      eapply run_bind; [unfold Exercises.cell_imports; run|]. cbv beta.
      eapply run_bind; [unfold Exercises.cell_load; run|]. cbv beta.
      eapply run_bind; [unfold Exercises.cell_import_PCA; run|]. cbv beta.
      eapply run_bind; [unfold Exercises.cell_todo; run|]. cbv beta.
      eapply run_bind_raise. unfold Exercises.cell_bar.
      eapply run_bind; [run|]. cbv beta.
      eapply run_bind; [run|]. cbv beta.
      eapply run_bind; [run|]. cbv beta.
      eapply run_bind; [run|]. cbv beta.
      eapply run_bind_raise.
      apply run_get_var_unbound. solve_lookup. }
    kernel_simpl. done.
  - eexists _, _. split.
    { unfold run_all, Exercises.cells. cbn [for_]. unfold id.
      eapply run_bind; [unfold Exercises.cell_magic; run|]. cbv beta.
      eapply run_bind; [unfold Exercises.cell_imports; run|]. cbv beta.
      eapply run_bind_raise. unfold Exercises.cell_load.
      eapply run_bind; [run|]. cbv beta.
      eapply run_bind; [run|]. cbv beta.
      eapply run_bind; [run|]. cbv beta.
      eapply run_bind_raise. kernel_simpl.
      eapply run_lift_raise. exact Hload. }
    kernel_simpl. done.
Qed.

End RunAll.

(** ** The claims on the example inputs *)

Import Float64.

Lemma loader_reads_seven_columns_witness :
  ∃ df,
    (Tutorial.cell_read_csv Example.tutorial_started).2 = Ok () ∧
    globals (Tutorial.cell_read_csv Example.tutorial_started).1
    = <["ss_data" := VFrame df]> (globals Example.tutorial_started) ∧
    df.*1 = ["Year"; "Month"; "Date in fraction of year"; "Monthly mean";
             "Monthly standard deviation"; "Number of observations";
             "Definitive/provisional marker"] ∧
    length df = 7 ∧
    ∀ j col, df.*2 !! j = Some col → col = pd.cell j <$> Example.table.
Proof.
  destruct (loader_reads_seven_columns Example.tutorial_started) as (_ & H & _).
  exact (proj2 H).
Defined.

Lemma time_and_value_aligned_witness :
  ∃ rows k2 ts vs,
    read_rows ";" None Tutorial.csv_names Example.series = Ok rows ∧
    globals (Tutorial.cell_read_csv Example.tutorial_started).1 !! "ss_data"
      = Some (VFrame (pd.frame Tutorial.csv_names rows)) ∧
    Tutorial.cell_extract (Tutorial.cell_read_csv Example.tutorial_started).1
      = (k2, Ok ()) ∧
    globals k2 !! "time" = Some (VArray (np.array ts)) ∧
    globals k2 !! "ss_number" = Some (VArray (np.array vs)) ∧
    length ts = length vs ∧
    length ts = length rows ∧
    ∀ i row, rows !! i = Some row →
             ts !! i = Some (pd.cell 2 row) ∧ vs !! i = Some (pd.cell 3 row).
Proof.
  apply (time_and_value_aligned Example.tutorial_started _ Example.series).
  - reflexivity.
  - reflexivity.
Defined.

Lemma zero_layer_ok i o : layer_ok i o (Example.zero_layer i o).
Proof.
  unfold layer_ok, Example.zero_layer, Example.zero_param, Example.zeros.
  cbn [nn.in_features nn.out_features nn.weight nn.bias nn.value np.shape np.data].
  rewrite !length_replicate. unfold np.size_of. cbn [foldr].
  by rewrite !Nat.mul_1_r.
Qed.

Lemma forward_three_layers_witness :
  let x : list num := replicate 135 (of_Z 0) in
  let h1 := fmax (of_Z 0) <$> nn.affine (FCN.fc1 Example.zero_net) x in
  let h2 := fmax (of_Z 0) <$> nn.affine (FCN.fc1b Example.zero_net) h1 in
  let y := nn.affine (FCN.fc2 Example.zero_net) h2 in
  FCN.forward Example.zero_net nn.float32 (np.array x) = Ok (np.array y) ∧
  length h1 = 1000 ∧ length h2 = 1000 ∧ length y = 135 ∧
  FCN.forward Example.zero_net nn.float64 (np.array x)
  = Raise (RuntimeError "expected scalar type Float but found Double").
Proof.
  apply (forward_three_layers Example.zero_net).
  - split_and!; apply zero_layer_ok.
  - apply length_replicate.
Defined.

(** The claim as the spec words it, for every input vector of length
    135, fails on a vector in double precision. *)
Lemma forward_three_layers_counterexample :
  let x : list num := replicate 135 (of_Z 0) in
  network_ok Example.zero_net ∧ length x = 135 ∧
  FCN.forward Example.zero_net nn.float64 (np.array x)
  = Raise (RuntimeError "expected scalar type Float but found Double").
Proof.
  split_and!.
  - split_and!; apply zero_layer_ok.
  - apply length_replicate.
  - reflexivity.
Qed.

(** The claim as the spec words it, no operation catches an exception,
    fails on the cell under [%%time]: with 3248 samples and 3240
    targets the regressor raises, and the cell completes. *)
Lemma exceptions_propagate_counterexample :
  let k := Example.tutorial_mismatched in
  Tutorial.cells !! 8 = Some Tutorial.cell_svr_fit ∧
  globals k !! "time_ss" = Some (VArray (Example.zeros [3248; 1])) ∧
  globals k !! "ss_number" = Some (VArray (Example.zeros [3240])) ∧
  (Tutorial.cell_svr_fit k).2 = Ok () ∧
  log (Tutorial.cell_svr_fit k).1
  = log k ++ [EvCall "%%time"; EvCall "estimator.fit";
              EvRaise (ValueError "inconsistent numbers of samples");
              EvCall "showtraceback"].
Proof.
  split_and!; reflexivity.
Qed.

Lemma loader_reads_matrix_by_name_witness :
  size Example.archive = 2 ∧
  Example.archive !! "data" = Some (Example.zeros [400; 10]) ∧
  ∃ k', Exercises.cell_load Example.exercises_started = (k', Ok ()) ∧
        globals k' = <["data" := VArray (Example.zeros [400; 10])]>
                       (globals Example.exercises_started) ∧
        log k' = log Example.exercises_started
                   ++ [EvOpen "data.npz"; EvCall "np.load"].
Proof.
  apply (loader_reads_matrix_by_name Example.exercises_started Example.archive
           (Example.zeros [400; 10]) (VModule "numpy")).
  - reflexivity.
  - reflexivity.
  - split; reflexivity.
Defined.

Lemma sample_matrix_fixed_witness :
  np.shape (Example.zeros [400; 10]) = [400; 10] ∧
  globals (run_each Exercises.cells (fresh Example.disk)) !! "data"
    = Some (VArray (Example.zeros [400; 10])) ∧
  filter (λ e, is_open e) (log (run_each Exercises.cells (fresh Example.disk)))
    = [EvOpen "data.npz"] ∧
  ∀ cs k, Forall (λ c, c ∈ Exercises.later_cells) cs →
          globals (run_each cs k) !! "data" = globals k !! "data".
Proof.
  apply (sample_matrix_fixed Example.disk Example.archive).
  - reflexivity.
  - split; reflexivity.
Defined.

Lemma time_standardised_target_untouched_witness :
  let k := Example.tutorial_loaded in
  let ts : list num := pd.cell 2 <$> Example.table in
  let vs : list num := pd.cell 3 <$> Example.table in
  let z := λ x, fdiv (fsub x (mean ts)) (std ts) in
  let time_ss := {| np.shape := [length ts; 1]; np.data := z <$> ts |} in
  let k' := run_each [Tutorial.cell_scaler_fit; Tutorial.cell_scaler_transform;
                      Tutorial.cell_svr; Tutorial.cell_svr_fit;
                      Tutorial.cell_inf] k in
  globals k' !! "time_ss" = Some (VArray time_ss) ∧
  globals k' !! "inf_ss"
    = Some (VArray {| np.shape := [1000; 1];
                      np.data := z <$> np.data (np.linspace (of_Z 1600) (of_Z 2200) 1000) |}) ∧
  globals k' !! "ss_number" = Some (VArray (np.array vs)) ∧
  heap k' = heap k ++
    [OScaler (Some {| StandardScaler.mean_ := [mean ts];
                      StandardScaler.scale_ := [std ts] |});
     ORegressor SVR Tutorial.the_kernel
       (fitted_by (fit_regressor SVR Tutorial.the_kernel time_ss (np.array vs)) None)] ∧
  filter (λ e, e = EvCall "StandardScaler.fit") (drop (length (log k)) (log k'))
    = [EvCall "StandardScaler.fit"] ∧
  Forall (λ c : M unit,
            ∀ k0, globals (c k0).1 !! "ss_number" = globals k0 !! "ss_number")
    (delete 4 Tutorial.cells) ∧
  Forall (λ c : M unit,
            ∀ k0, ∃ evs, log (c k0).1 = log k0 ++ evs ∧
                         filter (λ e, is_scaling e) evs = [])
    (delete 5 (delete 6 (delete 9 Tutorial.cells))).
Proof.
  apply (time_standardised_target_untouched Example.tutorial_loaded _ _
           (VClass "StandardScaler") (VClass "SVR") (VClass "ConstantKernel")
           (VClass "ExpSineSquared") (VClass "RBF") (VModule "numpy")).
  - reflexivity.
  - reflexivity.
  - reflexivity.
  - reflexivity.
  - reflexivity.
  - reflexivity.
  - reflexivity.
  - reflexivity.
  - discriminate.
  - reflexivity.
  - vm_compute. reflexivity.
Defined.

Lemma training_runs_hundred_epochs_witness :
  ∃ k' net o lines,
    run_all [Tutorial.cell_setup; Tutorial.cell_train] Example.tutorial_windowed
      = (k', Ok ()) ∧
    globals k' !! "n_epochs" = Some (VInt 100) ∧
    heap k' = heap Example.tutorial_windowed ++ [OModule net; OAdam o] ∧
    network_ok net ∧
    params o = length (heap Example.tutorial_windowed) ∧
    rate o = decimal 5 (-3) ∧
    (∀ i, i < 6 → steps_of o i = 100) ∧
    stdout k' = stdout Example.tutorial_windowed ++ lines ∧ length lines = 100 ∧
    (∀ j, j < 100 →
       ∃ v, lines !! j = Some (Tutorial.report_line (Z.of_nat j) [v])) ∧
    log k' = log Example.tutorial_windowed ++ setup_log
               ++ concat (replicate 100 epoch_log).
Proof.
  apply (training_runs_hundred_epochs Example.tutorial_windowed "FCN"
           (VModule "torch.nn") (VModule "torch.optim") (VModule "torch")
           (VModule "numpy")
           (np.data (Example.zeros [22; 135])) (np.data (Example.zeros [22; 135]))
           (np.data (Example.zeros [2; 135])) (np.data (Example.zeros [2; 135]))).
  - reflexivity.
  - reflexivity.
  - reflexivity.
  - reflexivity.
  - reflexivity.
  - reflexivity.
  - reflexivity.
  - reflexivity.
Defined.

Lemma split_is_partition_witness :
  ∃ k' W V TX Ty VX Vy,
    run_all [Tutorial.cell_times_rs; Tutorial.cell_ss_number_rs;
             Tutorial.cell_datasets] Example.tutorial_standardised = (k', Ok ()) ∧
    globals k' !! "times_rs" = Some (VArray W) ∧
    globals k' !! "ss_number_rs" = Some (VArray V) ∧
    globals k' !! "train_dataset" = Some (VDataset TX Ty) ∧
    globals k' !! "val_dataset" = Some (VDataset VX Vy) ∧
    np.shape W = [24; 135] ∧
    np.data W = drop 8 (np.data (Example.zeros [3248; 1])) ∧
    np.shape V = [24; 135] ∧
    np.data V = drop 8 (np.data (Example.zeros [3248])) ∧
    np.shape TX = [22; 135] ∧ np.shape Ty = [22; 135] ∧
    np.shape VX = [2; 135] ∧ np.shape Vy = [2; 135] ∧
    np.data TX ++ np.data VX = np.data W ∧
    np.data Ty ++ np.data Vy = np.data V ∧
    (∀ i, i < 24 → length (np.block 135 (np.data W) i) = 135) ∧
    (∀ i, i < 22 →
       np.block 135 (np.data TX) i = np.block 135 (np.data W) i ∧
       np.block 135 (np.data Ty) i = np.block 135 (np.data V) i) ∧
    (∀ j, j < 2 →
       np.block 135 (np.data VX) j = np.block 135 (np.data W) (22 + j) ∧
       np.block 135 (np.data Vy) j = np.block 135 (np.data V) (22 + j)).
Proof.
  apply (split_is_partition Example.tutorial_standardised
           (VClass "TensorDataset") (VModule "torch")).
  - reflexivity.
  - reflexivity.
  - reflexivity.
  - reflexivity.
  - apply length_replicate.
  - apply length_replicate.
Defined.

(** ** The further properties on the example inputs *)

Lemma loading_needs_the_array_witness :
  let k := run_each [Exercises.cell_magic; Exercises.cell_imports] (fresh ∅) in
  let k' := (Exercises.cell_load k).1 in
  log k' = log k ++ EvOpen "data.npz" :: EvCall "np.load"
             :: match (Exercises.cell_load k).2 with
                | Ok _ => []
                | Raise e => [EvRaise e]
                end ∧
  match files k !! "data.npz" with
  | None =>
      (Exercises.cell_load k).2 = Raise (FileNotFoundError "data.npz") ∧
      globals k' = globals k
  | Some (NpzFile arrays) =>
      match arrays !! "data" with
      | None =>
          (Exercises.cell_load k).2 = Raise (KeyError "data") ∧
          globals k' = globals k
      | Some a =>
          (Exercises.cell_load k).2 = Ok () ∧
          globals k' = <["data" := VArray a]> (globals k)
      end
  | Some (TextFile _) => globals k' = globals k
  end.
Proof.
  apply (loading_needs_the_array
           (run_each [Exercises.cell_magic; Exercises.cell_imports] (fresh ∅))
           (VModule "numpy")).
  reflexivity.
Defined.

Lemma run_all_needs_the_series_witness :
  ∃ k', run_all Tutorial.cells (fresh ∅)
        = (k', Raise (FileNotFoundError "SN_m_tot_V2.0.csv")) ∧
        log k' = [EvCall "%matplotlib inline"; EvOpen "SN_m_tot_V2.0.csv";
                  EvCall "pd.read_csv";
                  EvRaise (FileNotFoundError "SN_m_tot_V2.0.csv")] ∧
        globals k' !! "ss_data" = None ∧ heap k' = [] ∧ stdout k' = [].
Proof.
  apply (run_all_needs_the_series ∅). reflexivity.
Defined.

Lemma regressors_share_kernel_and_data_witness :
  let k := Example.tutorial_fitted in
  let X := Example.zeros [3248; 1] in
  let y := Example.zeros [3248] in
  let k' := run_each [Tutorial.cell_svr; Tutorial.cell_svr_fit;
                      Tutorial.cell_krr; Tutorial.cell_krr_fit] k in
  globals k' !! "svr" = Some (VRef (length (heap k))) ∧
  globals k' !! "krr" = Some (VRef (S (length (heap k)))) ∧
  globals k' !! "time_ss" = Some (VArray X) ∧
  globals k' !! "ss_number" = Some (VArray y) ∧
  heap k' = heap k ++
    [ORegressor SVR Tutorial.the_kernel
       (fitted_by (fit_regressor SVR Tutorial.the_kernel X y) None);
     ORegressor KernelRidge Tutorial.the_kernel
       (fitted_by (fit_regressor KernelRidge Tutorial.the_kernel X y) None)].
Proof.
  apply (regressors_share_kernel_and_data Example.tutorial_fitted
           (VClass "SVR") (VClass "KernelRidge") (VClass "ConstantKernel")
           (VClass "ExpSineSquared") (VClass "RBF"));
    try reflexivity.
Defined.

Lemma predicting_needs_a_fit_witness :
  ∃ k', Tutorial.predict_estimator "curve_fit" "svr" Example.tutorial_unfitted
        = (k', Raise (ValueError "this estimator is not fitted yet")) ∧
        globals k' = globals Example.tutorial_unfitted ∧
        heap k' = heap Example.tutorial_unfitted.
Proof.
  apply (predicting_needs_a_fit Example.tutorial_unfitted "curve_fit" "svr" 2
           SVR Tutorial.the_kernel (Example.zeros [1000; 1])).
  - reflexivity.
  - reflexivity.
  - reflexivity.
Defined.

Lemma forward_width_decides_witness :
  match FCN.forward Example.zero_net nn.float64 (Example.zeros [2; 135]) with
  | Ok y =>
      last (np.shape (Example.zeros [2; 135])) = Some 135 ∧
      nn.float64 = nn.float32 ∧
      np.shape y = np.shape (Example.zeros [2; 135])
  | Raise e =>
      (last (np.shape (Example.zeros [2; 135])) ≠ Some 135 ∨
       nn.float64 ≠ nn.float32) ∧
      ∃ msg, e = RuntimeError msg
  end.
Proof.
  apply (forward_width_decides Example.zero_net nn.float64
           (Example.zeros [2; 135])).
  split_and!; apply zero_layer_ok.
Defined.

Lemma windows_need_whole_rows_witness :
  let k := Example.tutorial_standardised in
  let d : list num := np.data (Example.zeros [3248; 1]) in
  let total := (3248 - 8) * np.size_of [1] in
  let k' := (Tutorial.windows "times_rs" "time_ss" k).1 in
  match (Tutorial.windows "times_rs" "time_ss" k).2 with
  | Ok _ =>
      total `mod` 24 = 0 ∧
      globals k' = <["times_rs" := VArray {| np.shape := [24; total `div` 24];
                                             np.data := drop (8 * np.size_of [1]) d |}]>
                     (globals k)
  | Raise e =>
      total `mod` 24 ≠ 0 ∧ e = ValueError "cannot reshape array" ∧
      globals k' = globals k
  end.
Proof.
  apply (windows_need_whole_rows Example.tutorial_standardised "times_rs"
           "time_ss" 3248 [1] (np.data (Example.zeros [3248; 1]))).
  - reflexivity.
  - reflexivity.
Defined.

Lemma loaders_yield_one_batch_witness :
  let X := Example.zeros [22; 135] in
  let X' := Example.zeros [2; 135] in
  let k := set_globals
             (λ g, <["val_dataset" := VDataset X' X']>
                     (<["train_dataset" := VDataset X X]> g))
             Example.tutorial_started in
  ∃ k' bs,
    Tutorial.cell_loaders k = (k', Ok ()) ∧
    globals k' !! "train_loader" = Some (VLoader X X bs) ∧
    globals k' !! "val_loader" = Some (VLoader X' X' bs) ∧
    torch.batches X X bs = [(X, X)] ∧
    torch.batches X' X' bs = [(X', X')].
Proof.
  apply (loaders_yield_one_batch _ (VClass "DataLoader")
           (Example.zeros [22; 135]) (Example.zeros [22; 135])
           (Example.zeros [2; 135]) (Example.zeros [2; 135])
           22 2 [135] [135] [135] [135]);
    try reflexivity.
  - lia.
  - lia.
Defined.

Lemma training_needs_width_135_witness :
  let k := Example.tutorial_wide in
  ∃ k' net',
    Tutorial.cell_train k = (k', Raise (RuntimeError "size mismatch")) ∧
    log k' = log k ++ [EvCall "Module.train"; EvCall "Optimizer.zero_grad";
                       EvCall "FCN.forward";
                       EvRaise (RuntimeError "size mismatch")] ∧
    stdout k' = stdout k ∧
    heap k' = <[0 := OModule net']> (heap k) ∧
    nn.value <$> FCN.parameters net' = nn.value <$> FCN.parameters Example.zero_net.
Proof.
  apply (training_needs_width_135 Example.tutorial_wide 0 1 Example.zero_net
           {| params := 0; rate := decimal 5 (-3); state := ∅ |} 136
           (np.data (Example.zeros [22; 136])) (np.data (Example.zeros [22; 136])));
    try reflexivity.
  - split_and!; apply zero_layer_ok.
  - lia.
Defined.

Lemma retraining_continues_witness :
  let k := Example.tutorial_ready in
  let o := {| params := 0; rate := decimal 5 (-3); state := ∅ |} in
  ∃ k' net' o' lines,
    Tutorial.cell_train k = (k', Ok ()) ∧
    length (heap k') = length (heap k) ∧
    heap k' !! 0 = Some (OModule net') ∧ heap k' !! 1 = Some (OAdam o') ∧
    (∀ i, i ≠ 0 → i ≠ 1 → heap k' !! i = heap k !! i) ∧
    globals k' !! "fcn" = Some (VRef 0) ∧
    globals k' !! "optimiser" = Some (VRef 1) ∧
    network_ok net' ∧ params o' = 0 ∧ rate o' = rate o ∧
    (∀ i, i < 6 → steps_of o' i = 100 + steps_of o i) ∧
    stdout k' = stdout k ++ lines ∧ length lines = 100.
Proof.
  apply (retraining_continues Example.tutorial_ready 0 1
           (np.data (Example.zeros [22; 135])) (np.data (Example.zeros [22; 135]))
           (np.data (Example.zeros [2; 135])) (np.data (Example.zeros [2; 135]))
           Example.zero_net
           {| params := 0; rate := decimal 5 (-3); state := ∅ |}).
  - split; first [ reflexivity | eexists; reflexivity ].
  - reflexivity.
  - split_and!; apply zero_layer_ok.
  - reflexivity.
  - reflexivity.
Defined.

Lemma plot_nn_needs_3240_witness :
  let k := Example.tutorial_fitted in
  let ts : list num := np.data (Example.zeros [3248]) in
  let y := Example.zeros [1000] in
  match (Tutorial.cell_call "plot_nn" k).2 with
  | Ok _ => length (np.data y) = 3240 ∧ length ts = 3248
  | Raise e =>
      (length (np.data y) ≠ 3240 ∧ e = ValueError "cannot reshape array") ∨
      (length (np.data y) = 3240 ∧ length ts ≠ 3248 ∧
       e = ValueError "x and y must have same first dimension")
  end.
Proof.
  apply (plot_nn_needs_3240 Example.tutorial_fitted (VModule "matplotlib.pyplot")
           (np.data (Example.zeros [3248])) (np.data (Example.zeros [3248]))
           (Example.zeros [1000]));
    try reflexivity.
Defined.

Lemma prediction_then_plot_witness :
  let k := Example.tutorial_fitted in
  let ws : list num := np.data (Example.zeros [24; 135]) in
  ∃ k' y,
    run_all [Tutorial.cell_predict_nn; Tutorial.cell_def plot_nn;
             Tutorial.cell_call "plot_nn"] k = (k', Ok ()) ∧
    globals k' !! "curve_fit" = Some (VArray y) ∧
    np.shape y = [1; 24; 135] ∧
    np.data y = concat (sample_forward Example.zero_net
                          <$> np.chunks 135 (single <$> ws)) ∧
    length (np.data y) = 3240 ∧
    heap k' = heap k ∧ grad_enabled k' = grad_enabled k ∧
    log k' = log k ++ [EvCall "FCN.forward"; EvCall "plt.figure";
                       EvCall "plt.plot"; EvCall "ndarray.__getitem__";
                       EvCall "ndarray.reshape"; EvCall "plt.plot";
                       EvCall "plt.ylabel"; EvCall "plt.xlabel"].
Proof.
  apply (prediction_then_plot Example.tutorial_fitted 0 Example.zero_net
           (VModule "torch") (VModule "matplotlib.pyplot")
           (np.data (Example.zeros [24; 135]))
           (np.data (Example.zeros [3248])) (np.data (Example.zeros [3248])));
    try reflexivity.
  - split_and!; apply zero_layer_ok.
Defined.

Lemma network_prediction_shadows_curve_fit_witness :
  let k1 := (Tutorial.cell_predict_nn Example.tutorial_fitted).1 in
  (Tutorial.cell_call "plot_svr" k1).2
    = Raise (ValueError "x and y must have same first dimension") ∧
  (Tutorial.cell_call "plot_comp" k1).2
    = Raise (ValueError "x and y must have same first dimension").
Proof.
  apply (network_prediction_shadows_curve_fit Example.tutorial_fitted 0
           Example.zero_net (VModule "torch") (VModule "matplotlib.pyplot")
           (np.data (Example.zeros [24; 135]))
           (np.data (Example.zeros [3248])) (np.data (Example.zeros [3248]))
           (Example.zeros [1000]) (Example.zeros [1000]));
    try reflexivity.
  - split_and!; apply zero_layer_ok.
Defined.

(** the baseline regressors do what the whole run asks of regressors *)
Lemma baseline_regressors_work : regressors_work.
Proof.
  intros a X y n HX Hy Hn LX Ly Hfin. eexists. split.
  - cbn [fit_regressor learners]. unfold baseline_fit. rewrite HX, Hy.
    change (forallb PrimFloat.is_finite (np.data X ++ np.data y) = true) in Hfin.
    rewrite Hfin.
    rewrite bool_decide_true by done. reflexivity.
  - intros X' m HX' Hm LX' Hfin'. eexists. split.
    + cbn [predict_regressor learners]. unfold baseline_predict. rewrite HX'.
      change (forallb PrimFloat.is_finite (np.data X') = true) in Hfin'.
      rewrite Hfin'. reflexivity.
    + cbn. by rewrite length_replicate.
Qed.

Lemma long_table_read :
  read_rows ";" None Tutorial.csv_names Example.long_series
  = Ok Example.long_table.
Proof. vm_compute. reflexivity. Qed.

Lemma long_table_finite :
  let ts : list num := pd.cell 2 <$> Example.long_table in
  let vs : list num := pd.cell 3 <$> Example.long_table in
  let z := λ x, fdiv (fsub x (mean ts)) (std ts) in
  let grid := np.data (np.linspace (of_Z 1600) (of_Z 2200) 1000) in
  length Example.long_table = 3248 ∧
  forallb is_finite (ts ++ vs ++ (z <$> ts)) = true ∧
  forallb is_finite (grid ++ (z <$> grid)) = true.
Proof. vm_compute. done. Qed.



Lemma scaler_rejects_infinity_witness :
  let k := Example.tutorial_unbounded in
  ∃ k1 k2,
    Tutorial.cell_scaler_fit k
    = (k1, Raise (ValueError "input contains infinity")) ∧
    globals k1 = <["ss" := VRef (length (heap k))]> (globals k) ∧
    heap k1 = heap k ++ [OScaler None] ∧
    Tutorial.cell_scaler_transform k1
    = (k2, Raise (ValueError "this StandardScaler instance is not fitted yet")) ∧
    globals k2 = globals k1 ∧ heap k2 = heap k1.
Proof.
  apply (scaler_rejects_infinity Example.tutorial_unbounded
           [from_Z 1749; PrimFloat.infinity] (VClass "StandardScaler")).
  - reflexivity.
  - reflexivity.
  - discriminate.
  - reflexivity.
Defined.

Lemma no_epochs_no_training_witness :
  let k := set_globals (insert "n_epochs" (VInt 0)) Example.tutorial_ready in
  Tutorial.cell_train k = (k, Ok ()).
Proof.
  apply (no_epochs_no_training
           (set_globals (insert "n_epochs" (VInt 0)) Example.tutorial_ready) 0).
  - reflexivity.
  - lia.
Defined.

